(** * Cloud Economizer: aggregation engine and recommendation engine

    A shallow embedding of
      - [cloud_economizer/analysis/analyzer.py]  (class [CloudAnalyzer])
      - [cloud_economizer/ai/insight_engine.py]  (class [InsightEngine])
    and the properties of the merge loop and of the ranking of
    recommendations.

    Conventions of the embedding.
      - A Python [dict] is an association list in insertion order with
        unique keys (module [Dict]); [d.get(k, default)] on a payload whose
        key may be missing is a record field of type [option].
      - Python integers are [Z].  Currency amounts (Python [int] or [float])
        are exact rationals [Q]; numeric equality [==] is [Qeq].  Where the
        rounding of floats matters, the merge loop is read once more over
        an arbitrary arithmetic (module [Amounts]) and run on binary64
        floats (module [Binary64]).
      - Exceptions are the left summand of [result]; [print] appends to a
        list of output lines. *)

From Stdlib Require Import List String ZArith QArith Lia Bool.
From Stdlib Require Import Permutation Sorted Setoid Morphisms.
From Corelib Require PrimFloat.
Import ListNotations.

Local Open Scope string_scope.
Local Open Scope Z_scope.

(* ================================================================== *)
(** ** Python runtime: exceptions, numbers, dictionaries, list.sort    *)
(* ================================================================== *)

Module Py.

Inductive exn : Type :=
| KeyError (key : string)
| ZeroDivisionError.

Definition result (A : Type) : Type := (exn + A)%type.

Definition ret {A} (a : A) : result A := inr a.

Definition raise {A} (e : exn) : result A := inl e.

Definition bind {A B} (m : result A) (k : A -> result B) : result B :=
  match m with
  | inl e => inl e
  | inr a => k a
  end.

(** [str(e)] *)
Definition str_exn (e : exn) : string :=
  match e with
  | KeyError key => "'" ++ key ++ "'"
  | ZeroDivisionError => "division by zero"
  end.

(** [d.get(key, default)] on an optional key. *)
Definition get {A} (field : option A) (default : A) : A :=
  match field with
  | Some a => a
  | None => default
  end.

(** [a < b] on rationals, as a boolean. *)
Definition Qlt_bool (a b : Q) : bool := negb (Qle_bool b a).

(** True division [a / b]; raises [ZeroDivisionError] when [b == 0]. *)
Definition truediv (a : Q) (b : Z) : result Q :=
  if (b =? 0)%Z then raise ZeroDivisionError else ret (a / inject_Z b)%Q.

(** [x in xs] for a list of strings. *)
Fixpoint contains (x : string) (xs : list string) : bool :=
  match xs with
  | [] => false
  | y :: ys => if String.eqb y x then true else contains x ys
  end.

(** Truthiness of an optional string ([None] and [""] are falsy). *)
Definition truthy (s : option string) : bool :=
  match s with
  | None => false
  | Some EmptyString => false
  | Some _ => true
  end.

End Py.

Declare Scope py_scope.
Delimit Scope py_scope with py.
Notation "x <- m ;; k" := (Py.bind m (fun x => k))
  (at level 61, m at next level, right associativity) : py_scope.
Local Open Scope py_scope.

(** Insertion-ordered dictionaries with string keys. *)
Module Dict.

Section Dict.
Context {V : Type}.

Definition t : Type := list (string * V).

Definition empty : t := [].

(** [d.get(k)] *)
Fixpoint lookup (d : t) (k : string) : option V :=
  match d with
  | [] => None
  | (k', v) :: r => if String.eqb k' k then Some v else lookup r k
  end.

(** [k in d] *)
Definition mem (d : t) (k : string) : bool :=
  match lookup d k with
  | Some _ => true
  | None => false
  end.

(** [d[k]], raising [KeyError] on a missing key. *)
Definition getitem (d : t) (k : string) : Py.result V :=
  match lookup d k with
  | Some v => Py.ret v
  | None => Py.raise (Py.KeyError k)
  end.

(** [d[k] = v]: an existing key keeps its position, a new key goes last. *)
Fixpoint setitem (d : t) (k : string) (v : V) : t :=
  match d with
  | [] => [(k, v)]
  | (k', v') :: r =>
      if String.eqb k' k then (k', v) :: r else (k', v') :: setitem r k v
  end.

(** [d.items()], [d.keys()], [d.values()] in iteration order. *)
Definition items (d : t) : list (string * V) := d.
Definition keys (d : t) : list string := map fst d.
Definition values (d : t) : list V := map snd d.

(** Well-formedness: the keys of a dictionary are pairwise distinct. *)
Definition wf (d : t) : Prop := NoDup (keys d).

End Dict.

Arguments t : clear implicits.

End Dict.

(** [list.sort(key=..., reverse=True)].  The builtin sort is stable and
    compares keys with [<] only; with [reverse=True] the list is reversed,
    sorted in ascending order, and reversed again, so that elements with
    equal keys keep their original relative order. *)
Module ListSort.

Section Sort.
Context {A : Type}.
Variable key : A -> Q.

(** Insert [x] in front of the first element whose key is not below [x]'s. *)
Fixpoint insert (x : A) (l : list A) : list A :=
  match l with
  | [] => [x]
  | y :: r => if Py.Qlt_bool (key y) (key x) then y :: insert x r else x :: l
  end.

Fixpoint sort_ascending (l : list A) : list A :=
  match l with
  | [] => []
  | x :: r => insert x (sort_ascending r)
  end.

Definition sort_reverse (l : list A) : list A :=
  rev (sort_ascending (rev l)).

End Sort.

End ListSort.

(* ================================================================== *)
(** ** Data model                                                      *)
(* ================================================================== *)

(** One detected issue on one resource, as the provider probes emit it. *)
Module Finding.
Record t : Type := Build {
  resource_id : string;
  resource_type : string;
  region : option string;
  issue : string;
  recommendation : string;
  estimated_monthly_savings : Q;
  confidence : Q
}.
End Finding.

(** A [{count, savings, items}] payload as a provider returns it or as
    the recommendation engine receives it: each key may be missing and is
    read with [data.get(key, default)]. *)
Module CategoryData.
Record t : Type := Build {
  count : option Z;
  savings : option Q;
  items : option (list Finding.t)
}.
End CategoryData.

(** A category bucket of the run result; the merge loop creates it with
    all three keys. *)
Module Bucket.
Record t : Type := Build {
  count : Z;
  savings : Q;
  items : list Finding.t
}.

Definition set_count (b : t) (c : Z) : t := Build c (savings b) (items b).
Definition set_savings (b : t) (s : Q) : t := Build (count b) s (items b).
Definition set_items (b : t) (i : list Finding.t) : t :=
  Build (count b) (savings b) i.
End Bucket.

(** One entry of the ranked output. *)
Module Recommendation.
Record t : Type := Build {
  category : string;
  priority : string;
  finding_count : Z;
  total_savings : Q;
  average_savings_per_item : Q;
  recommendation : string;
  risk_level : string;
  effort : string
}.
End Recommendation.

(* ================================================================== *)
(** ** analysis/analyzer.py                                            *)
(* ================================================================== *)

Module CloudAnalyzer.

(** [self.results] *)
Record Results : Type := BuildResults {
  timestamp : string;
  categories : Dict.t Bucket.t;
  recommendations : list Recommendation.t;
  total_savings : Q
}.

(** [__init__]: the clock reading is a parameter. *)
Definition init (now : string) : Results :=
  BuildResults now Dict.empty [] 0%Q.

Definition set_categories (r : Results) (c : Dict.t Bucket.t) : Results :=
  BuildResults (timestamp r) c (recommendations r) (total_savings r).

Definition set_total_savings (r : Results) (s : Q) : Results :=
  BuildResults (timestamp r) (categories r) (recommendations r) s.

(** The body of the merge loop for one [(category, data)] item. *)
Definition merge_item (r : Results) (item : string * CategoryData.t)
  : Py.result Results :=
  let '(category, data) := item in
  let r0 :=
    if negb (Dict.mem (categories r) category)
    then set_categories r
           (Dict.setitem (categories r) category (Bucket.Build 0 0%Q []))
    else r in
  b <- Dict.getitem (categories r0) category ;;
  let r1 := set_categories r0
    (Dict.setitem (categories r0) category
       (Bucket.set_count b (Bucket.count b + Py.get (CategoryData.count data) 0))) in
  b <- Dict.getitem (categories r1) category ;;
  let r2 := set_categories r1
    (Dict.setitem (categories r1) category
       (Bucket.set_savings b
          (Bucket.savings b + Py.get (CategoryData.savings data) 0)%Q)) in
  b <- Dict.getitem (categories r2) category ;;
  let r3 := set_categories r2
    (Dict.setitem (categories r2) category
       (Bucket.set_items b
          (Bucket.items b ++ Py.get (CategoryData.items data) []))) in
  Py.ret (set_total_savings r3
            (total_savings r3 + Py.get (CategoryData.savings data) 0)%Q).

(** [for category, data in provider_results.items(): ...] *)
Fixpoint merge_loop (r : Results) (items : list (string * CategoryData.t))
  : Py.result Results :=
  match items with
  | [] => Py.ret r
  | item :: rest => r' <- merge_item r item ;; merge_loop r' rest
  end.

(** The three provider methods run the same loop over what their probe
    returned; the probe's answer is a parameter. *)
Definition _analyze_aws (r : Results) (aws_results : Dict.t CategoryData.t)
  : Py.result Results :=
  merge_loop r (Dict.items aws_results).

Definition _analyze_azure (r : Results) (azure_results : Dict.t CategoryData.t)
  : Py.result Results :=
  merge_loop r (Dict.items azure_results).

Definition _analyze_gcp (r : Results) (gcp_results : Dict.t CategoryData.t)
  : Py.result Results :=
  merge_loop r (Dict.items gcp_results).

Inductive provider : Type := aws | azure | gcp.

(** The dispatch loop of [analyze]: the providers are scanned in call
    order; each scan is paired with what its probe returned. *)
Fixpoint analyze_providers (r : Results)
  (scans : list (provider * Dict.t CategoryData.t)) : Py.result Results :=
  match scans with
  | [] => Py.ret r
  | (prov, provider_results) :: rest =>
      r' <- match prov with
            | aws => _analyze_aws r provider_results
            | azure => _analyze_azure r provider_results
            | gcp => _analyze_gcp r provider_results
            end ;;
      analyze_providers r' rest
  end.

End CloudAnalyzer.

(* ================================================================== *)
(** ** ai/insight_engine.py                                            *)
(* ================================================================== *)

Module InsightEngine.

(** The [config] dictionary: each key may be missing. *)
Record Config : Type := BuildConfig {
  cfg_model : option string;
  cfg_confidence_threshold : option Q;
  cfg_enabled : option bool
}.

Record t : Type := Build {
  config : Config;
  model : string;
  confidence_threshold : Q;
  enabled : bool;
  api_key : option string
}.

(** [__init__(config)]; [environ_key] is [os.environ.get('OPENAI_API_KEY')].
    Returns the engine and the lines printed. *)
Definition init (cfg : Config) (environ_key : option string)
  : t * list string :=
  let model := Py.get (cfg_model cfg) "gpt-4" in
  let threshold := Py.get (cfg_confidence_threshold cfg) (7 # 10)%Q in
  let enabled := Py.get (cfg_enabled cfg) false in
  if enabled && negb (Py.truthy environ_key)
  then (Build cfg model threshold false environ_key,
        ["Warning: AI features enabled but OPENAI_API_KEY not set"])
  else (Build cfg model threshold enabled environ_key, []).

Definition _calculate_priority (savings : Q) (count : Z) : string :=
  if Py.Qlt_bool 10000 savings || (50 <? count) then "High"
  else if Py.Qlt_bool 1000 savings || (10 <? count) then "Medium"
  else "Low".

Definition recommendations_table : Dict.t string :=
  [ ("EC2 Instances", "Review and rightsize or terminate idle instances");
    ("EBS Volumes", "Delete unattached volumes or create snapshots");
    ("Elastic IPs", "Release unattached Elastic IPs");
    ("RDS Databases", "Downsize or use reserved instances for better pricing");
    ("S3 Storage", "Implement lifecycle policies to optimize storage costs");
    ("Virtual Machines", "Deallocate stopped VMs or resize active ones");
    ("Managed Disks", "Clean up unattached disks");
    ("Storage Accounts", "Optimize storage tier based on access patterns");
    ("Compute Instances", "Review instance utilization and rightsizing");
    ("Persistent Disks", "Remove unattached disks");
    ("Cloud Storage", "Configure lifecycle management for automatic optimization") ].

Definition _get_category_recommendation (category : string) : string :=
  Py.get (Dict.lookup recommendations_table category)
         "Review and optimize resources".

Definition high_risk : list string :=
  ["EC2 Instances"; "RDS Databases"; "Virtual Machines"; "Compute Instances"].

Definition medium_risk : list string :=
  ["EBS Volumes"; "Managed Disks"; "Persistent Disks"].

Definition _assess_risk (category : string) : string :=
  if Py.contains category high_risk then "Medium"
  else if Py.contains category medium_risk then "Low"
  else "Very Low".

Definition low_effort : list string :=
  ["Elastic IPs"; "EBS Volumes"; "Managed Disks"; "Persistent Disks"].

Definition _assess_effort (category : string) : string :=
  if Py.contains category low_effort then "Low" else "Medium".

(** The body of the loop of [_generate_basic_recommendations] for one
    [(category, data)] item; [recommendations] is the list built so far. *)
Definition basic_item (recommendations : list Recommendation.t)
  (item : string * CategoryData.t) : Py.result (list Recommendation.t) :=
  let '(category, data) := item in
  if 0 <? Py.get (CategoryData.count data) 0 then
    avg_savings <- Py.truediv (Py.get (CategoryData.savings data) 0%Q)
                              (Py.get (CategoryData.count data) 1) ;;
    let priority :=
      _calculate_priority (Py.get (CategoryData.savings data) 0%Q)
                          (Py.get (CategoryData.count data) 0) in
    Py.ret (recommendations ++
      [ Recommendation.Build
          category
          priority
          (Py.get (CategoryData.count data) 0)
          (Py.get (CategoryData.savings data) 0%Q)
          avg_savings
          (_get_category_recommendation category)
          (_assess_risk category)
          (_assess_effort category) ])%list
  else Py.ret recommendations.

Fixpoint basic_loop (recommendations : list Recommendation.t)
  (items : list (string * CategoryData.t))
  : Py.result (list Recommendation.t) :=
  match items with
  | [] => Py.ret recommendations
  | item :: rest =>
      recommendations' <- basic_item recommendations item ;;
      basic_loop recommendations' rest
  end.

Definition _generate_basic_recommendations (self : t)
  (categories : Dict.t CategoryData.t) : Py.result (list Recommendation.t) :=
  recommendations <- basic_loop [] (Dict.items categories) ;;
  Py.ret (ListSort.sort_reverse Recommendation.total_savings recommendations).

Definition _generate_ai_recommendations (self : t)
  (categories : Dict.t CategoryData.t) : Py.result (list Recommendation.t) :=
  _generate_basic_recommendations self categories.

(** [enhance_recommendations]: the recommendations (or the exception that
    escapes) and the lines printed. *)
Definition enhance_recommendations (self : t)
  (categories : Dict.t CategoryData.t)
  : Py.result (list Recommendation.t) * list string :=
  if negb (enabled self) then
    (_generate_basic_recommendations self categories, [])
  else
    match _generate_ai_recommendations self categories with
    | inr recs => (Py.ret recs, [])
    | inl e =>
        (_generate_basic_recommendations self categories,
         ["Warning: AI enhancement failed, using basic recommendations: "
            ++ Py.str_exn e])
    end.

End InsightEngine.

(* ================================================================== *)
(** ** Vocabulary of the specification                                 *)
(* ================================================================== *)

Section Order.
Context {A : Type}.
Variable key : A -> Q.

(** Ascending and descending order of the keys, between any two positions. *)
Definition ascending : list A -> Prop :=
  StronglySorted (fun a b => (key a <= key b)%Q).

Definition descending : list A -> Prop :=
  StronglySorted (fun a b => (key b <= key a)%Q).

(** The elements whose key equals [v], in list order. *)
Definition with_key (v : Q) (l : list A) : list A :=
  filter (fun a => Qeq_bool (key a) v) l.

End Order.

(** [sum(f.estimated_monthly_savings for f in items)]: Python's [sum]
    adds from the left, starting at 0. *)
Definition sum_savings (items : list Finding.t) : Q :=
  fold_left (fun acc f => (acc + Finding.estimated_monthly_savings f)%Q)
            items 0%Q.

(** [sum(b.savings for b in categories.values())] *)
Definition sum_buckets (cats : Dict.t Bucket.t) : Q :=
  fold_left (fun acc b => (acc + Bucket.savings b)%Q) (Dict.values cats) 0%Q.

(** A well-formed provider payload, read with the defaults of the merge. *)
Definition payload_ok (data : CategoryData.t) : Prop :=
  Py.get (CategoryData.count data) 0 =
    Z.of_nat (List.length (Py.get (CategoryData.items data) [])) /\
  (Py.get (CategoryData.savings data) 0 ==
     sum_savings (Py.get (CategoryData.items data) []))%Q.

(** What the merge makes of a bucket and a payload. *)
Definition merged (b : Bucket.t) (data : CategoryData.t) : Bucket.t :=
  Bucket.Build
    (Bucket.count b + Py.get (CategoryData.count data) 0)
    (Bucket.savings b + Py.get (CategoryData.savings data) 0)%Q
    (Bucket.items b ++ Py.get (CategoryData.items data) []).

(** The bucket a category has before a merge: the stored one, or the fresh
    [{count: 0, savings: 0, items: []}]. *)
Definition bucket_before (cats : Dict.t Bucket.t) (k : string) : Bucket.t :=
  match Dict.lookup cats k with
  | Some b => b
  | None => Bucket.Build 0 0%Q []
  end.

(** What a provider result contributes to a category. *)
Definition payload_count (results : Dict.t CategoryData.t) (k : string) : Z :=
  match Dict.lookup results k with
  | Some data => Py.get (CategoryData.count data) 0
  | None => 0
  end.

Definition payload_savings (results : Dict.t CategoryData.t) (k : string) : Q :=
  match Dict.lookup results k with
  | Some data => Py.get (CategoryData.savings data) 0%Q
  | None => 0%Q
  end.

Definition payload_items (results : Dict.t CategoryData.t) (k : string)
  : list Finding.t :=
  match Dict.lookup results k with
  | Some data => Py.get (CategoryData.items data) []
  | None => []
  end.

(** The categories that yield a recommendation: [count > 0]. *)
Definition counted (item : string * CategoryData.t) : bool :=
  0 <? Py.get (CategoryData.count (snd item)) 0.

(** The record the recommendation engine builds for a category. *)
Definition recommendation_entry (item : string * CategoryData.t)
  : Recommendation.t :=
  let '(category, data) := item in
  Recommendation.Build
    category
    (InsightEngine._calculate_priority
       (Py.get (CategoryData.savings data) 0%Q)
       (Py.get (CategoryData.count data) 0))
    (Py.get (CategoryData.count data) 0)
    (Py.get (CategoryData.savings data) 0%Q)
    (Py.get (CategoryData.savings data) 0%Q /
       inject_Z (Py.get (CategoryData.count data) 1%Z))%Q
    (InsightEngine._get_category_recommendation category)
    (InsightEngine._assess_risk category)
    (InsightEngine._assess_effort category).

(** The [(category, priority)] pairs of an outcome, in output order. *)
Definition ranking (out : Py.result (list Recommendation.t))
  : Py.result (list (string * string)) :=
  recs <- out ;;
  Py.ret (map (fun rec => (Recommendation.category rec,
                           Recommendation.priority rec)) recs).

(** An engine built from the empty configuration and environment. *)
Definition default_engine : InsightEngine.t :=
  fst (InsightEngine.init (InsightEngine.BuildConfig None None None) None).

(** The end-to-end example of the specification. *)
Definition example_categories : Dict.t CategoryData.t :=
  [ ("EC2 Instances", CategoryData.Build (Some 23) (Some 18450%Q) None);
    ("EBS Volumes", CategoryData.Build (Some 156) (Some 12340%Q) None);
    ("Elastic IPs", CategoryData.Build (Some 12) (Some (432 # 10)%Q) None) ].

(* ================================================================== *)
(** ** analysis/analyzer.py: the [analyze] entry point                 *)
(* ================================================================== *)

(** [CloudAnalyzer._apply_ai_insights] hands [self.results['categories']]
    to the engine: the buckets, read as category dictionaries. *)
Definition bucket_data (b : Bucket.t) : CategoryData.t :=
  CategoryData.Build (Some (Bucket.count b)) (Some (Bucket.savings b))
                     (Some (Bucket.items b)).

Definition bucket_view (cats : Dict.t Bucket.t) : Dict.t CategoryData.t :=
  map (fun kv => (fst kv, bucket_data (snd kv))) cats.

Module Run.

(** What escapes [analyze]: an exception of the merge or of the engine,
    the [ValueError] of a provider analyzer's argument check, or what
    building the provider's session or credential raised. *)
Inductive error : Type :=
| CoreError (e : Py.exn)
| ValueError (msg : string)
| ProbeError (msg : string).

Definition result (A : Type) : Type := (error + A)%type.

Definition lift {A} (m : Py.result A) : result A :=
  match m with
  | inl e => inl (CoreError e)
  | inr a => inr a
  end.

Definition bind {A B} (m : result A) (k : A -> result B) : result B :=
  match m with
  | inl e => inl e
  | inr a => k a
  end.

(** The sections of the configuration file; every key may be missing. *)
Record AwsConfig : Type := BuildAws {
  aws_enabled : option bool
}.

Record AzureConfig : Type := BuildAzure {
  azure_enabled : option bool;
  azure_subscription_id : option string
}.

Record GcpConfig : Type := BuildGcp {
  gcp_enabled : option bool;
  gcp_project_id : option string
}.

Record Config : Type := BuildConfig {
  aws : option AwsConfig;
  azure : option AzureConfig;
  gcp : option GcpConfig;
  ai : option InsightEngine.Config
}.

(** What happened past the analyzer's own argument check: the analyzer
    was built and its [analyze()] returned a result map, or building the
    session or the credential raised. *)
Inductive probe_outcome : Type :=
| Returns (provider_results : Dict.t CategoryData.t)
| Raises (msg : string).

(** The world of one run: the scans of the three clouds (by AWS profile,
    Azure subscription and GCP project) and the environment. *)
Record World : Type := BuildWorld {
  aws_scan : option string -> probe_outcome;
  azure_scan : string -> probe_outcome;
  gcp_scan : string -> probe_outcome;
  openai_api_key : option string
}.

(** [self.config.get('aws', {}).get('enabled', True)] and its two
    siblings, whose default is [False]. *)
Definition aws_on (cfg : Config) : bool :=
  Py.get (match aws cfg with
          | Some s => aws_enabled s
          | None => None
          end) true.

Definition azure_on (cfg : Config) : bool :=
  Py.get (match azure cfg with
          | Some s => azure_enabled s
          | None => None
          end) false.

Definition gcp_on (cfg : Config) : bool :=
  Py.get (match gcp cfg with
          | Some s => gcp_enabled s
          | None => None
          end) false.

(** [config.get('ai', {})] and [config.get('ai', {}).get('enabled', False)] *)
Definition ai_config (cfg : Config) : InsightEngine.Config :=
  Py.get (ai cfg) (InsightEngine.BuildConfig None None None).

Definition ai_on (cfg : Config) : bool :=
  Py.get (InsightEngine.cfg_enabled (ai_config cfg)) false.

(** [provider == 'all'] selects the enabled providers, AWS being enabled
    unless the configuration says otherwise; any other name is taken as
    the one provider to scan. *)
Definition providers_to_analyze (cfg : Config) (provider : string)
  : list string :=
  if String.eqb provider "all" then
    ((if aws_on cfg then ["aws"] else []) ++
     (if azure_on cfg then ["azure"] else []) ++
     (if gcp_on cfg then ["gcp"] else []))%list
  else [provider].

Definition _analyze_aws (w : World) (r : CloudAnalyzer.Results)
  (profile : option string) : result CloudAnalyzer.Results :=
  match aws_scan w profile with
  | Raises msg => inl (ProbeError msg)
  | Returns aws_results => lift (CloudAnalyzer._analyze_aws r aws_results)
  end.

(** The subscription the Azure analyzer is built with: the argument when
    it is truthy, else the configuration's. *)
Definition azure_subscription (cfg : Config) (subscription_id : option string)
  : option string :=
  if Py.truthy subscription_id then subscription_id
  else match azure cfg with
       | Some s => azure_subscription_id s
       | None => None
       end.

Definition _analyze_azure (w : World) (cfg : Config)
  (r : CloudAnalyzer.Results) (subscription_id : option string)
  : result CloudAnalyzer.Results :=
  match azure_subscription cfg subscription_id with
  | Some sid =>
      if Py.truthy (Some sid) then
        match azure_scan w sid with
        | Raises msg => inl (ProbeError msg)
        | Returns azure_results =>
            lift (CloudAnalyzer._analyze_azure r azure_results)
        end
      else inl (ValueError "Azure subscription_id is required")
  | None => inl (ValueError "Azure subscription_id is required")
  end.

Definition gcp_project (cfg : Config) (project_id : option string)
  : option string :=
  if Py.truthy project_id then project_id
  else match gcp cfg with
       | Some s => gcp_project_id s
       | None => None
       end.

Definition _analyze_gcp (w : World) (cfg : Config)
  (r : CloudAnalyzer.Results) (project_id : option string)
  : result CloudAnalyzer.Results :=
  match gcp_project cfg project_id with
  | Some pid =>
      if Py.truthy (Some pid) then
        match gcp_scan w pid with
        | Raises msg => inl (ProbeError msg)
        | Returns gcp_results =>
            lift (CloudAnalyzer._analyze_gcp r gcp_results)
        end
      else inl (ValueError "GCP project_id is required")
  | None => inl (ValueError "GCP project_id is required")
  end.

(** [for prov in providers_to_analyze: ...]; a name that is none of
    ['aws'], ['azure'], ['gcp'] is passed over. *)
Fixpoint scan_loop (w : World) (cfg : Config) (r : CloudAnalyzer.Results)
  (aws_profile azure_subscription_id gcp_project_id : option string)
  (provs : list string) : result CloudAnalyzer.Results :=
  match provs with
  | [] => inr r
  | prov :: rest =>
      bind (if String.eqb prov "aws" then _analyze_aws w r aws_profile
            else if String.eqb prov "azure"
                 then _analyze_azure w cfg r azure_subscription_id
            else if String.eqb prov "gcp"
                 then _analyze_gcp w cfg r gcp_project_id
            else inr r)
           (fun r' => scan_loop w cfg r' aws_profile azure_subscription_id
                                gcp_project_id rest)
  end.

(** [_apply_ai_insights]: the new run result and the lines printed. *)
Definition _apply_ai_insights (w : World) (cfg : Config)
  (r : CloudAnalyzer.Results) : result (CloudAnalyzer.Results * list string) :=
  let '(engine, out1) := InsightEngine.init (ai_config cfg) (openai_api_key w) in
  let '(enhanced_recommendations, out2) :=
    InsightEngine.enhance_recommendations
      engine (bucket_view (CloudAnalyzer.categories r)) in
  bind (lift enhanced_recommendations)
       (fun recs =>
          inr (CloudAnalyzer.BuildResults
                 (CloudAnalyzer.timestamp r) (CloudAnalyzer.categories r)
                 recs (CloudAnalyzer.total_savings r),
               (out1 ++ out2)%list)).

(** What a call of [analyze] leaves behind: the dictionary it returns, the
    lines printed, and the file [_save_results] wrote (path and the value
    handed to [json.dump]). *)
Record Outcome : Type := BuildOutcome {
  returned : CloudAnalyzer.Results;
  printed : list string;
  written : string * CloudAnalyzer.Results
}.

(** [analyze(provider, aws_profile, azure_subscription_id, gcp_project_id)]
    on an analyzer whose [self.results] is [r]. *)
Definition analyze (w : World) (cfg : Config) (r : CloudAnalyzer.Results)
  (provider : string)
  (aws_profile azure_subscription_id gcp_project_id : option string)
  : result Outcome :=
  bind (scan_loop w cfg r aws_profile azure_subscription_id gcp_project_id
                  (providers_to_analyze cfg provider))
       (fun r1 =>
          bind (if ai_on cfg
                then _apply_ai_insights w cfg r1
                else inr (r1, []))
               (fun '(r2, out) =>
                  inr (BuildOutcome r2 out
                         ("output/analysis_results.json", r2)))).

End Run.

(* ================================================================== *)
(** ** cli.py: the summary table                                       *)
(* ================================================================== *)

Module Cli.

(** A row of the summary table.  The cells hold the label and the two
    numbers the source hands to [str] and to the [',.2f'] format. *)
Record Row : Type := BuildRow {
  label : string;
  findings : Z;
  amount : Q
}.

(** The loop body of [display_analysis_summary]: the state is the rows
    added so far and the two running totals. *)
Definition summary_step (st : list Row * Z * Q) (item : string * CategoryData.t)
  : list Row * Z * Q :=
  let '(rows, total_findings, total_savings) := st in
  let '(category, data) := item in
  let findings_count := Py.get (CategoryData.count data) 0 in
  let savings := Py.get (CategoryData.savings data) 0%Q in
  ((rows ++ [BuildRow category findings_count savings])%list,
   total_findings + findings_count,
   (total_savings + savings)%Q).

(** [display_analysis_summary(results)]: the rows of the table printed,
    for [results.get('categories', {})]. *)
Definition display_analysis_summary (categories : option (Dict.t CategoryData.t))
  : list Row :=
  let '(rows, total_findings, total_savings) :=
    fold_left summary_step (Dict.items (Py.get categories Dict.empty))
              ([], 0, 0%Q) in
  (rows ++ [BuildRow "[bold]TOTAL[/bold]" total_findings total_savings])%list.

End Cli.

(* ================================================================== *)
(** ** providers: pricing heuristics and the Azure storage probe       *)
(* ================================================================== *)

Module AWSAnalyzer.

Definition instance_pricing : Dict.t Q :=
  [ ("t2.micro", (85 # 10)%Q); ("t2.small", 17%Q); ("t2.medium", 34%Q);
    ("t3.micro", (75 # 10)%Q); ("t3.small", 15%Q); ("t3.medium", 30%Q);
    ("m5.large", 70%Q); ("m5.xlarge", 140%Q); ("m5.2xlarge", 280%Q) ].

Definition _estimate_instance_savings (instance_type : string) (reduction : Q)
  : Q :=
  let base_cost := Py.get (Dict.lookup instance_pricing instance_type) 100%Q in
  (base_cost * reduction)%Q.

Definition rds_pricing : Dict.t Q :=
  [ ("db.t2.micro", 15%Q); ("db.t2.small", 30%Q); ("db.t3.micro", 14%Q);
    ("db.t3.small", 27%Q); ("db.m5.large", 135%Q); ("db.m5.xlarge", 270%Q) ].

Definition _estimate_rds_savings (db_class : string) (reduction : Q) : Q :=
  let base_cost := Py.get (Dict.lookup rds_pricing db_class) 150%Q in
  (base_cost * reduction)%Q.

Definition ebs_pricing : Dict.t Q :=
  [ ("gp2", (10 # 100)%Q); ("gp3", (8 # 100)%Q); ("io1", (125 # 1000)%Q);
    ("io2", (125 # 1000)%Q); ("sc1", (25 # 1000)%Q); ("st1", (45 # 1000)%Q) ].

Definition _estimate_ebs_savings (size_gb : Z) (volume_type : string) : Q :=
  let price_per_gb :=
    Py.get (Dict.lookup ebs_pricing volume_type) (10 # 100)%Q in
  (inject_Z size_gb * price_per_gb)%Q.

End AWSAnalyzer.

Module AzureAnalyzer.

(** A storage account as the SDK lists it. *)
Record StorageAccount : Type := BuildAccount {
  name : string;
  access_tier : option string
}.

(** What the [try] block saw of [storage_accounts.list()]: the accounts
    yielded, and whether the listing then raised (a client that could not
    be created yields nothing and raises). *)
Record Listing : Type := BuildListing {
  yielded : list StorageAccount;
  raised : bool
}.

(** The loop body: the state is [findings] and [total_savings]. *)
Definition storage_step (st : list Finding.t * Q) (account : StorageAccount)
  : list Finding.t * Q :=
  let '(findings, total_savings) := st in
  let account_name := name account in
  let tier := access_tier account in
  match tier with
  | Some tier_name =>
      if String.eqb tier_name "Premium" then
        let estimated_savings := 30%Q in
        ((findings ++
          [ Finding.Build account_name "Storage Account" None
              "Using Premium tier"
              "Consider downgrading to Hot or Cool tier"
              estimated_savings (6 # 10)%Q ])%list,
         (total_savings + estimated_savings)%Q)
      else st
  | None => st
  end.

(** [_analyze_storage]: what was appended before a raise stays in
    [findings]; [except Exception: pass] drops the exception. *)
Definition _analyze_storage (listing : Listing) : CategoryData.t :=
  let '(findings, total_savings) :=
    fold_left storage_step (yielded listing) ([], 0%Q) in
  let _ := raised listing in
  CategoryData.Build (Some (Z.of_nat (List.length findings)))
                     (Some total_savings)
                     (Some findings).

End AzureAnalyzer.

(* ================================================================== *)
(** ** generators/script_generator.py: the AWS cleanup script          *)
(* ================================================================== *)

Module ScriptGenerator.

(** The line feed and the double quote of the script texts. *)
Definition line_feed : Ascii.ascii := Ascii.ascii_of_nat 10.
Definition nl : string := String line_feed EmptyString.
Definition dq : string := String (Ascii.ascii_of_nat 34) EmptyString.

(** The loaded analysis file, as far as the script reads it. *)
Record Data : Type := BuildData {
  categories : option (Dict.t CategoryData.t)
}.

(** [data.get('categories', {}).get(name, {})] *)
Definition category (data : Data) (name : string) : CategoryData.t :=
  Py.get (Dict.lookup (Py.get (categories data) Dict.empty) name)
         (CategoryData.Build None None None).

(** A multi-line literal, written line by line: every line is followed
    by a line feed. *)
Fixpoint text (literal : list string) : string :=
  match literal with
  | [] => EmptyString
  | line :: rest => line ++ nl ++ text rest
  end.

(** The opening literal of [_generate_aws_cleanup_script]. *)
Definition aws_header : string :=
  text
    [ "#!/bin/bash";
      "# Cloud Economizer - AWS Cleanup Script";
      "# Review and modify before running!";
      "";
      "set -e";
      "";
      "echo " ++ dq ++ "Cloud Economizer - AWS Cleanup Script" ++ dq;
      "echo " ++ dq ++ "======================================" ++ dq;
      "echo " ++ dq ++ dq;
      "echo " ++ dq ++
        "WARNING: This script will delete resources. Review carefully!" ++ dq;
      "echo " ++ dq ++ dq;
      "read -p " ++ dq ++ "Continue? (yes/no): " ++ dq ++ " confirm";
      "";
      "if [ " ++ dq ++ "$confirm" ++ dq ++ " != " ++ dq ++ "yes" ++ dq
        ++ " ]; then";
      "    echo " ++ dq ++ "Aborted." ++ dq;
      "    exit 0";
      "fi";
      "";
      "# Set your AWS region";
      "AWS_REGION=" ++ dq ++ "${AWS_REGION:-us-east-1}" ++ dq;
      "";
      "echo " ++ dq ++ "Using region: $AWS_REGION" ++ dq;
      "echo " ++ dq ++ dq;
      "" ].

(** The closing literal. *)
Definition aws_footer : string :=
  text
    [ "";
      "echo " ++ dq ++ dq;
      "echo " ++ dq ++ "Cleanup complete!" ++ dq;
      "echo " ++ dq ++
        "Note: Commands are commented out by default. Review and uncomment to execute."
        ++ dq ].

(** [for item in items[:10]: ...] appending one command line per item
    with a non-empty [resource_id]. *)
Fixpoint command_lines (before after : string) (script : string)
  (items : list Finding.t) : string :=
  match items with
  | [] => script
  | item :: rest =>
      let resource_id := Finding.resource_id item in
      command_lines before after
        (if negb (String.eqb resource_id "")
         then script ++ before ++ resource_id ++ after ++ nl
         else script)
        rest
  end.

(** One of the two blocks of [_generate_aws_cleanup_script]. *)
Definition cleanup_block (script : string) (category_data : CategoryData.t)
  (title echo before after : string) : string :=
  match Py.get (CategoryData.items category_data) [] with
  | [] => script
  | _ :: _ =>
      let script := script ++ title ++ nl in
      let script := script ++ echo ++ nl in
      let script :=
        command_lines before after script
          (firstn 10 (Py.get (CategoryData.items category_data) [])) in
      script ++ nl
  end.

Definition _generate_aws_cleanup_script (data : Data) : string :=
  let script := aws_header in
  let ebs_data := category data "EBS Volumes" in
  let script :=
    cleanup_block script ebs_data
      "# Cleanup unattached EBS volumes"
      "echo 'Cleaning up unattached EBS volumes...'"
      "# aws ec2 delete-volume --volume-id "
      " --region $AWS_REGION" in
  let eip_data := category data "Elastic IPs" in
  let script :=
    cleanup_block script eip_data
      "# Release unattached Elastic IPs"
      "echo 'Releasing unattached Elastic IPs...'"
      "# aws ec2 release-address --allocation-id "
      " --region $AWS_REGION" in
  script ++ aws_footer.

End ScriptGenerator.

(** The lines of a text: the pieces between line feeds. *)
Fixpoint lines (s : string) : list string :=
  match s with
  | EmptyString => [EmptyString]
  | String c rest =>
      if Ascii.eqb c ScriptGenerator.line_feed then EmptyString :: lines rest
      else match lines rest with
           | first :: others => String c first :: others
           | [] => [String c EmptyString]
           end
  end.

(** A text without line feed. *)
Fixpoint one_line (s : string) : bool :=
  match s with
  | EmptyString => true
  | String c rest => negb (Ascii.eqb c ScriptGenerator.line_feed) && one_line rest
  end.

(** The findings a cleanup block lists: the first ten of the category. *)
Definition listed (data : ScriptGenerator.Data) (name : string)
  : list Finding.t :=
  firstn 10 (Py.get (CategoryData.items (ScriptGenerator.category data name)) []).

(* ================================================================== *)
(** ** Vocabulary of the further properties                            *)
(* ================================================================== *)

(** The three priority levels, in increasing order of urgency. *)
Definition priority_rank (priority : string) : Z :=
  if String.eqb priority "High" then 2
  else if String.eqb priority "Medium" then 1
  else 0.

(** What a sequence of scans contributes to a category, in call order. *)
Definition scans_count
  (scans : list (CloudAnalyzer.provider * Dict.t CategoryData.t))
  (k : string) : Z :=
  fold_right (fun scan acc => payload_count (snd scan) k + acc) 0 scans.

Definition scans_savings
  (scans : list (CloudAnalyzer.provider * Dict.t CategoryData.t))
  (k : string) : Q :=
  fold_right (fun scan acc => (payload_savings (snd scan) k + acc)%Q) 0%Q scans.

Definition scans_items
  (scans : list (CloudAnalyzer.provider * Dict.t CategoryData.t))
  (k : string) : list Finding.t :=
  flat_map (fun scan => payload_items (snd scan) k) scans.

Definition scans_have
  (scans : list (CloudAnalyzer.provider * Dict.t CategoryData.t))
  (k : string) : bool :=
  existsb (fun scan => Dict.mem (snd scan) k) scans.

(** [sum(d.get('savings', 0) for d in provider_results.values())] *)
Definition sum_payloads (provider_results : Dict.t CategoryData.t) : Q :=
  fold_left (fun acc item =>
               (acc + Py.get (CategoryData.savings (snd item)) 0)%Q)
            (Dict.items provider_results) 0%Q.

(** No two counted categories tie on savings. *)
Definition no_ties (cats : Dict.t CategoryData.t) : Prop :=
  forall k1 d1 k2 d2,
    In (k1, d1) cats -> In (k2, d2) cats ->
    counted (k1, d1) = true -> counted (k2, d2) = true ->
    (Py.get (CategoryData.savings d1) 0 == Py.get (CategoryData.savings d2) 0)%Q ->
    k1 = k2.

(** The count half of a well-formed payload, [count = len(items)], read
    with the defaults of the merge. *)
Definition payload_counted (data : CategoryData.t) : Prop :=
  Py.get (CategoryData.count data) 0 =
  Z.of_nat (List.length (Py.get (CategoryData.items data) [])).

Definition scan_counted (results : Dict.t CategoryData.t) : Prop :=
  Forall (fun item => payload_counted (snd item)) (Dict.items results).

(** Every result map a scan returns has [count = len(items)] throughout. *)
Definition world_counted (w : Run.World) : Prop :=
  (forall profile d, Run.aws_scan w profile = Run.Returns d -> scan_counted d) /\
  (forall sid d, Run.azure_scan w sid = Run.Returns d -> scan_counted d) /\
  (forall pid d, Run.gcp_scan w pid = Run.Returns d -> scan_counted d).

(** [sum(rec['finding_count'] for rec in recommendations)] *)
Definition sum_finding_counts (recs : list Recommendation.t) : Z :=
  fold_left (fun acc rec => acc + Recommendation.finding_count rec) recs 0.

(** All the findings a category map holds, bucket after bucket. *)
Definition findings_held (cats : Dict.t Bucket.t) : list Finding.t :=
  flat_map Bucket.items (Dict.values cats).

(** The accounts [_analyze_storage] reports: those on the Premium tier. *)
Definition premium (account : AzureAnalyzer.StorageAccount) : bool :=
  match AzureAnalyzer.access_tier account with
  | Some tier => String.eqb tier "Premium"
  | None => false
  end.

(** The lines a cleanup block adds for a category: nothing when the
    category has no items; else the title, the echo, one command per
    listed finding with a non-empty id, and a blank line. *)
Definition block_lines (category_data : CategoryData.t)
  (title echo before after : string) : list string :=
  match Py.get (CategoryData.items category_data) [] with
  | [] => []
  | _ :: _ =>
      (title :: echo ::
       map (fun item => (before ++ Finding.resource_id item ++ after)%string)
           (filter (fun item => negb (String.eqb (Finding.resource_id item) ""))
                   (firstn 10 (Py.get (CategoryData.items category_data) [])))
       ++ [EmptyString])%list
  end.

(* ================================================================== *)
(** ** The merge loop over any arithmetic of amounts                   *)
(* ================================================================== *)

(** The merge loop of [analyzer.py] once more, with the type of the
    amounts, its zero and its addition left open.  Python integers are
    the instance [Z]; Python floats are the instance [Binary64] below,
    where each addition rounds. *)
Module Amounts.

Record Finding (num : Type) : Type := BuildFinding {
  resource_id : string;
  resource_type : string;
  region : option string;
  issue : string;
  recommendation : string;
  estimated_monthly_savings : num;
  confidence : num
}.

Arguments BuildFinding {num}.
Arguments estimated_monthly_savings {num}.

Record CategoryData (num : Type) : Type := BuildData {
  count : option Z;
  savings : option num;
  items : option (list (Finding num))
}.

Arguments BuildData {num}.
Arguments count {num}.
Arguments savings {num}.
Arguments items {num}.

Record Bucket (num : Type) : Type := BuildBucket {
  bucket_count : Z;
  bucket_savings : num;
  bucket_items : list (Finding num)
}.

Arguments BuildBucket {num}.
Arguments bucket_count {num}.
Arguments bucket_savings {num}.
Arguments bucket_items {num}.

(** [self.results]; no recommendation is generated during the merges, so
    the type of the recommendations is left open as well. *)
Record Results (num rec : Type) : Type := BuildResults {
  timestamp : string;
  categories : Dict.t (Bucket num);
  recommendations : list rec;
  total_savings : num
}.

Arguments BuildResults {num rec}.
Arguments timestamp {num rec}.
Arguments categories {num rec}.
Arguments recommendations {num rec}.
Arguments total_savings {num rec}.

Section Arithmetic.
Variables num rec : Type.
Variable zero : num.
Variable add : num -> num -> num.

(** [__init__] *)
Definition init (now : string) : Results num rec :=
  BuildResults now Dict.empty [] zero.

Definition set_categories (r : Results num rec) (c : Dict.t (Bucket num))
  : Results num rec :=
  BuildResults (timestamp r) c (recommendations r) (total_savings r).

(** The body of the merge loop for one [(category, data)] item. *)
Definition merge_item (r : Results num rec) (item : string * CategoryData num)
  : Py.result (Results num rec) :=
  let '(category, data) := item in
  let r0 :=
    if negb (Dict.mem (categories r) category)
    then set_categories r
           (Dict.setitem (categories r) category (BuildBucket 0 zero []))
    else r in
  b <- Dict.getitem (categories r0) category ;;
  let r1 := set_categories r0
    (Dict.setitem (categories r0) category
       (BuildBucket (bucket_count b + Py.get (count data) 0)
                    (bucket_savings b) (bucket_items b))) in
  b <- Dict.getitem (categories r1) category ;;
  let r2 := set_categories r1
    (Dict.setitem (categories r1) category
       (BuildBucket (bucket_count b)
                    (add (bucket_savings b) (Py.get (savings data) zero))
                    (bucket_items b))) in
  b <- Dict.getitem (categories r2) category ;;
  let r3 := set_categories r2
    (Dict.setitem (categories r2) category
       (BuildBucket (bucket_count b) (bucket_savings b)
                    (bucket_items b ++ Py.get (items data) []))) in
  Py.ret (BuildResults (timestamp r3) (categories r3) (recommendations r3)
            (add (total_savings r3) (Py.get (savings data) zero))).

(** [for category, data in provider_results.items(): ...] *)
Fixpoint merge_loop (r : Results num rec)
  (provider_items : list (string * CategoryData num))
  : Py.result (Results num rec) :=
  match provider_items with
  | [] => Py.ret r
  | item :: rest => r' <- merge_item r item ;; merge_loop r' rest
  end.

(** The dispatch loop of [analyze]; the three provider methods run the
    same merge loop over what their probe returned. *)
Fixpoint analyze_providers (r : Results num rec)
  (scans : list (CloudAnalyzer.provider * Dict.t (CategoryData num)))
  : Py.result (Results num rec) :=
  match scans with
  | [] => Py.ret r
  | (_, provider_results) :: rest =>
      r' <- merge_loop r (Dict.items provider_results) ;;
      analyze_providers r' rest
  end.

(** [sum(f['estimated_monthly_savings'] for f in items)] and
    [sum(b['savings'] for b in categories.values())]: Python's [sum] adds
    from the left, starting at 0. *)
Definition sum_savings (findings : list (Finding num)) : num :=
  fold_left (fun acc f => add acc (estimated_monthly_savings f)) findings zero.

Definition sum_buckets (cats : Dict.t (Bucket num)) : num :=
  fold_left (fun acc b => add acc (bucket_savings b)) (Dict.values cats) zero.

(** The two halves of a well-formed payload, read with the defaults of
    the merge. *)
Definition payload_counted (data : CategoryData num) : Prop :=
  Py.get (count data) 0 = Z.of_nat (List.length (Py.get (items data) [])).

Definition payload_summed (data : CategoryData num) : Prop :=
  Py.get (savings data) zero = sum_savings (Py.get (items data) []).

Definition scans_counted
  (scans : list (CloudAnalyzer.provider * Dict.t (CategoryData num))) : Prop :=
  Forall (fun scan => Forall (fun item => payload_counted (snd item))
                             (Dict.items (snd scan))) scans.

Definition scans_summed
  (scans : list (CloudAnalyzer.provider * Dict.t (CategoryData num))) : Prop :=
  Forall (fun scan => Forall (fun item => payload_summed (snd item))
                             (Dict.items (snd scan))) scans.

(** What the merge makes of a bucket and a payload, and the bucket a
    category has before a merge. *)
Definition merged (b : Bucket num) (data : CategoryData num) : Bucket num :=
  BuildBucket (bucket_count b + Py.get (count data) 0)
              (add (bucket_savings b) (Py.get (savings data) zero))
              (bucket_items b ++ Py.get (items data) []).

Definition bucket_before (cats : Dict.t (Bucket num)) (k : string)
  : Bucket num :=
  match Dict.lookup cats k with
  | Some b => b
  | None => BuildBucket 0 zero []
  end.

End Arithmetic.

End Amounts.

(** Binary64 amounts: the floats of Python, with the kernel's IEEE 754
    addition and comparison. *)
Module Binary64.
Import PrimFloat.

Definition zero : float := 0%float.

(** The floats nearest to 0.1, 0.2, 0.3 and 0.4, and 0.5. *)
Definition tenth : float := 0x1.999999999999ap-4%float.
Definition fifth : float := 0x1.999999999999ap-3%float.
Definition three_tenths : float := 0x1.3333333333333p-2%float.
Definition two_fifths : float := 0x1.999999999999ap-2%float.
Definition half : float := 0x1p-1%float.

(** An unattached volume found with the given estimate. *)
Definition volume (resource_id : string) (estimate : float)
  : Amounts.Finding float :=
  Amounts.BuildFinding resource_id "EBS Volume" (Some "us-east-1")
    "Unattached volume" "Delete if not needed or create snapshot"
    estimate 0x1.fae147ae147aep-1%float.

(** Two scans that feed one category: a finding of 0.1, then findings of
    0.2 and 0.3 with their sum 0.5. *)
Definition one_category_scans
  : list (CloudAnalyzer.provider * Dict.t (Amounts.CategoryData float)) :=
  [ (CloudAnalyzer.aws,
     [ ("EBS Volumes",
        Amounts.BuildData (Some 1) (Some tenth)
          (Some [volume "vol-1" tenth])) ]);
    (CloudAnalyzer.azure,
     [ ("EBS Volumes",
        Amounts.BuildData (Some 2) (Some half)
          (Some [volume "vol-2" fifth; volume "vol-3" three_tenths])) ]) ].

(** Two scans over two categories: 0.1 and 0.1, then 0.4 for the first. *)
Definition two_category_scans
  : list (CloudAnalyzer.provider * Dict.t (Amounts.CategoryData float)) :=
  [ (CloudAnalyzer.aws,
     [ ("EBS Volumes",
        Amounts.BuildData (Some 1) (Some tenth)
          (Some [volume "vol-1" tenth]));
       ("Managed Disks",
        Amounts.BuildData (Some 1) (Some tenth)
          (Some [volume "disk-1" tenth])) ]);
    (CloudAnalyzer.azure,
     [ ("EBS Volumes",
        Amounts.BuildData (Some 1) (Some two_fifths)
          (Some [volume "vol-2" two_fifths])) ]) ].

End Binary64.

(* ================================================================== *)
(** ** Facts about the runtime model                                   *)
(* ================================================================== *)

Lemma Qlt_bool_iff (a b : Q) : Py.Qlt_bool a b = true <-> (a < b)%Q.
Proof.
  unfold Py.Qlt_bool. rewrite negb_true_iff.
  split; intro H.
  - apply Qnot_le_lt. intro Hle. apply Qle_bool_iff in Hle. congruence.
  - destruct (Qle_bool b a) eqn:E; [|reflexivity].
    apply Qle_bool_iff in E. exfalso. exact (Qlt_not_le _ _ H E).
Qed.

Lemma Qlt_bool_false_iff (a b : Q) : Py.Qlt_bool a b = false <-> (b <= a)%Q.
Proof.
  unfold Py.Qlt_bool. rewrite negb_false_iff. apply Qle_bool_iff.
Qed.

Lemma contains_In (x : string) (xs : list string) :
  Py.contains x xs = true <-> In x xs.
Proof.
  induction xs as [|y ys IH]; simpl.
  - split; [discriminate | tauto].
  - destruct (String.eqb_spec y x) as [->|Hne].
    + split; auto.
    + rewrite IH. split; [auto | intros [H|H]; [contradiction | exact H]].
Qed.

Section DictFacts.
Context {V : Type}.
Implicit Types (d : Dict.t V) (k : string) (v : V).

Lemma lookup_setitem_eq d k v : Dict.lookup (Dict.setitem d k v) k = Some v.
Proof.
  induction d as [|[k' v'] r IH]; simpl.
  - now rewrite String.eqb_refl.
  - destruct (String.eqb k' k) eqn:E; simpl; rewrite E; auto.
Qed.

Lemma lookup_setitem_neq d k k0 v :
  k0 <> k -> Dict.lookup (Dict.setitem d k v) k0 = Dict.lookup d k0.
Proof.
  intros Hne. induction d as [|[k' v'] r IH]; simpl.
  - destruct (String.eqb_spec k k0); congruence.
  - destruct (String.eqb_spec k' k) as [->|Hk]; simpl.
    + destruct (String.eqb_spec k k0); congruence.
    + now rewrite IH.
Qed.

Lemma setitem_setitem d k v v' :
  Dict.setitem (Dict.setitem d k v) k v' = Dict.setitem d k v'.
Proof.
  induction d as [|[k' w] r IH]; simpl.
  - now rewrite String.eqb_refl.
  - destruct (String.eqb k' k) eqn:E; simpl; rewrite E; congruence.
Qed.

Lemma lookup_None_keys d k : Dict.lookup d k = None <-> ~ In k (Dict.keys d).
Proof.
  induction d as [|[k' w] r IH]; simpl.
  - tauto.
  - destruct (String.eqb_spec k' k) as [->|Hk].
    + split; [discriminate | tauto].
    + rewrite IH. tauto.
Qed.

Lemma lookup_In d k v : Dict.lookup d k = Some v -> In (k, v) d.
Proof.
  induction d as [|[k' w] r IH]; simpl; [discriminate|].
  destruct (String.eqb_spec k' k) as [->|Hk].
  - intros [= ->]. now left.
  - intros H. right. auto.
Qed.

Lemma In_lookup d k v : Dict.wf d -> In (k, v) d -> Dict.lookup d k = Some v.
Proof.
  unfold Dict.wf, Dict.keys.
  induction d as [|[k' w] r IH]; simpl; [tauto|].
  intros Hnd [Heq|Hin]; inversion Hnd as [|? ? Hnotin Hnd']; subst.
  - injection Heq as -> ->. now rewrite String.eqb_refl.
  - destruct (String.eqb_spec k' k) as [->|Hk].
    + exfalso. apply Hnotin. change k with (fst (k, v)). now apply in_map.
    + auto.
Qed.

Lemma keys_setitem d k v :
  Dict.keys (Dict.setitem d k v) =
  if Dict.mem d k then Dict.keys d else (Dict.keys d ++ [k])%list.
Proof.
  unfold Dict.mem, Dict.keys.
  induction d as [|[k' w] r IH]; simpl; [reflexivity|].
  destruct (String.eqb k' k) eqn:E; simpl; [reflexivity|].
  rewrite IH. now destruct (Dict.lookup r k).
Qed.

Lemma wf_setitem d k v : Dict.wf d -> Dict.wf (Dict.setitem d k v).
Proof.
  unfold Dict.wf. rewrite keys_setitem. unfold Dict.mem.
  destruct (Dict.lookup d k) eqn:E; [tauto|].
  intros Hnd. apply lookup_None_keys in E.
  apply NoDup_rev in Hnd. rewrite <- (rev_involutive (_ ++ _)%list).
  apply NoDup_rev. rewrite rev_app_distr. simpl. constructor; [|exact Hnd].
  now rewrite <- in_rev.
Qed.

Lemma In_setitem d k v k0 v0 :
  In (k0, v0) (Dict.setitem d k v) -> (k0 = k /\ v0 = v) \/ In (k0, v0) d.
Proof.
  induction d as [|[k' w] r IH]; simpl.
  - intros [[= <- <-]|[]]. now left.
  - destruct (String.eqb_spec k' k) as [->|Hk]; simpl.
    + intros [[= <- <-]|H]; [now left | now right; right].
    + intros [H|H]; [now right; left|].
      destruct (IH H) as [?|?]; [now left | now right; right].
Qed.

End DictFacts.

(** *** The sort: permutation, order, stability *)

Section SortFacts.
Context {A : Type}.
Variable key : A -> Q.

Lemma insert_perm x l : Permutation (ListSort.insert key x l) (x :: l).
Proof.
  induction l as [|y r IH]; simpl; [reflexivity|].
  destruct (Py.Qlt_bool (key y) (key x)); [|reflexivity].
  rewrite IH. apply perm_swap.
Qed.

Lemma sort_ascending_perm l : Permutation (ListSort.sort_ascending key l) l.
Proof.
  induction l as [|x r IH]; simpl; [reflexivity|].
  rewrite insert_perm. now constructor.
Qed.

Lemma sort_reverse_perm l : Permutation (ListSort.sort_reverse key l) l.
Proof.
  unfold ListSort.sort_reverse.
  rewrite <- Permutation_rev, sort_ascending_perm.
  symmetry. apply Permutation_rev.
Qed.

Lemma insert_ascending x l :
  ascending key l -> ascending key (ListSort.insert key x l).
Proof.
  unfold ascending.
  induction l as [|y r IH]; simpl; intros Hs.
  - repeat constructor.
  - inversion Hs as [|? ? Hr Hall]; subst.
    destruct (Py.Qlt_bool (key y) (key x)) eqn:E.
    + constructor; [auto|].
      apply Qlt_bool_iff in E.
      rewrite Forall_forall in *. intros z Hz.
      apply (Permutation_in _ (insert_perm x r)) in Hz.
      destruct Hz as [<-|Hz]; [now apply Qlt_le_weak | auto].
    + apply Qlt_bool_false_iff in E.
      constructor; [exact Hs|].
      constructor; [exact E|].
      rewrite Forall_forall in *. intros z Hz.
      apply Qle_trans with (key y); auto.
Qed.

Lemma sort_ascending_ascending l : ascending key (ListSort.sort_ascending key l).
Proof.
  induction l as [|x r IH]; simpl; [constructor | now apply insert_ascending].
Qed.

Lemma StronglySorted_app (R : A -> A -> Prop) l1 l2 :
  StronglySorted R l1 -> StronglySorted R l2 ->
  (forall a b, In a l1 -> In b l2 -> R a b) ->
  StronglySorted R (l1 ++ l2).
Proof.
  induction l1 as [|x r IH]; simpl; intros H1 H2 H12; [exact H2|].
  inversion H1 as [|? ? Hr Hall]; subst.
  constructor.
  - apply IH; auto.
  - apply Forall_app. split; [exact Hall|].
    rewrite Forall_forall. intros b Hb. apply H12; auto.
Qed.

Lemma ascending_rev l : ascending key l -> descending key (rev l).
Proof.
  unfold ascending, descending.
  induction 1 as [|x r Hr IH Hall]; simpl; [constructor|].
  apply StronglySorted_app; [exact IH | repeat constructor |].
  intros a b Ha [<-|[]]. apply in_rev in Ha.
  rewrite Forall_forall in Hall. auto.
Qed.

Lemma sort_reverse_descending l : descending key (ListSort.sort_reverse key l).
Proof.
  apply ascending_rev, sort_ascending_ascending.
Qed.

Lemma with_key_insert v x l :
  with_key key v (ListSort.insert key x l) = with_key key v (x :: l).
Proof.
  unfold with_key.
  induction l as [|y r IH]; simpl; [reflexivity|].
  destruct (Py.Qlt_bool (key y) (key x)) eqn:E; [|reflexivity].
  simpl. rewrite IH. simpl.
  destruct (Qeq_bool (key x) v) eqn:Ex; [|reflexivity].
  destruct (Qeq_bool (key y) v) eqn:Ey; [|reflexivity].
  exfalso.
  apply Qlt_bool_iff in E. apply Qeq_bool_iff in Ex, Ey.
  rewrite Ex, Ey in E. exact (Qlt_irrefl _ E).
Qed.

Lemma with_key_sort_ascending v l :
  with_key key v (ListSort.sort_ascending key l) = with_key key v l.
Proof.
  induction l as [|x r IH]; simpl; [reflexivity|].
  rewrite with_key_insert. unfold with_key in *. simpl. now rewrite IH.
Qed.

Lemma with_key_rev v l : with_key key v (rev l) = rev (with_key key v l).
Proof.
  unfold with_key.
  induction l as [|x r IH]; simpl; [reflexivity|].
  rewrite filter_app, IH. simpl.
  destruct (Qeq_bool (key x) v); simpl; [reflexivity | apply app_nil_r].
Qed.

(** Stability: the entries that share a key keep their relative order. *)
Lemma sort_reverse_stable v l :
  with_key key v (ListSort.sort_reverse key l) = with_key key v l.
Proof.
  unfold ListSort.sort_reverse.
  now rewrite with_key_rev, with_key_sort_ascending, with_key_rev,
    rev_involutive.
Qed.

End SortFacts.

(* ================================================================== *)
(** ** The aggregation engine                                          *)
(* ================================================================== *)

Import CloudAnalyzer.

(** The loop body in closed form: one dictionary update at the key and
    one addition to the running total. *)
Lemma merge_item_eq (r : Results) (k : string) (data : CategoryData.t) :
  merge_item r (k, data) =
  inr (BuildResults (timestamp r)
         (Dict.setitem (categories r) k
            (merged (bucket_before (categories r) k) data))
         (recommendations r)
         (total_savings r + Py.get (CategoryData.savings data) 0)%Q).
Proof.
  unfold merge_item, bucket_before, Dict.mem, Dict.getitem.
  destruct (Dict.lookup (categories r) k) as [b|] eqn:E; cbn [negb];
    cbn [set_categories categories Py.bind Py.ret]; rewrite ?E;
    repeat first
      [ rewrite lookup_setitem_eq
      | rewrite setitem_setitem
      | progress cbn [Py.bind Py.ret set_categories categories] ];
    reflexivity.
Qed.

(** The loop itself never raises. *)
Lemma merge_loop_total (items : list (string * CategoryData.t)) :
  forall r, exists r', merge_loop r items = inr r'.
Proof.
  induction items as [|[k data] rest IH]; intros r; cbn [merge_loop].
  - now exists r.
  - rewrite merge_item_eq. cbn [Py.bind]. apply IH.
Qed.

Lemma bucket_before_setitem_neq (cats : Dict.t Bucket.t) k k0 b :
  k0 <> k -> bucket_before (Dict.setitem cats k b) k0 = bucket_before cats k0.
Proof.
  intros Hne. unfold bucket_before. now rewrite lookup_setitem_neq.
Qed.

(** What the loop leaves at each key, for a provider result with distinct
    keys: payload keys hold the merged bucket, the other keys are as before,
    and the fields outside the category map are untouched except for the
    running total. *)
Lemma merge_loop_lookup (items : list (string * CategoryData.t)) :
  forall r r',
    NoDup (map fst items) ->
    merge_loop r items = inr r' ->
    (forall k data, In (k, data) items ->
       Dict.lookup (categories r') k =
       Some (merged (bucket_before (categories r) k) data)) /\
    (forall k, ~ In k (map fst items) ->
       Dict.lookup (categories r') k = Dict.lookup (categories r) k).
Proof.
  induction items as [|[k0 d0] rest IH]; intros r r' Hnd Hrun;
    cbn [merge_loop] in Hrun.
  - injection Hrun as <-. split; [intros ? ? []|reflexivity].
  - rewrite merge_item_eq in Hrun. cbn [Py.bind] in Hrun.
    inversion Hnd as [|? ? Hnotin Hnd']; subst.
    destruct (IH _ _ Hnd' Hrun) as [Hin Hout]. cbn [categories] in Hin, Hout.
    split.
    + intros k data [[= <- <-]|Hk].
      * rewrite (Hout _ Hnotin). apply lookup_setitem_eq.
      * assert (k <> k0) as Hne.
        { intros ->. apply Hnotin. change k0 with (fst (k0, data)).
          now apply in_map. }
        rewrite (Hin _ _ Hk). now rewrite bucket_before_setitem_neq.
    + intros k Hk. cbn [map fst In] in Hk.
      rewrite Hout by tauto. apply lookup_setitem_neq.
      intros ->. tauto.
Qed.

(** *** Sums of rationals *)

Lemma fold_left_Qplus {X : Type} (g : X -> Q) (l : list X) (a : Q) :
  (fold_left (fun acc x => acc + g x) l a ==
   a + fold_left (fun acc x => acc + g x) l 0)%Q.
Proof.
  revert a. induction l as [|x l IH]; intros a; cbn [fold_left].
  - ring.
  - rewrite IH, (IH (0 + g x)%Q). ring.
Qed.

Lemma sum_savings_app (l1 l2 : list Finding.t) :
  (sum_savings (l1 ++ l2) == sum_savings l1 + sum_savings l2)%Q.
Proof.
  unfold sum_savings. rewrite fold_left_app. apply fold_left_Qplus.
Qed.

(* ================================================================== *)
(** ** The recommendation engine                                       *)
(* ================================================================== *)

Import InsightEngine.

Lemma basic_item_eq recs (item : string * CategoryData.t) :
  basic_item recs item =
  inr (recs ++ (if counted item then [recommendation_entry item] else []))%list.
Proof.
  destruct item as [category data].
  unfold basic_item, counted, recommendation_entry, Py.truediv. cbn [snd].
  destruct (0 <? Py.get (CategoryData.count data) 0) eqn:E.
  - destruct (CategoryData.count data) as [c|]; cbn [Py.get] in *.
    + destruct (Z.eqb_spec c 0) as [->|_]; [discriminate|]. reflexivity.
    + discriminate.
  - unfold Py.ret. now rewrite app_nil_r.
Qed.

Lemma basic_loop_eq (items : list (string * CategoryData.t)) :
  forall recs,
    basic_loop recs items =
    inr (recs ++ map recommendation_entry (filter counted items))%list.
Proof.
  induction items as [|item rest IH]; intros recs; cbn [basic_loop].
  - unfold Py.ret. now rewrite app_nil_r.
  - rewrite basic_item_eq. cbn [Py.bind]. rewrite IH. cbn [filter].
    destruct (counted item); cbn [map]; now rewrite <- app_assoc.
Qed.

(** The basic path in closed form; in particular it never raises. *)
Lemma basic_eq (self : t) (cats : Dict.t CategoryData.t) :
  _generate_basic_recommendations self cats =
  inr (ListSort.sort_reverse Recommendation.total_savings
         (map recommendation_entry (filter counted cats))).
Proof.
  unfold _generate_basic_recommendations, Dict.items.
  now rewrite basic_loop_eq.
Qed.

(** Whatever the mode, [enhance_recommendations] returns the basic
    recommendations and prints nothing. *)
Lemma enhance_eq (self : t) (cats : Dict.t CategoryData.t) :
  enhance_recommendations self cats =
  (inr (ListSort.sort_reverse Recommendation.total_savings
          (map recommendation_entry (filter counted cats))), []).
Proof.
  unfold enhance_recommendations, _generate_ai_recommendations.
  rewrite basic_eq. now destruct (enabled self).
Qed.

Lemma init_downgrade cfg key :
  cfg_enabled cfg = Some true -> Py.truthy key = false ->
  init cfg key =
  (Build cfg (Py.get (cfg_model cfg) "gpt-4")
         (Py.get (cfg_confidence_threshold cfg) (7 # 10)%Q) false key,
   ["Warning: AI features enabled but OPENAI_API_KEY not set"]).
Proof.
  intros He Hk. unfold init. now rewrite He, Hk.
Qed.

Lemma In_output_entry (cats : Dict.t CategoryData.t) rec :
  In rec (ListSort.sort_reverse Recommendation.total_savings
            (map recommendation_entry (filter counted cats))) ->
  exists item, In item cats /\ counted item = true /\
               rec = recommendation_entry item.
Proof.
  intros Hin.
  apply (Permutation_in _ (sort_reverse_perm _ _)) in Hin.
  apply in_map_iff in Hin. destruct Hin as (item & <- & Hitem).
  apply filter_In in Hitem. exists item. tauto.
Qed.

Lemma with_key_entries v (cats : Dict.t CategoryData.t) :
  map Recommendation.category
    (with_key Recommendation.total_savings v
       (map recommendation_entry (filter counted cats))) =
  map fst
    (filter (fun item =>
               counted item &&
               Qeq_bool (Py.get (CategoryData.savings (snd item)) 0%Q) v)
            cats).
Proof.
  unfold with_key.
  induction cats as [|[k data] rest IH]; cbn [filter map]; [reflexivity|].
  destruct (counted (k, data)); cbn [andb map filter]; [|exact IH].
  cbn [recommendation_entry Recommendation.total_savings snd].
  destruct (Qeq_bool _ v); cbn [map]; [|exact IH].
  cbn [Recommendation.category fst]. now rewrite IH.
Qed.

Lemma not_in_table_sets category :
  ~ In category (Dict.keys recommendations_table) ->
  Dict.lookup recommendations_table category = None /\
  Py.contains category high_risk = false /\
  Py.contains category medium_risk = false /\
  Py.contains category low_effort = false.
Proof.
  intros Hnot. split; [now apply lookup_None_keys|].
  repeat split;
    (match goal with
     | |- Py.contains ?c ?l = false =>
         destruct (Py.contains c l) eqn:E; [|reflexivity];
         apply contains_In in E; exfalso; apply Hnot;
         cbn in E |- *; intuition auto
     end).
Qed.

(* ================================================================== *)
(** ** Properties of the specification                                 *)
(* ================================================================== *)

(** C1. [_calculate_priority] is High when [savings > 10000] or
    [count > 50]; failing that, Medium when [savings > 1000] or
    [count > 10]; failing that, Low.  The conditions are tried in that
    order and a value exactly at a threshold does not trigger its level:
    [(10001, 0)] and [(0, 51)] are High, [(1001, 0)] is Medium and
    [(1000, 10)] is Low. *)
Theorem calculate_priority_thresholds :
  (forall (savings : Q) (count : Z),
     ((10000 < savings)%Q \/ 50 < count ->
      _calculate_priority savings count = "High") /\
     (~ ((10000 < savings)%Q \/ 50 < count) ->
      (1000 < savings)%Q \/ 10 < count ->
      _calculate_priority savings count = "Medium") /\
     (~ ((10000 < savings)%Q \/ 50 < count) ->
      ~ ((1000 < savings)%Q \/ 10 < count) ->
      _calculate_priority savings count = "Low")) /\
  _calculate_priority 10001 0 = "High" /\
  _calculate_priority 0 51 = "High" /\
  _calculate_priority 1001 0 = "Medium" /\
  _calculate_priority 1000 10 = "Low".
Proof.
  split; [|repeat split; reflexivity].
  intros savings count. unfold _calculate_priority.
  destruct (Py.Qlt_bool 10000 savings) eqn:H1;
    destruct (50 <? count) eqn:H2;
    destruct (Py.Qlt_bool 1000 savings) eqn:H3;
    destruct (10 <? count) eqn:H4;
    cbn [orb];
    rewrite ?Qlt_bool_iff, ?Qlt_bool_false_iff in *;
    rewrite ?Z.ltb_lt, ?Z.ltb_ge in *;
    repeat split; intros; try reflexivity; exfalso;
    repeat match goal with
           | H : ~ (_ \/ _) |- _ => apply Decidable.not_or in H; destruct H
           | H : _ \/ _ |- _ => destruct H
           | H : ~ (_ < _)%Q |- _ => apply Qnot_lt_le in H
           | H1 : (?a < ?b)%Q, H2 : (?b <= ?a)%Q |- _ =>
               exact (Qlt_not_le _ _ H1 H2)
           end; try lia; try tauto.
Qed.

Lemma calculate_priority_thresholds_witness :
  _calculate_priority 15000 5 = "High" /\
  _calculate_priority 500 60 = "High".
Proof.
  split.
  - apply (proj1 (proj1 calculate_priority_thresholds 15000%Q 5)).
    left. reflexivity.
  - apply (proj1 (proj1 calculate_priority_thresholds 500%Q 60)).
    right. reflexivity.
Defined.

(** C2. Merging a provider result map (possibly empty) into any current
    category map never raises.  Each category key of the provider result
    ends up holding the bucket stored before the merge (a fresh
    [{count: 0, savings: 0, items: []}] if the key was absent) with the
    payload's count added, the payload's savings added and the payload's
    items appended behind the existing ones; a missing [count], [savings]
    or [items] key contributes [0], [0] or the empty list.  The other keys
    are untouched.  [_analyze_aws] and [_analyze_azure] merge alike. *)
Theorem merge_provider_results :
  forall (r : Results) (provider_results : Dict.t CategoryData.t),
    Dict.wf provider_results ->
    exists r',
      _analyze_aws r provider_results = inr r' /\
      _analyze_azure r provider_results = inr r' /\
      (forall category data,
         In (category, data) (Dict.items provider_results) ->
         exists b',
           Dict.lookup (categories r') category = Some b' /\
           Bucket.count b' =
             Bucket.count (bucket_before (categories r) category)
             + match CategoryData.count data with Some c => c | None => 0 end /\
           Bucket.savings b' =
             (Bucket.savings (bucket_before (categories r) category)
              + match CategoryData.savings data with Some s => s | None => 0 end)%Q /\
           Bucket.items b' =
             (Bucket.items (bucket_before (categories r) category)
              ++ match CategoryData.items data with Some l => l | None => [] end)%list) /\
      (forall category,
         ~ In category (Dict.keys provider_results) ->
         Dict.lookup (categories r') category =
         Dict.lookup (categories r) category).
Proof.
  intros r provider_results Hwf.
  destruct (merge_loop_total (Dict.items provider_results) r) as [r' Hrun].
  exists r'. unfold _analyze_aws, _analyze_azure.
  split; [exact Hrun | split; [exact Hrun|]].
  destruct (merge_loop_lookup _ _ _ Hwf Hrun) as [Hin Hout].
  split; [|exact Hout].
  intros category data Hcat.
  exists (merged (bucket_before (categories r) category) data).
  split; [now apply Hin|].
  repeat split.
Qed.

Lemma merge_provider_results_witness :
  exists r',
    _analyze_aws (CloudAnalyzer.init "2025-01-01T00:00:00")
      [("EBS Volumes", CategoryData.Build (Some 2) None None)] = inr r' /\
    Dict.lookup (categories r') "EBS Volumes" = Some (Bucket.Build 2 (0 + 0)%Q []).
Proof.
  destruct (merge_provider_results (CloudAnalyzer.init "2025-01-01T00:00:00")
              [("EBS Volumes", CategoryData.Build (Some 2) None None)])
    as (r' & Haws & _ & Hin & _).
  - repeat constructor. intros [].
  - exists r'. split; [exact Haws|].
    destruct (Hin "EBS Volumes" (CategoryData.Build (Some 2) None None))
      as (b' & Hb & Hc & Hs & Hi); [now left|].
    rewrite Hb. f_equal. destruct b' as [c s i].
    cbn in Hc, Hs, Hi. now subst.
Defined.

(** *** The invariant of the merge, by arithmetic *)

Section AmountsFacts.
Variables num rec : Type.
Variable zero : num.
Variable add : num -> num -> num.

Lemma amounts_merge_item_eq (r : Amounts.Results num rec) (k : string)
  (data : Amounts.CategoryData num) :
  Amounts.merge_item num rec zero add r (k, data) =
  inr (Amounts.BuildResults (Amounts.timestamp r)
         (Dict.setitem (Amounts.categories r) k
            (Amounts.merged num zero add
               (Amounts.bucket_before num zero (Amounts.categories r) k) data))
         (Amounts.recommendations r)
         (add (Amounts.total_savings r) (Py.get (Amounts.savings data) zero))).
Proof.
  unfold Amounts.merge_item, Amounts.bucket_before, Dict.mem, Dict.getitem.
  destruct (Dict.lookup (Amounts.categories r) k) as [b|] eqn:E; cbn [negb];
    cbn [Amounts.set_categories Amounts.categories Py.bind Py.ret]; rewrite ?E;
    repeat first
      [ rewrite lookup_setitem_eq
      | rewrite setitem_setitem
      | progress cbn [Py.bind Py.ret Amounts.set_categories Amounts.categories
                      Amounts.bucket_count Amounts.bucket_savings
                      Amounts.bucket_items Amounts.timestamp
                      Amounts.recommendations Amounts.total_savings] ];
    reflexivity.
Qed.

Lemma amounts_merge_loop_counted
  (provider_items : list (string * Amounts.CategoryData num)) :
  forall r,
    (forall k b, In (k, b) (Amounts.categories r) ->
       Amounts.bucket_count b = Z.of_nat (List.length (Amounts.bucket_items b))) ->
    Forall (fun item => Amounts.payload_counted num (snd item)) provider_items ->
    exists r',
      Amounts.merge_loop num rec zero add r provider_items = inr r' /\
      forall k b, In (k, b) (Amounts.categories r') ->
        Amounts.bucket_count b = Z.of_nat (List.length (Amounts.bucket_items b)).
Proof.
  induction provider_items as [|[k data] rest IH]; intros r Hr Hall;
    cbn [Amounts.merge_loop].
  - now exists r.
  - inversion Hall as [|? ? Hp Hrest]; subst. cbn [snd] in Hp.
    rewrite amounts_merge_item_eq. cbn [Py.bind].
    apply IH; [|exact Hrest]. cbn [Amounts.categories].
    intros k0 b Hin. apply In_setitem in Hin.
    destruct Hin as [[-> ->]|Hin]; [|now apply (Hr k0)].
    cbn [Amounts.merged Amounts.bucket_count Amounts.bucket_items].
    rewrite length_app, Nat2Z.inj_add. unfold Amounts.payload_counted in Hp.
    rewrite Hp. f_equal. unfold Amounts.bucket_before.
    destruct (Dict.lookup (Amounts.categories r) k) as [b0|] eqn:E.
    + apply (Hr k). now apply lookup_In.
    + reflexivity.
Qed.

Lemma amounts_run_counted
  (scans : list (CloudAnalyzer.provider * Dict.t (Amounts.CategoryData num))) :
  forall r,
    (forall k b, In (k, b) (Amounts.categories r) ->
       Amounts.bucket_count b = Z.of_nat (List.length (Amounts.bucket_items b))) ->
    Amounts.scans_counted num scans ->
    exists r',
      Amounts.analyze_providers num rec zero add r scans = inr r' /\
      forall k b, In (k, b) (Amounts.categories r') ->
        Amounts.bucket_count b = Z.of_nat (List.length (Amounts.bucket_items b)).
Proof.
  induction scans as [|[prov res] rest IH]; intros r Hr Hall;
    cbn [Amounts.analyze_providers].
  - now exists r.
  - inversion Hall as [|? ? Hs Hrest]; subst. cbn [snd] in Hs.
    destruct (amounts_merge_loop_counted _ r Hr Hs) as (r1 & -> & Hr1).
    cbn [Py.bind]. now apply IH.
Qed.

(** With an addition that is associative and commutative and has [zero]
    as its neutral element, sums can be regrouped. *)
Hypothesis add_assoc : forall a b c, add a (add b c) = add (add a b) c.
Hypothesis add_comm : forall a b, add a b = add b a.
Hypothesis add_zero : forall a, add zero a = a.

Lemma amounts_fold_add {X : Type} (g : X -> num) (l : list X) (a : num) :
  fold_left (fun acc x => add acc (g x)) l a =
  add a (fold_left (fun acc x => add acc (g x)) l zero).
Proof.
  revert a. induction l as [|x l IH]; intros a; cbn [fold_left].
  - now rewrite (add_comm a zero), add_zero.
  - rewrite IH, (IH (add zero (g x))), add_zero. apply eq_sym, add_assoc.
Qed.

Lemma amounts_sum_savings_app (l1 l2 : list (Amounts.Finding num)) :
  Amounts.sum_savings num zero add (l1 ++ l2) =
  add (Amounts.sum_savings num zero add l1) (Amounts.sum_savings num zero add l2).
Proof.
  unfold Amounts.sum_savings. rewrite fold_left_app. apply amounts_fold_add.
Qed.

Lemma amounts_sum_buckets_cons k b (cats : Dict.t (Amounts.Bucket num)) :
  Amounts.sum_buckets num zero add ((k, b) :: cats) =
  add (Amounts.bucket_savings b) (Amounts.sum_buckets num zero add cats).
Proof.
  unfold Amounts.sum_buckets, Dict.values. cbn [map snd fold_left].
  now rewrite amounts_fold_add, add_zero.
Qed.

Lemma amounts_sum_buckets_merged (cats : Dict.t (Amounts.Bucket num)) k
  (data : Amounts.CategoryData num) :
  Amounts.sum_buckets num zero add
    (Dict.setitem cats k
       (Amounts.merged num zero add (Amounts.bucket_before num zero cats k) data)) =
  add (Amounts.sum_buckets num zero add cats)
      (Py.get (Amounts.savings data) zero).
Proof.
  unfold Amounts.bucket_before.
  induction cats as [|[k' w] rest IH]; cbn [Dict.setitem Dict.lookup].
  - rewrite amounts_sum_buckets_cons.
    cbn [Amounts.merged Amounts.bucket_savings].
    unfold Amounts.sum_buckets. cbn [Dict.values map fold_left].
    now rewrite add_zero, (add_comm _ zero), add_zero.
  - destruct (String.eqb k' k).
    + rewrite !amounts_sum_buckets_cons.
      cbn [Amounts.merged Amounts.bucket_savings].
      rewrite <- !add_assoc. f_equal. apply add_comm.
    + rewrite !amounts_sum_buckets_cons, IH. apply add_assoc.
Qed.

Lemma amounts_merge_loop_summed
  (provider_items : list (string * Amounts.CategoryData num)) :
  forall r r',
    (forall k b, In (k, b) (Amounts.categories r) ->
       Amounts.bucket_savings b =
       Amounts.sum_savings num zero add (Amounts.bucket_items b)) ->
    Amounts.total_savings r = Amounts.sum_buckets num zero add (Amounts.categories r) ->
    Forall (fun item => Amounts.payload_summed num zero add (snd item))
           provider_items ->
    Amounts.merge_loop num rec zero add r provider_items = inr r' ->
    (forall k b, In (k, b) (Amounts.categories r') ->
       Amounts.bucket_savings b =
       Amounts.sum_savings num zero add (Amounts.bucket_items b)) /\
    Amounts.total_savings r' =
      Amounts.sum_buckets num zero add (Amounts.categories r').
Proof.
  induction provider_items as [|[k data] rest IH]; intros r r' Hb Ht Hall Hrun;
    cbn [Amounts.merge_loop] in Hrun.
  - injection Hrun as <-. now split.
  - inversion Hall as [|? ? Hp Hrest]; subst. cbn [snd] in Hp.
    rewrite amounts_merge_item_eq in Hrun. cbn [Py.bind] in Hrun.
    apply (IH _ _) in Hrun; [exact Hrun | | | exact Hrest];
      cbn [Amounts.categories Amounts.total_savings].
    + intros k0 b Hin. apply In_setitem in Hin.
      destruct Hin as [[-> ->]|Hin]; [|now apply (Hb k0)].
      cbn [Amounts.merged Amounts.bucket_savings Amounts.bucket_items].
      rewrite amounts_sum_savings_app. unfold Amounts.payload_summed in Hp.
      rewrite Hp. f_equal. unfold Amounts.bucket_before.
      destruct (Dict.lookup (Amounts.categories r) k) as [b0|] eqn:E.
      * apply (Hb k). now apply lookup_In.
      * reflexivity.
    + now rewrite amounts_sum_buckets_merged, Ht.
Qed.

Lemma amounts_run_summed
  (scans : list (CloudAnalyzer.provider * Dict.t (Amounts.CategoryData num))) :
  forall r r',
    (forall k b, In (k, b) (Amounts.categories r) ->
       Amounts.bucket_savings b =
       Amounts.sum_savings num zero add (Amounts.bucket_items b)) ->
    Amounts.total_savings r = Amounts.sum_buckets num zero add (Amounts.categories r) ->
    Amounts.scans_summed num zero add scans ->
    Amounts.analyze_providers num rec zero add r scans = inr r' ->
    (forall k b, In (k, b) (Amounts.categories r') ->
       Amounts.bucket_savings b =
       Amounts.sum_savings num zero add (Amounts.bucket_items b)) /\
    Amounts.total_savings r' =
      Amounts.sum_buckets num zero add (Amounts.categories r').
Proof.
  induction scans as [|[prov res] rest IH]; intros r r' Hb Ht Hall Hrun;
    cbn [Amounts.analyze_providers] in Hrun.
  - injection Hrun as <-. now split.
  - inversion Hall as [|? ? Hs Hrest]; subst. cbn [snd] in Hs.
    destruct (Amounts.merge_loop num rec zero add r (Dict.items res))
      as [e|r1] eqn:E1; [discriminate|].
    cbn [Py.bind] in Hrun.
    destruct (amounts_merge_loop_summed _ _ _ Hb Ht Hs E1) as [Hb1 Ht1].
    now apply (IH r1 r').
Qed.

End AmountsFacts.

(** C3, as the specification states it, fails on binary floating-point
    amounts.  Two scans with well-formed payloads feed one category with
    a finding of 0.1 and then with findings of 0.2 and 0.3 (payload
    savings 0.5): the bucket's savings, 0.1 + 0.5, is not the sum of its
    items' savings, (0.1 + 0.2) + 0.3.  And after scans that give two
    categories 0.1 each and then 0.4 to the first, the accumulated
    [total_savings], (0.1 + 0.1) + 0.4, is not the sum of the buckets'
    savings, (0.1 + 0.4) + 0.1. *)
Lemma float_merge_breaks_savings_invariant :
  (Amounts.scans_counted PrimFloat.float Binary64.one_category_scans /\
   Amounts.scans_summed PrimFloat.float Binary64.zero PrimFloat.add
     Binary64.one_category_scans /\
   exists r b,
     Amounts.analyze_providers PrimFloat.float Recommendation.t Binary64.zero PrimFloat.add
       (Amounts.init PrimFloat.float Recommendation.t Binary64.zero "2025-01-01T00:00:00")
       Binary64.one_category_scans = inr r /\
     Dict.lookup (Amounts.categories r) "EBS Volumes" = Some b /\
     PrimFloat.eqb (Amounts.bucket_savings b)
       (Amounts.sum_savings PrimFloat.float Binary64.zero PrimFloat.add
          (Amounts.bucket_items b)) = false) /\
  (Amounts.scans_counted PrimFloat.float Binary64.two_category_scans /\
   Amounts.scans_summed PrimFloat.float Binary64.zero PrimFloat.add
     Binary64.two_category_scans /\
   exists r,
     Amounts.analyze_providers PrimFloat.float Recommendation.t Binary64.zero PrimFloat.add
       (Amounts.init PrimFloat.float Recommendation.t Binary64.zero "2025-01-01T00:00:00")
       Binary64.two_category_scans = inr r /\
     PrimFloat.eqb (Amounts.total_savings r)
       (Amounts.sum_buckets PrimFloat.float Binary64.zero PrimFloat.add
          (Amounts.categories r)) = false).
Proof.
  split; (split; [repeat constructor | split; [repeat constructor|]]).
  - match eval vm_compute in
      (Amounts.analyze_providers PrimFloat.float Recommendation.t
         Binary64.zero PrimFloat.add
         (Amounts.init PrimFloat.float Recommendation.t Binary64.zero
            "2025-01-01T00:00:00")
         Binary64.one_category_scans) with
    | inr ?r =>
        exists r;
        match eval vm_compute in
          (Dict.lookup (Amounts.categories r) "EBS Volumes") with
        | Some ?b => exists b
        end
    end.
    repeat split; vm_compute; reflexivity.
  - match eval vm_compute in
      (Amounts.analyze_providers PrimFloat.float Recommendation.t
         Binary64.zero PrimFloat.add
         (Amounts.init PrimFloat.float Recommendation.t Binary64.zero
            "2025-01-01T00:00:00")
         Binary64.two_category_scans) with
    | inr ?r => exists r
    end.
    split; vm_compute; reflexivity.
Qed.

(** C3 (amended).  Starting from the initial run result, after every
    sequence of merges of payloads with [count = len(items)], every bucket
    has [count = len(items)], whatever the arithmetic of the amounts.
    When the addition of amounts is exact (associative and commutative
    with neutral 0, as for Python integers) and each payload's savings is
    the sum of its items' estimated monthly savings, every bucket's
    savings is the sum of its items' savings and the accumulated
    [total_savings] is the sum of the buckets' savings. *)
Theorem merge_invariant_by_arithmetic :
  forall (num : Type) (zero : num) (add : num -> num -> num) (now : string)
         (scans : list (provider * Dict.t (Amounts.CategoryData num))),
    Amounts.scans_counted num scans ->
    exists r,
      Amounts.analyze_providers num Recommendation.t zero add
        (Amounts.init num Recommendation.t zero now) scans = inr r /\
      (forall category b,
         In (category, b) (Dict.items (Amounts.categories r)) ->
         Amounts.bucket_count b =
         Z.of_nat (List.length (Amounts.bucket_items b))) /\
      ((forall a b c, add a (add b c) = add (add a b) c) ->
       (forall a b, add a b = add b a) ->
       (forall a, add zero a = a) ->
       Amounts.scans_summed num zero add scans ->
       (forall category b,
          In (category, b) (Dict.items (Amounts.categories r)) ->
          Amounts.bucket_savings b =
          Amounts.sum_savings num zero add (Amounts.bucket_items b)) /\
       Amounts.total_savings r =
         Amounts.sum_buckets num zero add (Amounts.categories r)).
Proof.
  intros num zero add now scans Hcounted.
  destruct (amounts_run_counted num Recommendation.t zero add scans
              (Amounts.init num Recommendation.t zero now))
    as (r & Hrun & Hc); [intros k b [] | exact Hcounted |].
  exists r. split; [exact Hrun | split; [exact Hc|]].
  intros Hassoc Hcomm Hzero Hsummed.
  apply (amounts_run_summed num Recommendation.t zero add Hassoc Hcomm Hzero
           scans (Amounts.init num Recommendation.t zero now) r);
    [intros k b [] | | exact Hsummed | exact Hrun].
  unfold Amounts.init, Amounts.sum_buckets. reflexivity.
Qed.

Lemma merge_invariant_by_arithmetic_witness :
  exists r,
    Amounts.analyze_providers Z Recommendation.t 0 Z.add
      (Amounts.init Z Recommendation.t 0 "2025-01-01T00:00:00")
      [ (aws,
         [ ("S3 Storage",
            Amounts.BuildData (Some 2) (Some 100)
              (Some [ Amounts.BuildFinding "logs" "S3 Bucket" None
                        "No lifecycle policy"
                        "Implement lifecycle policy to move old data to cheaper storage"
                        50 1;
                      Amounts.BuildFinding "media" "S3 Bucket" None
                        "No lifecycle policy"
                        "Implement lifecycle policy to move old data to cheaper storage"
                        50 1 ])) ]);
        (azure,
         [ ("Storage Accounts",
            Amounts.BuildData (Some 1) (Some 30)
              (Some [ Amounts.BuildFinding "fastfiles" "Storage Account" None
                        "Using Premium tier"
                        "Consider downgrading to Hot or Cool tier"
                        30 1 ])) ]) ] = inr r /\
    Amounts.total_savings r = Amounts.sum_buckets Z 0 Z.add (Amounts.categories r).
Proof.
  edestruct (merge_invariant_by_arithmetic Z 0 Z.add "2025-01-01T00:00:00")
    as (r & Hrun & _ & Hsum).
  2: { exists r. split; [exact Hrun|].
       apply Hsum.
       - intros a b c. apply Z.add_assoc.
       - intros a b. apply Z.add_comm.
       - intros a. apply Z.add_0_l.
       - repeat constructor. }
  repeat constructor.
Defined.

Lemma merge_loop_at (results : Dict.t CategoryData.t) r r' :
  Dict.wf results ->
  merge_loop r (Dict.items results) = inr r' ->
  forall k,
    Dict.lookup (categories r') k =
    match Dict.lookup results k with
    | Some data => Some (merged (bucket_before (categories r) k) data)
    | None => Dict.lookup (categories r) k
    end.
Proof.
  intros Hwf Hrun k.
  destruct (merge_loop_lookup _ _ _ Hwf Hrun) as [Hin Hout].
  destruct (Dict.lookup results k) as [data|] eqn:E.
  - apply Hin. now apply lookup_In.
  - apply Hout. now apply lookup_None_keys.
Qed.

Lemma analyze_providers_cons r prov results rest :
  analyze_providers r ((prov, results) :: rest) =
  (r' <- merge_loop r (Dict.items results) ;; analyze_providers r' rest).
Proof. now destruct prov. Qed.

(** C6. Merging two provider result maps into the empty category map in
    either order gives each category the same count and the same savings,
    the sums of what the two maps contribute; a category's items are the two payloads' items concatenated in the
    order the merges were applied.  A category is present afterwards
    exactly when one of the two maps has it. *)
Theorem merge_additive :
  forall (now : string) (p1 p2 q1 q2 : provider) (A B : Dict.t CategoryData.t),
    Dict.wf A -> Dict.wf B ->
    exists rAB rBA,
      analyze_providers (CloudAnalyzer.init now) [(p1, A); (p2, B)] = inr rAB /\
      analyze_providers (CloudAnalyzer.init now) [(q1, B); (q2, A)] = inr rBA /\
      forall category,
        match Dict.lookup (categories rAB) category,
              Dict.lookup (categories rBA) category with
        | Some bAB, Some bBA =>
            Bucket.count bAB = Bucket.count bBA /\
            (Bucket.savings bAB == Bucket.savings bBA)%Q /\
            Bucket.count bAB =
              payload_count A category + payload_count B category /\
            (Bucket.savings bAB ==
               payload_savings A category + payload_savings B category)%Q /\
            Bucket.items bAB =
              (payload_items A category ++ payload_items B category)%list /\
            Bucket.items bBA =
              (payload_items B category ++ payload_items A category)%list
        | None, None =>
            Dict.lookup A category = None /\ Dict.lookup B category = None
        | _, _ => False
        end.
Proof.
  intros now p1 p2 q1 q2 A B HA HB.
  destruct (merge_loop_total (Dict.items A) (CloudAnalyzer.init now)) as [rA EA].
  destruct (merge_loop_total (Dict.items B) rA) as [rAB EAB].
  destruct (merge_loop_total (Dict.items B) (CloudAnalyzer.init now)) as [rB EB].
  destruct (merge_loop_total (Dict.items A) rB) as [rBA EBA].
  exists rAB, rBA.
  rewrite !analyze_providers_cons, EA, EB. cbn [Py.bind].
  rewrite !analyze_providers_cons, EAB, EBA. cbn [Py.bind analyze_providers Py.ret].
  split; [reflexivity | split; [reflexivity|]].
  intros k.
  rewrite (merge_loop_at B rA rAB HB EAB k), (merge_loop_at A rB rBA HA EBA k).
  unfold bucket_before.
  rewrite (merge_loop_at A _ rA HA EA k), (merge_loop_at B _ rB HB EB k).
  unfold payload_items, payload_count, payload_savings, bucket_before.
  cbn [CloudAnalyzer.init categories]. unfold Dict.empty. cbn [Dict.lookup].
  destruct (Dict.lookup A k) as [dA|]; destruct (Dict.lookup B k) as [dB|];
    cbn [merged Bucket.count Bucket.savings Bucket.items app];
    rewrite ?app_nil_r; repeat split; try lia; try ring.
Qed.

Lemma merge_additive_witness :
  exists rAB rBA,
    analyze_providers (CloudAnalyzer.init "2025-01-01T00:00:00")
      [ (aws, [("EBS Volumes", CategoryData.Build (Some 2) (Some 10%Q) None)]);
        (azure, [("EBS Volumes", CategoryData.Build (Some 3) (Some 5%Q) None)]) ]
      = inr rAB /\
    analyze_providers (CloudAnalyzer.init "2025-01-01T00:00:00")
      [ (aws, [("EBS Volumes", CategoryData.Build (Some 3) (Some 5%Q) None)]);
        (azure, [("EBS Volumes", CategoryData.Build (Some 2) (Some 10%Q) None)]) ]
      = inr rBA.
Proof.
  edestruct (merge_additive "2025-01-01T00:00:00" aws azure aws azure
               [("EBS Volumes", CategoryData.Build (Some 2) (Some 10%Q) None)]
               [("EBS Volumes", CategoryData.Build (Some 3) (Some 5%Q) None)])
    as (rAB & rBA & H1 & H2 & _).
  3: { exists rAB, rBA. split; [exact H1 | exact H2]. }
  all: repeat constructor; intros [].
Defined.

(** C4. An engine built with enhanced mode requested but no API key in the
    environment is downgraded to basic mode at construction without an
    exception, and on every category input [enhance_recommendations]
    returns exactly what an engine built with enhanced mode disabled
    returns, and does not raise. *)
Theorem fallback_determinism :
  forall (cfg cfg' : Config) (environ_key environ_key' : option string)
         (cats : Dict.t CategoryData.t),
    cfg_enabled cfg = Some true ->
    Py.truthy environ_key = false ->
    Py.get (cfg_enabled cfg') false = false ->
    enabled (fst (InsightEngine.init cfg environ_key)) = false /\
    enhance_recommendations (fst (InsightEngine.init cfg environ_key)) cats =
    enhance_recommendations (fst (InsightEngine.init cfg' environ_key')) cats /\
    exists recs,
      fst (enhance_recommendations
             (fst (InsightEngine.init cfg environ_key)) cats) = inr recs.
Proof.
  intros cfg cfg' key key' cats He Hk He'.
  rewrite (init_downgrade cfg key He Hk). cbn [fst enabled].
  split; [reflexivity|].
  rewrite !enhance_eq. split; [reflexivity|].
  eexists. reflexivity.
Qed.

Lemma fallback_determinism_witness :
  enhance_recommendations
    (fst (InsightEngine.init (BuildConfig None None (Some true)) None))
    example_categories =
  enhance_recommendations
    (fst (InsightEngine.init (BuildConfig None None (Some false))
            (Some "sk-test")))
    example_categories.
Proof.
  apply (fallback_determinism
           (BuildConfig None None (Some true))
           (BuildConfig None None (Some false))
           None (Some "sk-test") example_categories);
    reflexivity.
Defined.

(** C5. On every category input the engine returns its recommendations
    sorted by [total_savings] in descending order, and the output order,
    ties included, is a function of the input alone: every engine, in
    whatever mode, returns the same sequence for the same input. *)
Theorem recommendations_sorted_descending :
  forall (self : InsightEngine.t) (cats : Dict.t CategoryData.t),
    exists recs,
      fst (enhance_recommendations self cats) = inr recs /\
      descending Recommendation.total_savings recs /\
      (forall i j a b,
         (i < j)%nat -> nth_error recs i = Some a -> nth_error recs j = Some b ->
         (Recommendation.total_savings b <= Recommendation.total_savings a)%Q) /\
      (forall other : InsightEngine.t,
         fst (enhance_recommendations other cats) = inr recs).
Proof.
  intros self cats. rewrite enhance_eq. eexists. split; [reflexivity|].
  pose proof (sort_reverse_descending Recommendation.total_savings
                (map recommendation_entry (filter counted cats))) as Hd.
  split; [exact Hd | split].
  - revert Hd. generalize (ListSort.sort_reverse Recommendation.total_savings
                             (map recommendation_entry (filter counted cats))).
    intros l Hd. induction Hd as [|x r Hr IH Hall]; intros i j a b Hij Hi Hj.
    + destruct i; discriminate.
    + destruct j as [|j]; [lia|]. cbn in Hj.
      destruct i as [|i]; cbn in Hi.
      * injection Hi as <-. rewrite Forall_forall in Hall.
        apply Hall. eapply nth_error_In; eauto.
      * apply (IH i j); auto. lia.
  - intros other. now rewrite enhance_eq.
Qed.

(** C7. A category whose count is 0, or whose [count] key is absent,
    contributes no recommendation.  Every recommendation of the output
    comes from a category of the input with [count > 0], and its
    [average_savings_per_item] is that category's savings divided by its
    count; the division is never by zero, the engine does not raise. *)
Theorem zero_count_exclusion :
  forall (self : InsightEngine.t) (cats : Dict.t CategoryData.t),
    Dict.wf cats ->
    exists recs,
      fst (enhance_recommendations self cats) = inr recs /\
      (forall category data,
         In (category, data) (Dict.items cats) ->
         CategoryData.count data = Some 0 \/ CategoryData.count data = None ->
         ~ In category (map Recommendation.category recs)) /\
      (forall rec,
         In rec recs ->
         exists data count,
           In (Recommendation.category rec, data) (Dict.items cats) /\
           CategoryData.count data = Some count /\
           0 < count /\
           Recommendation.finding_count rec = count /\
           Recommendation.total_savings rec =
             Py.get (CategoryData.savings data) 0%Q /\
           Py.truediv (Py.get (CategoryData.savings data) 0%Q) count =
             inr (Recommendation.average_savings_per_item rec) /\
           Recommendation.average_savings_per_item rec =
             (Py.get (CategoryData.savings data) 0%Q / inject_Z count)%Q).
Proof.
  intros self cats Hwf. rewrite enhance_eq. eexists.
  split; [reflexivity|]. unfold Dict.items. split.
  - intros category data Hin Hzero Hout.
    apply in_map_iff in Hout. destruct Hout as (rec & Hcat & Hrec).
    apply In_output_entry in Hrec.
    destruct Hrec as ([k d] & Hitem & Hcounted & ->).
    cbn [recommendation_entry Recommendation.category] in Hcat. subst k.
    pose proof (In_lookup _ _ _ Hwf Hin) as E1.
    pose proof (In_lookup _ _ _ Hwf Hitem) as E2.
    rewrite E1 in E2. injection E2 as <-.
    unfold counted in Hcounted. cbn [snd] in Hcounted.
    destruct Hzero as [E | E]; rewrite E in Hcounted; discriminate.
  - intros rec Hrec. apply In_output_entry in Hrec.
    destruct Hrec as ([k d] & Hitem & Hcounted & ->).
    unfold counted in Hcounted. cbn [snd] in Hcounted.
    destruct (CategoryData.count d) as [c|] eqn:Ec; [|discriminate].
    cbn [Py.get] in Hcounted. apply Z.ltb_lt in Hcounted.
    exists d, c.
    cbn [recommendation_entry Recommendation.category
         Recommendation.finding_count Recommendation.total_savings
         Recommendation.average_savings_per_item].
    rewrite Ec. cbn [Py.get]. unfold Py.truediv.
    destruct (Z.eqb_spec c 0); [lia|]. repeat split; auto.
Qed.

Lemma zero_count_exclusion_witness :
  exists recs,
    fst (enhance_recommendations default_engine
           [ ("S3 Storage", CategoryData.Build (Some 0) (Some 50%Q) None);
             ("Elastic IPs", CategoryData.Build None (Some 7%Q) None);
             ("EBS Volumes", CategoryData.Build (Some 4) (Some 10%Q) None) ])
    = inr recs /\
    ~ In "S3 Storage" (map Recommendation.category recs) /\
    ~ In "Elastic IPs" (map Recommendation.category recs).
Proof.
  edestruct (zero_count_exclusion default_engine
           [ ("S3 Storage", CategoryData.Build (Some 0) (Some 50%Q) None);
             ("Elastic IPs", CategoryData.Build None (Some 7%Q) None);
             ("EBS Volumes", CategoryData.Build (Some 4) (Some 10%Q) None) ])
    as (recs & Hrun & Hzero & _).
  2: { exists recs. split; [exact Hrun | split].
       - eapply Hzero; [left; reflexivity | left; reflexivity].
       - eapply Hzero; [right; left; reflexivity | right; reflexivity]. }
  unfold Dict.wf. cbn.
  repeat constructor; cbn; intuition discriminate.
Defined.

(** C8. For a category name outside the fixed remedy table (hence outside
    the risk and effort sets, whose members are all in the table) the three
    lookups do not fail and give ["Review and optimize resources"],
    ["Very Low"] and ["Medium"], and so does every recommendation the
    engine generates for such a category. *)
Theorem unrecognized_category :
  forall category : string,
    ~ In category (Dict.keys recommendations_table) ->
    (_get_category_recommendation category = "Review and optimize resources" /\
     _assess_risk category = "Very Low" /\
     _assess_effort category = "Medium") /\
    (forall (self : InsightEngine.t) (cats : Dict.t CategoryData.t) recs rec,
       fst (enhance_recommendations self cats) = inr recs ->
       In rec recs ->
       Recommendation.category rec = category ->
       Recommendation.recommendation rec = "Review and optimize resources" /\
       Recommendation.risk_level rec = "Very Low" /\
       Recommendation.effort rec = "Medium").
Proof.
  intros category Hnot.
  destruct (not_in_table_sets category Hnot) as (Ht & Hh & Hm & Hl).
  assert (_get_category_recommendation category = "Review and optimize resources" /\
          _assess_risk category = "Very Low" /\
          _assess_effort category = "Medium") as Hfun.
  { unfold _get_category_recommendation, _assess_risk, _assess_effort.
    now rewrite Ht, Hh, Hm, Hl. }
  split; [exact Hfun|].
  intros self cats recs rec Hrun Hrec Hcat.
  rewrite enhance_eq in Hrun. cbn [fst] in Hrun. injection Hrun as <-.
  apply In_output_entry in Hrec. destruct Hrec as ([k d] & _ & _ & ->).
  cbn [recommendation_entry Recommendation.category] in Hcat. subst k.
  exact Hfun.
Qed.

Lemma unrecognized_category_witness :
  _get_category_recommendation "Lambda Functions" = "Review and optimize resources" /\
  _assess_risk "Lambda Functions" = "Very Low" /\
  _assess_effort "Lambda Functions" = "Medium".
Proof.
  apply (proj1 (unrecognized_category "Lambda Functions"
                  ltac:(cbn; intuition discriminate))).
Defined.

(** C9, as the specification states it, fails: on the end-to-end example
    the engine does not rank Elastic IPs as Low. *)
Lemma example_ranking_not_low :
  ranking (fst (enhance_recommendations default_engine example_categories)) <>
  inr [ ("EC2 Instances", "High"); ("EBS Volumes", "High");
        ("Elastic IPs", "Low") ].
Proof.
  vm_compute. discriminate.
Qed.

(** C9 (amended). On the categories
    [{"EC2 Instances": {count: 23, savings: 18450},
      "EBS Volumes": {count: 156, savings: 12340},
      "Elastic IPs": {count: 12, savings: 43.2}}]
    every engine yields the recommendations in the order
    [EC2 Instances, EBS Volumes, Elastic IPs] with priorities
    [High, High, Medium]: Elastic IPs has [count = 12 > 10]. *)
Theorem example_ranking :
  forall self : InsightEngine.t,
    ranking (fst (enhance_recommendations self example_categories)) =
    inr [ ("EC2 Instances", "High"); ("EBS Volumes", "High");
          ("Elastic IPs", "Medium") ].
Proof.
  intros self. rewrite enhance_eq. reflexivity.
Qed.

(** C10. Recommendations with equal [total_savings] appear in the output
    in the order in which their categories are iterated in the input
    dictionary: for every amount [v], the categories of the output entries
    whose [total_savings] equals [v], read in output order, are the input
    keys with [count > 0] and savings equal to [v], read in insertion
    order.  For instance the categories [A], [B], [C] with one finding each
    and savings 500, 500, 900 are ranked [C, A, B]. *)
Theorem ties_keep_insertion_order :
  (forall (self : InsightEngine.t) (cats : Dict.t CategoryData.t),
    exists recs,
      fst (enhance_recommendations self cats) = inr recs /\
      forall v : Q,
        map Recommendation.category
            (with_key Recommendation.total_savings v recs) =
        Dict.keys
          (filter (fun item =>
                     (0 <? Py.get (CategoryData.count (snd item)) 0) &&
                     Qeq_bool (Py.get (CategoryData.savings (snd item)) 0%Q) v)
                  (Dict.items cats))) /\
  (forall self : InsightEngine.t,
     ranking (fst (enhance_recommendations self
        [ ("A", CategoryData.Build (Some 1) (Some 500%Q) None);
          ("B", CategoryData.Build (Some 1) (Some 500%Q) None);
          ("C", CategoryData.Build (Some 1) (Some 900%Q) None) ])) =
     inr [ ("C", "Low"); ("A", "Low"); ("B", "Low") ]).
Proof.
  split.
  - intros self cats. rewrite enhance_eq. eexists. split; [reflexivity|].
    intros v. rewrite sort_reverse_stable. apply with_key_entries.
  - intros self. rewrite enhance_eq. reflexivity.
Qed.

(* ================================================================== *)
(** ** Further properties of the aggregation engine                    *)
(* ================================================================== *)

Lemma mem_setitem_neq {V : Type} (d : Dict.t V) k k0 v :
  k0 <> k -> Dict.mem (Dict.setitem d k v) k0 = Dict.mem d k0.
Proof.
  intros Hne. unfold Dict.mem. now rewrite lookup_setitem_neq.
Qed.

Lemma merge_loop_frame (items : list (string * CategoryData.t)) :
  forall r r',
    merge_loop r items = inr r' ->
    timestamp r' = timestamp r /\ recommendations r' = recommendations r.
Proof.
  induction items as [|[k d] rest IH]; intros r r' Hrun; cbn [merge_loop] in Hrun.
  - injection Hrun as <-. now split.
  - rewrite merge_item_eq in Hrun. cbn [Py.bind] in Hrun.
    destruct (IH _ _ Hrun) as [Ht Hr]. now split.
Qed.

Lemma merge_loop_keys (items : list (string * CategoryData.t)) :
  forall r r',
    NoDup (map fst items) ->
    merge_loop r items = inr r' ->
    Dict.keys (categories r') =
    (Dict.keys (categories r) ++
     filter (fun k => negb (Dict.mem (categories r) k)) (map fst items))%list.
Proof.
  induction items as [|[k0 d0] rest IH]; intros r r' Hnd Hrun;
    cbn [merge_loop] in Hrun.
  - injection Hrun as <-. cbn. now rewrite app_nil_r.
  - rewrite merge_item_eq in Hrun. cbn [Py.bind] in Hrun.
    inversion Hnd as [|? ? Hnotin Hnd']; subst.
    rewrite (IH _ _ Hnd' Hrun). cbn [categories map fst filter].
    rewrite keys_setitem.
    assert (filter (fun k => negb (Dict.mem
                (Dict.setitem (categories r) k0
                   (merged (bucket_before (categories r) k0) d0)) k))
              (map fst rest) =
            filter (fun k => negb (Dict.mem (categories r) k)) (map fst rest))
      as ->.
    { apply filter_ext_in. intros k Hk. rewrite mem_setitem_neq; [reflexivity|].
      intros ->. contradiction. }
    destruct (Dict.mem (categories r) k0); cbn [negb]; [reflexivity|].
    now rewrite <- app_assoc.
Qed.

(** X1. A provider merge keeps every category that was already there at
    its position and puts the provider's new categories behind them, in
    the order the provider listed them; it leaves the timestamp and the
    recommendations alone. *)
Theorem merge_appends_new_categories :
  forall (r : Results) (provider_results : Dict.t CategoryData.t),
    Dict.wf provider_results ->
    exists r',
      _analyze_aws r provider_results = inr r' /\
      Dict.keys (categories r') =
        (Dict.keys (categories r) ++
         filter (fun k => negb (Dict.mem (categories r) k))
                (Dict.keys provider_results))%list /\
      timestamp r' = timestamp r /\
      recommendations r' = recommendations r.
Proof.
  intros r prov Hwf.
  destruct (merge_loop_total (Dict.items prov) r) as [r' Hrun].
  exists r'. unfold _analyze_aws. split; [exact Hrun|].
  split; [now apply merge_loop_keys|].
  now apply (merge_loop_frame (Dict.items prov)).
Qed.

Lemma merge_appends_new_categories_witness :
  exists r',
    _analyze_aws
      (BuildResults "2025-01-01T00:00:00"
         [("EBS Volumes", Bucket.Build 1 5%Q [])] [] 5%Q)
      [ ("S3 Storage", CategoryData.Build (Some 1) (Some 50%Q) None);
        ("EBS Volumes", CategoryData.Build (Some 2) None None);
        ("EC2 Instances", CategoryData.Build None None None) ] = inr r' /\
    Dict.keys (categories r') = ["EBS Volumes"; "S3 Storage"; "EC2 Instances"].
Proof.
  edestruct (merge_appends_new_categories
           (BuildResults "2025-01-01T00:00:00"
              [("EBS Volumes", Bucket.Build 1 5%Q [])] [] 5%Q)
           [ ("S3 Storage", CategoryData.Build (Some 1) (Some 50%Q) None);
             ("EBS Volumes", CategoryData.Build (Some 2) None None);
             ("EC2 Instances", CategoryData.Build None None None) ])
    as (r' & Hrun & Hkeys & _).
  2: { exists r'. split; [exact Hrun | exact Hkeys]. }
  unfold Dict.wf. cbn. repeat constructor; cbn; intuition discriminate.
Defined.

Lemma sum_payloads_cons k d (items : list (string * CategoryData.t)) :
  (sum_payloads ((k, d) :: items) ==
   Py.get (CategoryData.savings d) 0 + sum_payloads items)%Q.
Proof.
  unfold sum_payloads, Dict.items. cbn [fold_left snd].
  rewrite (fold_left_Qplus
             (fun item => Py.get (CategoryData.savings (snd item)) 0%Q)).
  ring.
Qed.

Lemma sum_payloads_nonneg (items : list (string * CategoryData.t)) :
  (forall k d, In (k, d) items -> (0 <= Py.get (CategoryData.savings d) 0)%Q) ->
  (0 <= sum_payloads items)%Q.
Proof.
  induction items as [|[k d] rest IH]; intros Hall.
  - unfold sum_payloads. cbn. apply Qle_refl.
  - rewrite sum_payloads_cons.
    rewrite <- (Qplus_0_r 0) at 1. apply Qplus_le_compat.
    + apply (Hall k). now left.
    + apply IH. intros k' d' Hin. apply (Hall k'). now right.
Qed.

Lemma merge_loop_total_savings (items : list (string * CategoryData.t)) :
  forall r r',
    merge_loop r items = inr r' ->
    (total_savings r' == total_savings r + sum_payloads items)%Q.
Proof.
  induction items as [|[k d] rest IH]; intros r r' Hrun; cbn [merge_loop] in Hrun.
  - injection Hrun as <-. unfold sum_payloads. cbn. ring.
  - rewrite merge_item_eq in Hrun. cbn [Py.bind] in Hrun.
    rewrite (IH _ _ Hrun), sum_payloads_cons. cbn [total_savings]. ring.
Qed.

Lemma merge_loop_total_fold (items : list (string * CategoryData.t)) :
  forall r r',
    merge_loop r items = inr r' ->
    total_savings r' =
    fold_left (fun acc item =>
                 (acc + Py.get (CategoryData.savings (snd item)) 0)%Q)
              items (total_savings r).
Proof.
  induction items as [|[k d] rest IH]; intros r r' Hrun; cbn [merge_loop] in Hrun.
  - now injection Hrun as <-.
  - rewrite merge_item_eq in Hrun. cbn [Py.bind] in Hrun.
    now rewrite (IH _ _ Hrun).
Qed.

(** X2. A provider merge adds the payloads' savings to the running
    [total_savings] one after the other, in the provider's order, a
    missing [savings] counting as 0: the new total is that left-to-right
    sum started from the old total.  When no payload has negative savings
    the total does not decrease. *)
Theorem merge_total_savings_grows :
  forall (r : Results) (provider_results : Dict.t CategoryData.t),
    exists r',
      _analyze_aws r provider_results = inr r' /\
      total_savings r' =
        fold_left (fun acc item =>
                     (acc + Py.get (CategoryData.savings (snd item)) 0)%Q)
                  (Dict.items provider_results) (total_savings r) /\
      ((forall category data,
          In (category, data) (Dict.items provider_results) ->
          (0 <= Py.get (CategoryData.savings data) 0)%Q) ->
       (total_savings r <= total_savings r')%Q).
Proof.
  intros r prov.
  destruct (merge_loop_total (Dict.items prov) r) as [r' Hrun].
  exists r'. unfold _analyze_aws. split; [exact Hrun|].
  split; [now apply merge_loop_total_fold|].
  intros Hpos.
  rewrite (merge_loop_total_savings _ _ _ Hrun).
  rewrite <- (Qplus_0_r (total_savings r)) at 1.
  apply Qplus_le_compat; [apply Qle_refl | now apply sum_payloads_nonneg].
Qed.

Lemma merge_total_savings_grows_witness :
  exists r',
    _analyze_aws (CloudAnalyzer.init "2025-01-01T00:00:00")
      [ ("S3 Storage", CategoryData.Build (Some 1) (Some 50%Q) None);
        ("Elastic IPs", CategoryData.Build (Some 2) (Some (72 # 10)%Q) None) ]
      = inr r' /\
    (0 <= total_savings r')%Q.
Proof.
  destruct (merge_total_savings_grows
               (CloudAnalyzer.init "2025-01-01T00:00:00")
               [ ("S3 Storage", CategoryData.Build (Some 1) (Some 50%Q) None);
                 ("Elastic IPs",
                  CategoryData.Build (Some 2) (Some (72 # 10)%Q) None) ])
    as (r' & Hrun & _ & Hle).
  exists r'. split; [exact Hrun|]. apply Hle.
  intros category data [[= <- <-]|[[= <- <-]|[]]]; cbn; discriminate.
Defined.

Lemma analyze_providers_total scans :
  forall r, exists r', analyze_providers r scans = inr r'.
Proof.
  induction scans as [|[prov res] rest IH]; intros r.
  - now exists r.
  - rewrite analyze_providers_cons.
    destruct (merge_loop_total (Dict.items res) r) as [r1 ->].
    cbn [Py.bind]. apply IH.
Qed.

Lemma bucket_before_merge (results : Dict.t CategoryData.t) r r' k :
  Dict.wf results ->
  merge_loop r (Dict.items results) = inr r' ->
  Bucket.count (bucket_before (categories r') k) =
    Bucket.count (bucket_before (categories r) k) + payload_count results k /\
  (Bucket.savings (bucket_before (categories r') k) ==
     Bucket.savings (bucket_before (categories r) k)
     + payload_savings results k)%Q /\
  Bucket.items (bucket_before (categories r') k) =
    (Bucket.items (bucket_before (categories r) k)
     ++ payload_items results k)%list /\
  Dict.mem (categories r') k = Dict.mem (categories r) k || Dict.mem results k.
Proof.
  intros Hwf Hrun.
  pose proof (merge_loop_at results r r' Hwf Hrun k) as Hk.
  unfold bucket_before, payload_count, payload_savings, payload_items, Dict.mem.
  rewrite Hk.
  destruct (Dict.lookup results k) as [d|].
  - cbn [merged Bucket.count Bucket.savings Bucket.items].
    repeat split; try reflexivity.
    now destruct (Dict.lookup (categories r) k); rewrite ?orb_true_r.
  - rewrite app_nil_r, orb_false_r. repeat split; try lia. ring.
Qed.

Lemma analyze_providers_at scans :
  forall r r',
    Forall (fun scan => Dict.wf (snd scan)) scans ->
    analyze_providers r scans = inr r' ->
    forall k,
      Bucket.count (bucket_before (categories r') k) =
        Bucket.count (bucket_before (categories r) k) + scans_count scans k /\
      (Bucket.savings (bucket_before (categories r') k) ==
         Bucket.savings (bucket_before (categories r) k)
         + scans_savings scans k)%Q /\
      Bucket.items (bucket_before (categories r') k) =
        (Bucket.items (bucket_before (categories r) k)
         ++ scans_items scans k)%list /\
      Dict.mem (categories r') k =
        Dict.mem (categories r) k || scans_have scans k.
Proof.
  induction scans as [|[prov res] rest IH]; intros r r' Hwf Hrun k.
  - cbn in Hrun. injection Hrun as <-.
    cbn [scans_count scans_savings scans_items scans_have fold_right
         flat_map existsb].
    rewrite app_nil_r, orb_false_r. repeat split; try lia. ring.
  - rewrite analyze_providers_cons in Hrun.
    destruct (merge_loop_total (Dict.items res) r) as [r1 E1].
    rewrite E1 in Hrun. cbn [Py.bind] in Hrun.
    inversion Hwf as [|? ? Hres Hrest]; subst. cbn [snd] in Hres.
    destruct (bucket_before_merge res r r1 k Hres E1) as (Hc1 & Hs1 & Hi1 & Hm1).
    destruct (IH r1 r' Hrest Hrun k) as (Hc & Hs & Hi & Hm).
    change (scans_count ((prov, res) :: rest) k)
      with (payload_count res k + scans_count rest k).
    change (scans_savings ((prov, res) :: rest) k)
      with (payload_savings res k + scans_savings rest k)%Q.
    change (scans_items ((prov, res) :: rest) k)
      with (payload_items res k ++ scans_items rest k)%list.
    change (scans_have ((prov, res) :: rest) k)
      with (Dict.mem res k || scans_have rest k).
    rewrite Hc, Hs, Hi, Hm, Hc1, Hs1, Hi1, Hm1.
    repeat split; try lia; try ring.
    + now rewrite app_assoc.
    + now rewrite orb_assoc.
Qed.

Lemma run_from_init_at now scans :
  Forall (fun scan => Dict.wf (snd scan)) scans ->
  exists r,
    analyze_providers (CloudAnalyzer.init now) scans = inr r /\
    forall category,
      match Dict.lookup (categories r) category with
      | Some b =>
          scans_have scans category = true /\
          Bucket.count b = scans_count scans category /\
          (Bucket.savings b == scans_savings scans category)%Q /\
          Bucket.items b = scans_items scans category
      | None => scans_have scans category = false
      end.
Proof.
  intros Hwf.
  destruct (analyze_providers_total scans (CloudAnalyzer.init now)) as [r Hrun].
  exists r. split; [exact Hrun|]. intros k.
  destruct (analyze_providers_at scans _ _ Hwf Hrun k) as (Hc & Hs & Hi & Hm).
  unfold bucket_before, Dict.mem in *.
  cbn [CloudAnalyzer.init categories] in *. unfold Dict.empty in *.
  cbn [Dict.lookup Bucket.count Bucket.savings Bucket.items orb app] in *.
  destruct (Dict.lookup (categories r) k) as [b|].
  - repeat split; auto. rewrite Hs. ring.
  - now symmetry.
Qed.



Lemma scans_count_perm scans scans' k :
  Permutation scans scans' -> scans_count scans k = scans_count scans' k.
Proof.
  unfold scans_count. induction 1; cbn [fold_right]; lia.
Qed.

Lemma scans_have_perm scans scans' k :
  Permutation scans scans' -> scans_have scans k = scans_have scans' k.
Proof.
  unfold scans_have. induction 1; cbn [existsb]; try congruence.
  - now rewrite !orb_assoc, (orb_comm (Dict.mem (snd y) k)).
Qed.

Lemma scans_items_perm scans scans' k :
  Permutation scans scans' ->
  Permutation (scans_items scans k) (scans_items scans' k).
Proof.
  unfold scans_items. intros H.
  induction H; cbn [flat_map].
  - constructor.
  - now apply Permutation_app_head.
  - rewrite !app_assoc. apply Permutation_app_tail, Permutation_app_comm.
  - etransitivity; eauto.
Qed.

(** X4. The order in which any number of providers are scanned does not
    matter to what is found: two runs over the same scans in different
    orders have the same categories, with equal counts, and each category
    holds the same findings up to their order. *)
Theorem run_order_insensitive :
  forall (now : string) (scans scans' : list (provider * Dict.t CategoryData.t)),
    Permutation scans scans' ->
    Forall (fun scan => Dict.wf (snd scan)) scans ->
    exists r r',
      analyze_providers (CloudAnalyzer.init now) scans = inr r /\
      analyze_providers (CloudAnalyzer.init now) scans' = inr r' /\
      forall category,
        match Dict.lookup (categories r) category,
              Dict.lookup (categories r') category with
        | Some b, Some b' =>
            Bucket.count b = Bucket.count b' /\
            Permutation (Bucket.items b) (Bucket.items b')
        | None, None => True
        | _, _ => False
        end.
Proof.
  intros now scans scans' Hperm Hwf.
  assert (Forall (fun scan => Dict.wf (snd scan)) scans') as Hwf'.
  { rewrite Forall_forall in *. intros s Hs. apply Hwf.
    eapply Permutation_in; [symmetry; exact Hperm | exact Hs]. }
  destruct (run_from_init_at now scans Hwf) as (r & Hrun & Hat).
  destruct (run_from_init_at now scans' Hwf') as (r' & Hrun' & Hat').
  exists r, r'. split; [exact Hrun | split; [exact Hrun'|]].
  intros k. specialize (Hat k). specialize (Hat' k).
  rewrite (scans_have_perm _ _ k Hperm) in Hat.
  destruct (Dict.lookup (categories r) k) as [b|];
    destruct (Dict.lookup (categories r') k) as [b'|].
  - destruct Hat as (_ & Hc & _ & Hi). destruct Hat' as (_ & Hc' & _ & Hi').
    rewrite Hc, Hc', Hi, Hi'.
    split; [now apply scans_count_perm | now apply scans_items_perm].
  - destruct Hat as [Hat _]. congruence.
  - destruct Hat' as [Hat' _]. congruence.
  - exact I.
Qed.

Lemma run_order_insensitive_witness :
  exists r r',
    analyze_providers (CloudAnalyzer.init "2025-01-01T00:00:00")
      [ (aws, [("EBS Volumes", CategoryData.Build (Some 2) (Some 10%Q) None)]);
        (azure, [("Managed Disks", CategoryData.Build (Some 3) (Some 5%Q) None)]) ]
      = inr r /\
    analyze_providers (CloudAnalyzer.init "2025-01-01T00:00:00")
      [ (azure, [("Managed Disks", CategoryData.Build (Some 3) (Some 5%Q) None)]);
        (aws, [("EBS Volumes", CategoryData.Build (Some 2) (Some 10%Q) None)]) ]
      = inr r'.
Proof.
  edestruct (run_order_insensitive "2025-01-01T00:00:00"
      [ (aws, [("EBS Volumes", CategoryData.Build (Some 2) (Some 10%Q) None)]);
        (azure, [("Managed Disks", CategoryData.Build (Some 3) (Some 5%Q) None)]) ]
      [ (azure, [("Managed Disks", CategoryData.Build (Some 3) (Some 5%Q) None)]);
        (aws, [("EBS Volumes", CategoryData.Build (Some 2) (Some 10%Q) None)]) ])
    as (r & r' & H1 & H2 & _).
  3: { exists r, r'. split; [exact H1 | exact H2]. }
  - apply perm_swap.
  - repeat constructor; cbn; intros [].
Defined.

(* ================================================================== *)
(** ** Further properties of the recommendation engine                 *)
(* ================================================================== *)

(** X5. Priority is monotone: raising the savings or the count of a
    category never lowers its priority. *)
Theorem calculate_priority_monotone :
  forall (savings savings' : Q) (count count' : Z),
    (savings <= savings')%Q -> count <= count' ->
    priority_rank (_calculate_priority savings count) <=
    priority_rank (_calculate_priority savings' count').
Proof.
  intros s s' c c' Hs Hc. unfold _calculate_priority.
  destruct (Py.Qlt_bool 10000 s) eqn:H1;
    destruct (50 <? c) eqn:H2;
    destruct (Py.Qlt_bool 1000 s) eqn:H3;
    destruct (10 <? c) eqn:H4;
    destruct (Py.Qlt_bool 10000 s') eqn:H1';
    destruct (50 <? c') eqn:H2';
    destruct (Py.Qlt_bool 1000 s') eqn:H3';
    destruct (10 <? c') eqn:H4';
    cbn; try lia; exfalso;
    rewrite ?Qlt_bool_iff, ?Qlt_bool_false_iff in *;
    rewrite ?Z.ltb_lt, ?Z.ltb_ge in *;
    try lia;
    repeat match goal with
           | Hlt : (?a < s)%Q, Hle : (s' <= ?a)%Q |- _ =>
               exact (Qlt_not_le _ _ (Qlt_le_trans _ _ _ Hlt Hs) Hle)
           end.
Qed.

Lemma calculate_priority_monotone_witness :
  priority_rank (_calculate_priority 500 10) <=
  priority_rank (_calculate_priority 500 11).
Proof.
  apply (calculate_priority_monotone 500 500 10 11).
  - apply Qle_refl.
  - lia.
Defined.

(** X6. Risk and effort agree on the known categories: a category rated
    "Medium" risk always takes "Medium" effort, one rated "Low" risk
    always takes "Low" effort, and Elastic IPs is the one category of
    "Very Low" risk and "Low" effort.  Whatever the name, the two scores
    stay within their enumerations. *)
Theorem risk_effort_consistent :
  forall category : string,
    (_assess_risk category = "Medium" -> _assess_effort category = "Medium") /\
    (_assess_risk category = "Low" -> _assess_effort category = "Low") /\
    (_assess_risk category = "Very Low" /\ _assess_effort category = "Low" <->
     category = "Elastic IPs") /\
    (_assess_risk category = "Medium" \/ _assess_risk category = "Low" \/
     _assess_risk category = "Very Low") /\
    (_assess_effort category = "Low" \/ _assess_effort category = "Medium").
Proof.
  intros category.
  unfold _assess_risk, _assess_effort, high_risk, medium_risk, low_effort.
  cbn [Py.contains].
  repeat match goal with
         | |- context [String.eqb ?a category] =>
             destruct (String.eqb_spec a category) as [<-|?]
         end;
    cbn; repeat split; intros;
    repeat match goal with
           | H : _ /\ _ |- _ => destruct H
           end;
    try discriminate; try congruence; auto.
Qed.

Lemma category_entries (cats : Dict.t CategoryData.t) :
  map Recommendation.category (map recommendation_entry cats) = Dict.keys cats.
Proof.
  unfold Dict.keys. rewrite map_map. apply map_ext. now intros [k d].
Qed.

Lemma keys_filter_NoDup {V : Type} (f : string * V -> bool) (d : Dict.t V) :
  Dict.wf d -> Dict.wf (filter f d).
Proof.
  unfold Dict.wf, Dict.keys.
  induction d as [|[k v] r IH]; cbn [filter map]; intros Hnd; [constructor|].
  inversion Hnd as [|? ? Hnotin Hnd']; subst.
  destruct (f (k, v)); cbn [map fst]; [|auto].
  constructor; [|auto].
  intros Hin. apply Hnotin. apply in_map_iff in Hin.
  destruct Hin as (x & Hx & Hfx). apply filter_In in Hfx.
  apply in_map_iff. exists x. tauto.
Qed.

(** X7. Each category with [count > 0] yields exactly one recommendation
    and no other recommendation is produced: the categories of the output
    are the counted input keys, rearranged, without repetition, so the
    output is never longer than the input. *)
Theorem one_recommendation_per_category :
  forall (self : InsightEngine.t) (cats : Dict.t CategoryData.t),
    Dict.wf cats ->
    exists recs,
      fst (enhance_recommendations self cats) = inr recs /\
      Permutation (map Recommendation.category recs)
                  (Dict.keys (filter counted (Dict.items cats))) /\
      NoDup (map Recommendation.category recs) /\
      (List.length recs <= List.length (Dict.items cats))%nat.
Proof.
  intros self cats Hwf. rewrite enhance_eq. eexists.
  split; [reflexivity|]. unfold Dict.items.
  assert (Permutation
            (map Recommendation.category
               (ListSort.sort_reverse Recommendation.total_savings
                  (map recommendation_entry (filter counted cats))))
            (Dict.keys (filter counted cats))) as Hperm.
  { rewrite <- category_entries. apply Permutation_map, sort_reverse_perm. }
  split; [exact Hperm | split].
  - eapply Permutation_NoDup; [symmetry; exact Hperm|].
    now apply keys_filter_NoDup.
  - rewrite (Permutation_length (sort_reverse_perm _ _)), length_map.
    apply filter_length_le.
Qed.

Lemma one_recommendation_per_category_witness :
  exists recs,
    fst (enhance_recommendations default_engine example_categories) = inr recs /\
    (List.length recs <= 3)%nat.
Proof.
  edestruct (one_recommendation_per_category default_engine example_categories)
    as (recs & Hrun & _ & _ & Hlen).
  2: { exists recs. split; [exact Hrun | exact Hlen]. }
  unfold Dict.wf. cbn. repeat constructor; cbn; intuition discriminate.
Defined.

(** X8. In every recommendation the finding count is positive and the
    average lies between 0 and the total savings, on the side of the
    total's sign; with a single finding the average is the total. *)
Theorem average_savings_consistent :
  forall (self : InsightEngine.t) (cats : Dict.t CategoryData.t),
    exists recs,
      fst (enhance_recommendations self cats) = inr recs /\
      forall rec,
        In rec recs ->
        0 < Recommendation.finding_count rec /\
        ((0 <= Recommendation.total_savings rec)%Q ->
         (0 <= Recommendation.average_savings_per_item rec)%Q /\
         (Recommendation.average_savings_per_item rec
          <= Recommendation.total_savings rec)%Q) /\
        ((Recommendation.total_savings rec <= 0)%Q ->
         (Recommendation.total_savings rec
          <= Recommendation.average_savings_per_item rec)%Q /\
         (Recommendation.average_savings_per_item rec <= 0)%Q) /\
        (Recommendation.finding_count rec = 1 ->
         (Recommendation.average_savings_per_item rec
          == Recommendation.total_savings rec)%Q).
Proof.
  intros self cats. rewrite enhance_eq. eexists. split; [reflexivity|].
  intros rec Hrec. apply In_output_entry in Hrec.
  destruct Hrec as ([k d] & _ & Hcounted & ->).
  unfold counted in Hcounted. cbn [snd] in Hcounted.
  cbn [recommendation_entry Recommendation.finding_count
       Recommendation.total_savings Recommendation.average_savings_per_item].
  destruct (CategoryData.count d) as [c|]; [|discriminate].
  cbn [Py.get] in *. apply Z.ltb_lt in Hcounted.
  set (s := Py.get (CategoryData.savings d) 0%Q).
  assert (0 < inject_Z c)%Q as Hc.
  { change 0%Q with (inject_Z 0). rewrite <- Zlt_Qlt. exact Hcounted. }
  assert (1 <= inject_Z c)%Q as Hc1.
  { change 1%Q with (inject_Z 1). rewrite <- Zle_Qle. lia. }
  split; [exact Hcounted | split; [|split]].
  - intros Hs. split.
    + apply Qle_shift_div_l; [exact Hc|]. now rewrite Qmult_0_l.
    + apply Qle_shift_div_r; [exact Hc|].
      rewrite <- (Qmult_1_r s) at 1.
      apply Qmult_le_compat_nonneg.
      * split; [exact Hs | apply Qle_refl].
      * split; [discriminate | exact Hc1].
  - intros Hs. split.
    + apply Qle_shift_div_l; [exact Hc|].
      assert (0 <= - s)%Q as Hns.
      { apply Qle_minus_iff in Hs. now rewrite Qplus_0_l in Hs. }
      assert (0 <= inject_Z c - 1)%Q as Hc0 by (now apply Qle_minus_iff in Hc1).
      apply Qle_minus_iff.
      setoid_replace (s + - (s * inject_Z c))%Q
        with (- s * (inject_Z c - 1))%Q by ring.
      now apply Qmult_le_0_compat.
    + apply Qle_shift_div_r; [exact Hc|]. now rewrite Qmult_0_l.
  - intros ->. unfold Qdiv. change (/ inject_Z 1)%Q with 1%Q. ring.
Qed.

(** *** Without ties the ranking does not depend on the input order *)

Section StrictOrder.
Context {A : Type}.
Variable key : A -> Q.

Lemma descending_strict (l : list A) :
  descending key l -> NoDup l ->
  (forall a b, In a l -> In b l -> (key a == key b)%Q -> a = b) ->
  StronglySorted (fun a b => (key b < key a)%Q) l.
Proof.
  unfold descending. induction 1 as [|x r Hr IH Hall]; intros Hnd Hinj.
  - constructor.
  - inversion Hnd as [|? ? Hnotin Hnd']; subst.
    constructor.
    + apply IH; [exact Hnd'|]. intros a b Ha Hb. apply Hinj; now right.
    + rewrite Forall_forall in *. intros y Hy.
      destruct (Qlt_le_dec (key y) (key x)) as [Hlt|Hle]; [exact Hlt|].
      exfalso. apply Hnotin.
      assert (x = y) as ->; [|exact Hy].
      apply Hinj; [now left | now right |].
      apply Qle_antisym; [exact Hle | now apply Hall].
Qed.

Lemma strict_sorted_unique (l1 : list A) :
  forall l2,
    StronglySorted (fun a b => (key b < key a)%Q) l1 ->
    StronglySorted (fun a b => (key b < key a)%Q) l2 ->
    Permutation l1 l2 -> l1 = l2.
Proof.
  induction l1 as [|a t1 IH]; intros l2 H1 H2 Hperm.
  - apply Permutation_nil in Hperm. now subst.
  - destruct l2 as [|b t2].
    + symmetry in Hperm. apply Permutation_nil in Hperm. discriminate.
    + inversion H1 as [|? ? Ht1 Ha]; subst.
      inversion H2 as [|? ? Ht2 Hb]; subst.
      rewrite Forall_forall in Ha, Hb.
      assert (a = b) as ->.
      { assert (In a (b :: t2)) as Hin
          by (eapply Permutation_in; [exact Hperm | now left]).
        assert (In b (a :: t1)) as Hin'
          by (eapply Permutation_in; [symmetry; exact Hperm | now left]).
        destruct Hin as [->|Hin]; [reflexivity|].
        destruct Hin' as [->|Hin']; [reflexivity|].
        exfalso. pose proof (Hb _ Hin) as Hlt1. pose proof (Ha _ Hin') as Hlt2.
        exact (Qlt_irrefl _ (Qlt_trans _ _ _ Hlt1 Hlt2)). }
      f_equal. apply IH; auto. eapply Permutation_cons_inv; eauto.
Qed.

End StrictOrder.

Lemma Permutation_filter_compat {A : Type} (f : A -> bool) (l l' : list A) :
  Permutation l l' -> Permutation (filter f l) (filter f l').
Proof.
  induction 1 as [| x l l' _ IH | x y l | l l' l'' _ IH1 _ IH2]; cbn [filter].
  - constructor.
  - destruct (f x); [now constructor | exact IH].
  - destruct (f x), (f y); try reflexivity. apply perm_swap.
  - etransitivity; eauto.
Qed.

(** X9. When no two counted categories have equal savings, the ranking
    does not depend on the order in which the categories sit in the input
    dictionary: the same categories inserted in any other order give the
    same recommendation sequence. *)
Theorem ranking_independent_of_input_order :
  forall (self : InsightEngine.t) (cats cats' : Dict.t CategoryData.t),
    Dict.wf cats ->
    Permutation cats cats' ->
    no_ties cats ->
    fst (enhance_recommendations self cats) =
    fst (enhance_recommendations self cats').
Proof.
  intros self cats cats' Hwf Hperm Hties. rewrite !enhance_eq. cbn [fst].
  f_equal.
  set (l := map recommendation_entry (filter counted cats)).
  set (l' := map recommendation_entry (filter counted cats')).
  assert (Permutation l l') as Hl
    by (apply Permutation_map, Permutation_filter_compat, Hperm).
  assert (NoDup l) as Hnd.
  { apply (NoDup_map_inv Recommendation.category). unfold l.
    rewrite category_entries. now apply keys_filter_NoDup. }
  assert (forall a b, In a l -> In b l ->
            (Recommendation.total_savings a == Recommendation.total_savings b)%Q ->
            a = b) as Hinj.
  { intros a b Ha Hb Heq. unfold l in Ha, Hb.
    apply in_map_iff in Ha, Hb.
    destruct Ha as ([k1 d1] & <- & Ha). destruct Hb as ([k2 d2] & <- & Hb).
    apply filter_In in Ha, Hb. destruct Ha as [Ha Hca], Hb as [Hb Hcb].
    cbn [recommendation_entry Recommendation.total_savings] in Heq.
    assert (k1 = k2) as <- by (eapply Hties; eauto).
    pose proof (In_lookup _ _ _ Hwf Ha) as E1.
    pose proof (In_lookup _ _ _ Hwf Hb) as E2.
    rewrite E1 in E2. now injection E2 as <-. }
  pose proof (sort_reverse_perm Recommendation.total_savings l) as P1.
  pose proof (sort_reverse_perm Recommendation.total_savings l') as P2.
  apply (strict_sorted_unique Recommendation.total_savings).
  - apply descending_strict; [apply sort_reverse_descending | |].
    + eapply Permutation_NoDup; [symmetry; exact P1 | exact Hnd].
    + intros a b Ha Hb. apply Hinj; eapply Permutation_in; eauto.
  - apply descending_strict; [apply sort_reverse_descending | |].
    + eapply Permutation_NoDup; [|exact Hnd].
      rewrite P2. now symmetry.
    + intros a b Ha Hb.
      apply Hinj; (eapply Permutation_in; [|eassumption]);
        rewrite P2; now symmetry.
  - rewrite P1, P2. exact Hl.
Qed.

Lemma ranking_independent_of_input_order_witness :
  fst (enhance_recommendations default_engine example_categories) =
  fst (enhance_recommendations default_engine
         [ ("Elastic IPs", CategoryData.Build (Some 12) (Some (432 # 10)%Q) None);
           ("EBS Volumes", CategoryData.Build (Some 156) (Some 12340%Q) None);
           ("EC2 Instances", CategoryData.Build (Some 23) (Some 18450%Q) None) ]).
Proof.
  apply ranking_independent_of_input_order.
  - unfold Dict.wf. cbn. repeat constructor; cbn; intuition discriminate.
  - unfold example_categories.
    apply Permutation_rev with
      (l := [ ("EC2 Instances", CategoryData.Build (Some 23) (Some 18450%Q) None);
              ("EBS Volumes", CategoryData.Build (Some 156) (Some 12340%Q) None);
              ("Elastic IPs",
               CategoryData.Build (Some 12) (Some (432 # 10)%Q) None) ]).
  - unfold no_ties, example_categories.
    intros k1 d1 k2 d2 H1 H2 _ _ Heq.
    cbn [In] in H1, H2.
    destruct H1 as [[= <- <-]|[[= <- <-]|[[= <- <-]|[]]]];
      destruct H2 as [[= <- <-]|[[= <- <-]|[[= <- <-]|[]]]];
      try reflexivity; exfalso; revert Heq; cbn; unfold Qeq; cbn; discriminate.
Defined.

(** X10. The engine ends up enabled exactly when the configuration asks
    for it and a non-empty API key is in the environment; the constructor
    prints its warning exactly when it turns a requested enhanced mode
    off, and the model and confidence threshold default to ["gpt-4"] and
    [0.7]. *)
Theorem engine_enabled_iff_requested_and_keyed :
  forall (cfg : InsightEngine.Config) (environ_key : option string),
    (enabled (fst (InsightEngine.init cfg environ_key)) = true <->
     cfg_enabled cfg = Some true /\
     exists key, environ_key = Some key /\ key <> "") /\
    (snd (InsightEngine.init cfg environ_key) <> [] <->
     cfg_enabled cfg = Some true /\
     enabled (fst (InsightEngine.init cfg environ_key)) = false) /\
    (cfg_model cfg = None ->
     model (fst (InsightEngine.init cfg environ_key)) = "gpt-4") /\
    (cfg_confidence_threshold cfg = None ->
     confidence_threshold (fst (InsightEngine.init cfg environ_key)) = (7 # 10)%Q) /\
    api_key (fst (InsightEngine.init cfg environ_key)) = environ_key.
Proof.
  intros [m t e] key. unfold InsightEngine.init.
  cbn [cfg_enabled cfg_model cfg_confidence_threshold].
  destruct e as [[|]|]; destruct key as [[|c s]|];
    cbn; repeat split; intros; subst; try discriminate; try congruence; auto;
    try (match goal with
         | H : _ /\ _ |- _ => destruct H as [? ?]
         end);
    try discriminate;
    try (match goal with
         | H : exists _, _ |- _ => destruct H as (? & ? & ?)
         end);
    try congruence;
    try (eexists; split; [reflexivity | discriminate]).
Qed.

(* ================================================================== *)
(** ** The [analyze] entry point                                       *)
(* ================================================================== *)

Lemma apply_ai_insights_eq (w : Run.World) (cfg : Run.Config) (r : Results) :
  Run._apply_ai_insights w cfg r =
  inr (BuildResults (timestamp r) (categories r)
         (ListSort.sort_reverse Recommendation.total_savings
            (map recommendation_entry
               (filter counted (bucket_view (categories r)))))
         (total_savings r),
       snd (InsightEngine.init (Run.ai_config cfg) (Run.openai_api_key w))).
Proof.
  unfold Run._apply_ai_insights.
  destruct (InsightEngine.init (Run.ai_config cfg) (Run.openai_api_key w))
    as [engine out1].
  rewrite enhance_eq. cbn [Run.lift Run.bind snd]. now rewrite app_nil_r.
Qed.

(** X11. Asked for a provider that is none of ['all'], ['aws'], ['azure'],
    ['gcp'], [analyze] scans nothing and raises nothing: it returns the
    categories and the total it started with and still writes the result
    file. *)
Theorem analyze_unknown_provider :
  forall (w : Run.World) (cfg : Run.Config) (r : Results) (provider : string)
         (aws_profile azure_subscription_id gcp_project_id : option string),
    provider <> "all" -> provider <> "aws" ->
    provider <> "azure" -> provider <> "gcp" ->
    exists o,
      Run.analyze w cfg r provider aws_profile azure_subscription_id
                  gcp_project_id = inr o /\
      categories (Run.returned o) = categories r /\
      total_savings (Run.returned o) = total_savings r /\
      timestamp (Run.returned o) = timestamp r /\
      Run.written o = ("output/analysis_results.json", Run.returned o).
Proof.
  intros w cfg r provider p s g Hall Haws Hazure Hgcp.
  unfold Run.analyze, Run.providers_to_analyze.
  apply String.eqb_neq in Hall, Haws, Hazure, Hgcp.
  rewrite Hall. cbn [Run.scan_loop]. rewrite Haws, Hazure, Hgcp.
  cbn [Run.bind]. destruct (Run.ai_on cfg).
  - rewrite apply_ai_insights_eq. cbn [Run.bind]. eexists.
    split; [reflexivity|]. cbn. auto.
  - cbn [Run.bind]. eexists. split; [reflexivity|]. cbn. auto.
Qed.

Lemma analyze_unknown_provider_witness :
  exists o,
    Run.analyze
      (Run.BuildWorld (fun _ => Run.Raises "no credentials")
                      (fun _ => Run.Raises "no credentials")
                      (fun _ => Run.Raises "no credentials") None)
      (Run.BuildConfig None None None None)
      (CloudAnalyzer.init "2025-01-01T00:00:00")
      "oracle" None None None = inr o /\
    categories (Run.returned o) = [].
Proof.
  edestruct (analyze_unknown_provider
      (Run.BuildWorld (fun _ => Run.Raises "no credentials")
                      (fun _ => Run.Raises "no credentials")
                      (fun _ => Run.Raises "no credentials") None)
      (Run.BuildConfig None None None None)
      (CloudAnalyzer.init "2025-01-01T00:00:00")
      "oracle" None None None)
    as (o & Hrun & Hcats & _).
  5: { exists o. split; [exact Hrun | exact Hcats]. }
  all: discriminate.
Defined.

(** X12. With the provider flags left at their defaults (AWS not switched
    off, Azure and GCP not switched on), [analyze('all')] is
    [analyze('aws')]: only AWS is scanned. *)
Theorem analyze_all_defaults_to_aws :
  forall (w : Run.World) (cfg : Run.Config) (r : Results)
         (aws_profile azure_subscription_id gcp_project_id : option string),
    Run.aws_on cfg = true ->
    Run.azure_on cfg = false ->
    Run.gcp_on cfg = false ->
    Run.providers_to_analyze cfg "all" = ["aws"] /\
    Run.analyze w cfg r "all" aws_profile azure_subscription_id gcp_project_id =
    Run.analyze w cfg r "aws" aws_profile azure_subscription_id gcp_project_id.
Proof.
  intros w cfg r p s g Haws Hazure Hgcp.
  unfold Run.analyze, Run.providers_to_analyze.
  rewrite Haws, Hazure, Hgcp. cbn [String.eqb Ascii.eqb Bool.eqb app].
  split; reflexivity.
Qed.

Lemma analyze_all_defaults_to_aws_witness :
  Run.providers_to_analyze (Run.BuildConfig None None None None) "all" = ["aws"].
Proof.
  apply (proj1 (analyze_all_defaults_to_aws
      (Run.BuildWorld (fun _ => Run.Returns [])
                      (fun _ => Run.Returns [])
                      (fun _ => Run.Returns []) None)
      (Run.BuildConfig None None None None)
      (CloudAnalyzer.init "2025-01-01T00:00:00") None None None
      eq_refl eq_refl eq_refl)).
Defined.

(** X13. Without a subscription id (neither as argument nor in the
    configuration; the empty string counts as none) an Azure scan raises
    [ValueError("Azure subscription_id is required")] before anything is
    merged, and likewise a GCP scan without a project id; [analyze] then
    returns nothing and writes nothing. *)
Theorem analyze_requires_provider_id :
  forall (w : Run.World) (cfg : Run.Config) (r : Results)
         (aws_profile azure_subscription_id gcp_project_id : option string),
    (Py.truthy (Run.azure_subscription cfg azure_subscription_id) = false ->
     Run.analyze w cfg r "azure" aws_profile azure_subscription_id
                 gcp_project_id =
     inl (Run.ValueError "Azure subscription_id is required")) /\
    (Py.truthy (Run.gcp_project cfg gcp_project_id) = false ->
     Run.analyze w cfg r "gcp" aws_profile azure_subscription_id
                 gcp_project_id =
     inl (Run.ValueError "GCP project_id is required")).
Proof.
  intros w cfg r p s g.
  unfold Run.analyze, Run.providers_to_analyze.
  cbn [String.eqb Ascii.eqb Bool.eqb Run.scan_loop].
  unfold Run._analyze_azure, Run._analyze_gcp.
  split; intros H.
  - destruct (Run.azure_subscription cfg s) as [sid|]; [rewrite H|]; reflexivity.
  - destruct (Run.gcp_project cfg g) as [pid|]; [rewrite H|]; reflexivity.
Qed.

Lemma analyze_requires_provider_id_witness :
  Run.analyze
    (Run.BuildWorld (fun _ => Run.Returns [])
                    (fun _ => Run.Returns [])
                    (fun _ => Run.Returns []) None)
    (Run.BuildConfig None (Some (Run.BuildAzure (Some true) (Some ""))) None None)
    (CloudAnalyzer.init "2025-01-01T00:00:00")
    "azure" None None None =
  inl (Run.ValueError "Azure subscription_id is required").
Proof.
  apply (proj1 (analyze_requires_provider_id
    (Run.BuildWorld (fun _ => Run.Returns [])
                    (fun _ => Run.Returns [])
                    (fun _ => Run.Returns []) None)
    (Run.BuildConfig None (Some (Run.BuildAzure (Some true) (Some ""))) None None)
    (CloudAnalyzer.init "2025-01-01T00:00:00") None None None)).
  reflexivity.
Defined.

(** X14. In an ['all'] run with Azure switched on but no subscription id,
    the [ValueError] of the Azure step aborts the whole call even though
    the AWS scan before it succeeded: the AWS findings are neither
    returned nor written. *)
Theorem analyze_all_aborts_on_azure :
  forall (w : Run.World) (cfg : Run.Config) (r : Results)
         (aws_profile azure_subscription_id gcp_project_id : option string)
         (aws_results : Dict.t CategoryData.t),
    Run.aws_on cfg = true ->
    Run.azure_on cfg = true ->
    Run.aws_scan w aws_profile = Run.Returns aws_results ->
    Py.truthy (Run.azure_subscription cfg azure_subscription_id) = false ->
    Run.analyze w cfg r "all" aws_profile azure_subscription_id gcp_project_id =
    inl (Run.ValueError "Azure subscription_id is required").
Proof.
  intros w cfg r p s g d Haws Hazure Hscan Hsub.
  unfold Run.analyze, Run.providers_to_analyze.
  rewrite Haws, Hazure. cbn [String.eqb Ascii.eqb Bool.eqb app Run.scan_loop].
  unfold Run._analyze_aws. rewrite Hscan. unfold CloudAnalyzer._analyze_aws.
  destruct (merge_loop_total (Dict.items d) r) as [r1 ->].
  cbn [Run.lift Run.bind]. unfold Run._analyze_azure.
  destruct (Run.azure_subscription cfg s) as [sid|]; [rewrite Hsub|]; reflexivity.
Qed.

Lemma analyze_all_aborts_on_azure_witness :
  Run.analyze
    (Run.BuildWorld
       (fun _ => Run.Returns
          [("S3 Storage", CategoryData.Build (Some 1) (Some 50%Q) None)])
       (fun _ => Run.Returns []) (fun _ => Run.Returns []) None)
    (Run.BuildConfig None (Some (Run.BuildAzure (Some true) None)) None None)
    (CloudAnalyzer.init "2025-01-01T00:00:00")
    "all" None None None =
  inl (Run.ValueError "Azure subscription_id is required").
Proof.
  apply (analyze_all_aborts_on_azure
    (Run.BuildWorld
       (fun _ => Run.Returns
          [("S3 Storage", CategoryData.Build (Some 1) (Some 50%Q) None)])
       (fun _ => Run.Returns []) (fun _ => Run.Returns []) None)
    (Run.BuildConfig None (Some (Run.BuildAzure (Some true) None)) None None)
    (CloudAnalyzer.init "2025-01-01T00:00:00") None None None
    [("S3 Storage", CategoryData.Build (Some 1) (Some 50%Q) None)]);
    reflexivity.
Defined.

Lemma lift_merge_loop_inv r d r' :
  Run.lift (merge_loop r (Dict.items d)) = inr r' ->
  merge_loop r (Dict.items d) = inr r'.
Proof.
  destruct (merge_loop r (Dict.items d)); cbn; congruence.
Qed.

(** One step of the dispatch loop either leaves the result alone or is a
    merge of what a scan returned. *)
Lemma scan_step_inv (w : Run.World) (cfg : Run.Config) (r r' : Results)
  (p s g : option string) (prov : string) :
  (if String.eqb prov "aws" then Run._analyze_aws w r p
   else if String.eqb prov "azure" then Run._analyze_azure w cfg r s
   else if String.eqb prov "gcp" then Run._analyze_gcp w cfg r g
   else inr r) = inr r' ->
  r' = r \/
  exists d,
    merge_loop r (Dict.items d) = inr r' /\
    ((exists profile, Run.aws_scan w profile = Run.Returns d) \/
     (exists sid, Run.azure_scan w sid = Run.Returns d) \/
     (exists pid, Run.gcp_scan w pid = Run.Returns d)).
Proof.
  destruct (String.eqb prov "aws");
    [|destruct (String.eqb prov "azure"); [|destruct (String.eqb prov "gcp")]].
  - unfold Run._analyze_aws.
    destruct (Run.aws_scan w p) as [d|msg] eqn:E; [|discriminate].
    intros H. right. exists d. split; [now apply lift_merge_loop_inv|].
    left. now exists p.
  - unfold Run._analyze_azure.
    destruct (Run.azure_subscription cfg s) as [sid|]; [|discriminate].
    destruct (Py.truthy (Some sid)); [|discriminate].
    destruct (Run.azure_scan w sid) as [d|msg] eqn:E; [|discriminate].
    intros H. right. exists d. split; [now apply lift_merge_loop_inv|].
    right; left. now exists sid.
  - unfold Run._analyze_gcp.
    destruct (Run.gcp_project cfg g) as [pid|]; [|discriminate].
    destruct (Py.truthy (Some pid)); [|discriminate].
    destruct (Run.gcp_scan w pid) as [d|msg] eqn:E; [|discriminate].
    intros H. right. exists d. split; [now apply lift_merge_loop_inv|].
    right; right. now exists pid.
  - intros [= <-]. now left.
Qed.

Lemma scan_loop_frame (w : Run.World) (cfg : Run.Config) (p s g : option string)
  (provs : list string) :
  forall r r',
    Run.scan_loop w cfg r p s g provs = inr r' ->
    timestamp r' = timestamp r /\ recommendations r' = recommendations r.
Proof.
  induction provs as [|prov rest IH]; intros r r' Hrun; cbn [Run.scan_loop] in Hrun.
  - injection Hrun as <-. now split.
  - match type of Hrun with
    | Run.bind ?step _ = _ => destruct step as [e|r1] eqn:Estep
    end; [discriminate|].
    cbn [Run.bind] in Hrun. destruct (IH _ _ Hrun) as [Ht Hr].
    apply scan_step_inv in Estep. destruct Estep as [->|(d & Hm & _)].
    + now split.
    + destruct (merge_loop_frame _ _ _ Hm) as [Ht1 Hr1]. split; congruence.
Qed.

Lemma merge_loop_counted (items : list (string * CategoryData.t)) :
  forall r r',
    (forall k b, In (k, b) (categories r) ->
       Bucket.count b = Z.of_nat (List.length (Bucket.items b))) ->
    Forall (fun item => payload_counted (snd item)) items ->
    merge_loop r items = inr r' ->
    forall k b, In (k, b) (categories r') ->
      Bucket.count b = Z.of_nat (List.length (Bucket.items b)).
Proof.
  induction items as [|[k data] rest IH]; intros r r' Hr Hall Hrun;
    cbn [merge_loop] in Hrun.
  - now injection Hrun as <-.
  - inversion Hall as [|? ? Hp Hrest]; subst. cbn [snd] in Hp.
    rewrite merge_item_eq in Hrun. cbn [Py.bind] in Hrun.
    apply (IH _ _) with (3 := Hrun); [|exact Hrest]. cbn [categories].
    intros k0 b Hin. apply In_setitem in Hin.
    destruct Hin as [[-> ->]|Hin]; [|now apply (Hr k0)].
    cbn [merged Bucket.count Bucket.items].
    rewrite length_app, Nat2Z.inj_add. unfold payload_counted in Hp.
    rewrite Hp. f_equal. unfold bucket_before.
    destruct (Dict.lookup (categories r) k) as [b0|] eqn:E.
    + apply (Hr k). now apply lookup_In.
    + reflexivity.
Qed.

Lemma analyze_providers_counted scans :
  forall r r',
    (forall k b, In (k, b) (categories r) ->
       Bucket.count b = Z.of_nat (List.length (Bucket.items b))) ->
    Forall (fun scan => scan_counted (snd scan)) scans ->
    analyze_providers r scans = inr r' ->
    forall k b, In (k, b) (categories r') ->
      Bucket.count b = Z.of_nat (List.length (Bucket.items b)).
Proof.
  induction scans as [|[prov res] rest IH]; intros r r' Hr Hall Hrun.
  - cbn in Hrun. now injection Hrun as <-.
  - rewrite analyze_providers_cons in Hrun.
    inversion Hall as [|? ? Hs Hrest]; subst. cbn [snd] in Hs.
    destruct (merge_loop r (Dict.items res)) as [e|r1] eqn:E1; [discriminate|].
    cbn [Py.bind] in Hrun.
    apply (IH r1 r'); [|exact Hrest | exact Hrun].
    now apply (merge_loop_counted _ _ _ Hr Hs E1).
Qed.

Lemma scan_loop_counted (w : Run.World) (cfg : Run.Config) (p s g : option string)
  (provs : list string) :
  world_counted w ->
  forall r r',
    (forall k b, In (k, b) (categories r) ->
       Bucket.count b = Z.of_nat (List.length (Bucket.items b))) ->
    Run.scan_loop w cfg r p s g provs = inr r' ->
    forall k b, In (k, b) (categories r') ->
      Bucket.count b = Z.of_nat (List.length (Bucket.items b)).
Proof.
  intros (Haws & Hazure & Hgcp).
  induction provs as [|prov rest IH]; intros r r' Hr Hrun;
    cbn [Run.scan_loop] in Hrun.
  - now injection Hrun as <-.
  - match type of Hrun with
    | Run.bind ?step _ = _ => destruct step as [e|r1] eqn:Estep
    end; [discriminate|].
    cbn [Run.bind] in Hrun. apply (IH r1); [|exact Hrun].
    apply scan_step_inv in Estep. destruct Estep as [->|(d & Hm & Hsrc)];
      [exact Hr|].
    assert (scan_counted d) as Hd.
    { destruct Hsrc as [(x & E)|[(x & E)|(x & E)]]; eauto. }
    now apply (merge_loop_counted _ _ _ Hr Hd Hm).
Qed.

Lemma sum_finding_counts_fold (recs : list Recommendation.t) :
  forall n,
    fold_left (fun acc rec => acc + Recommendation.finding_count rec) recs n =
    n + sum_finding_counts recs.
Proof.
  unfold sum_finding_counts.
  induction recs as [|rec rest IH]; intros n; cbn [fold_left]; [lia|].
  rewrite IH, (IH (0 + _)). lia.
Qed.

Lemma sum_finding_counts_cons rec recs :
  sum_finding_counts (rec :: recs) =
  Recommendation.finding_count rec + sum_finding_counts recs.
Proof.
  unfold sum_finding_counts at 1. cbn [fold_left].
  now rewrite sum_finding_counts_fold.
Qed.

Lemma sum_finding_counts_perm recs recs' :
  Permutation recs recs' ->
  sum_finding_counts recs = sum_finding_counts recs'.
Proof.
  induction 1; rewrite ?sum_finding_counts_cons; lia.
Qed.

Lemma sum_counted_findings (cats : Dict.t Bucket.t) :
  (forall k b, In (k, b) cats ->
     Bucket.count b = Z.of_nat (List.length (Bucket.items b))) ->
  sum_finding_counts
    (map recommendation_entry (filter counted (bucket_view cats))) =
  Z.of_nat (List.length (findings_held cats)).
Proof.
  unfold findings_held.
  induction cats as [|[k b] rest IH]; intros Hok.
  - reflexivity.
  - cbn [bucket_view map fst snd filter Dict.values flat_map].
    fold (bucket_view rest). fold (Dict.values rest).
    rewrite length_app, Nat2Z.inj_add.
    rewrite <- IH by (intros k' b' Hin; apply (Hok k'); now right).
    pose proof (Hok k b (or_introl eq_refl)) as Hc.
    unfold counted at 1. cbn [snd bucket_data CategoryData.count Py.get].
    destruct (0 <? Bucket.count b) eqn:E.
    + cbn [map]. rewrite sum_finding_counts_cons.
      cbn [recommendation_entry Recommendation.finding_count bucket_data
           CategoryData.count Py.get]. lia.
    + apply Z.ltb_ge in E. lia.
Qed.

(** X15. [analyze] fills in the recommendations only when the
    configuration enables AI: otherwise they are left as they were and
    nothing is printed.  With AI enabled they are the ranking the engine
    gives for the merged categories, with or without an API key; a missing
    key only adds the constructor's warning to the output. *)
Theorem analyze_recommendations_gated :
  forall (w : Run.World) (cfg : Run.Config) (r : Results) (provider : string)
         (aws_profile azure_subscription_id gcp_project_id : option string)
         (o : Run.Outcome),
    Run.analyze w cfg r provider aws_profile azure_subscription_id
                gcp_project_id = inr o ->
    (Run.ai_on cfg = false ->
     recommendations (Run.returned o) = recommendations r /\
     Run.printed o = []) /\
    (Run.ai_on cfg = true ->
     fst (enhance_recommendations default_engine
            (bucket_view (categories (Run.returned o))))
       = inr (recommendations (Run.returned o)) /\
     Run.printed o =
       if Py.truthy (Run.openai_api_key w) then []
       else ["Warning: AI features enabled but OPENAI_API_KEY not set"]).
Proof.
  intros w cfg r provider p s g o Hrun. unfold Run.analyze in Hrun.
  destruct (Run.scan_loop w cfg r p s g (Run.providers_to_analyze cfg provider))
    as [e|r1] eqn:Escan; [discriminate|].
  cbn [Run.bind] in Hrun.
  destruct (scan_loop_frame _ _ _ _ _ _ _ _ Escan) as [_ Hrecs].
  split; intros Hai; rewrite Hai in Hrun.
  - cbn [Run.bind] in Hrun. injection Hrun as <-. cbn. now split.
  - rewrite apply_ai_insights_eq in Hrun. cbn [Run.bind] in Hrun.
    injection Hrun as <-. cbn [Run.returned Run.printed categories recommendations].
    rewrite enhance_eq. split; [reflexivity|].
    unfold Run.ai_on in Hai. unfold InsightEngine.init. rewrite Hai.
    now destruct (Py.truthy (Run.openai_api_key w)).
Qed.

Lemma analyze_recommendations_gated_witness :
  exists o,
    Run.analyze
      (Run.BuildWorld
         (fun _ => Run.Returns
            [("S3 Storage", CategoryData.Build (Some 1) (Some 50%Q) None)])
         (fun _ => Run.Returns []) (fun _ => Run.Returns []) None)
      (Run.BuildConfig None None None None)
      (CloudAnalyzer.init "2025-01-01T00:00:00")
      "aws" None None None = inr o /\
    recommendations (Run.returned o) = [].
Proof.
  eexists. split; [reflexivity|].
  refine (proj1 (proj1 (analyze_recommendations_gated
    (Run.BuildWorld
       (fun _ => Run.Returns
          [("S3 Storage", CategoryData.Build (Some 1) (Some 50%Q) None)])
       (fun _ => Run.Returns []) (fun _ => Run.Returns []) None)
    (Run.BuildConfig None None None None)
    (CloudAnalyzer.init "2025-01-01T00:00:00")
    "aws" None None None _ eq_refl) eq_refl)).
Defined.

(** X16. When every payload a scan returns has [count = len(items)], so
    has every bucket of what [analyze] returns from a fresh analyzer.
    With AI enabled there is then a recommendation for exactly the
    buckets that hold findings: each recommendation carries the number of
    findings and the savings of its bucket, and the finding counts of the
    recommendations add up to the number of findings held in all
    buckets. *)
Theorem analyze_keeps_invariants :
  forall (w : Run.World) (cfg : Run.Config) (now provider : string)
         (aws_profile azure_subscription_id gcp_project_id : option string)
         (o : Run.Outcome),
    world_counted w ->
    Run.analyze w cfg (CloudAnalyzer.init now) provider aws_profile
                azure_subscription_id gcp_project_id = inr o ->
    (forall category b,
       In (category, b) (Dict.items (categories (Run.returned o))) ->
       Bucket.count b = Z.of_nat (List.length (Bucket.items b))) /\
    (Run.ai_on cfg = true ->
     sum_finding_counts (recommendations (Run.returned o)) =
       Z.of_nat (List.length (findings_held (categories (Run.returned o)))) /\
     forall rec,
       In rec (recommendations (Run.returned o)) ->
       exists b,
         In (Recommendation.category rec, b)
            (Dict.items (categories (Run.returned o))) /\
         Bucket.items b <> [] /\
         Recommendation.finding_count rec =
           Z.of_nat (List.length (Bucket.items b)) /\
         Recommendation.total_savings rec = Bucket.savings b).
Proof.
  intros w cfg now provider p s g o Hw Hrun. unfold Run.analyze in Hrun.
  destruct (Run.scan_loop w cfg (CloudAnalyzer.init now) p s g
              (Run.providers_to_analyze cfg provider))
    as [e|r1] eqn:Escan; [discriminate|].
  cbn [Run.bind] in Hrun.
  assert (forall k b, In (k, b) (categories r1) ->
            Bucket.count b = Z.of_nat (List.length (Bucket.items b))) as Hb.
  { apply (scan_loop_counted _ _ _ _ _ _ Hw _ _) with (2 := Escan).
    intros k b []. }
  unfold Dict.items.
  destruct (Run.ai_on cfg).
  - rewrite apply_ai_insights_eq in Hrun. cbn [Run.bind] in Hrun.
    injection Hrun as <-.
    cbn [Run.returned categories recommendations].
    split; [exact Hb|]. intros _. split.
    + rewrite (sum_finding_counts_perm _ _ (sort_reverse_perm _ _)).
      now apply sum_counted_findings.
    + intros rec Hrec. apply In_output_entry in Hrec.
      destruct Hrec as ([k d] & Hitem & Hcounted & ->).
      unfold bucket_view in Hitem. apply in_map_iff in Hitem.
      destruct Hitem as ([k' b] & [= <- <-] & Hin).
      exists b. cbn [fst snd recommendation_entry Recommendation.category
                     Recommendation.finding_count Recommendation.total_savings
                     bucket_data CategoryData.count CategoryData.savings Py.get].
      unfold counted in Hcounted.
      cbn [snd bucket_data CategoryData.count Py.get] in Hcounted.
      apply Z.ltb_lt in Hcounted. pose proof (Hb k' b Hin) as Hc.
      split; [exact Hin | split; [|split; [exact Hc | reflexivity]]].
      intros Hnil. rewrite Hnil in Hc. cbn in Hc. lia.
  - cbn [Run.bind] in Hrun. injection Hrun as <-.
    cbn [Run.returned categories recommendations].
    split; [exact Hb | discriminate].
Qed.

Lemma analyze_keeps_invariants_witness :
  exists o,
    Run.analyze
      (Run.BuildWorld
         (fun _ => Run.Returns
            [("S3 Storage",
              CategoryData.Build (Some 1) (Some 50%Q)
                (Some [ Finding.Build "logs-bucket" "S3 Bucket" None
                          "No lifecycle policy"
                          "Implement lifecycle policy to move old data to cheaper storage"
                          50%Q (7 # 10)%Q ]))])
         (fun _ => Run.Returns []) (fun _ => Run.Returns []) None)
      (Run.BuildConfig None None None
         (Some (InsightEngine.BuildConfig None None (Some true))))
      (CloudAnalyzer.init "2025-01-01T00:00:00")
      "aws" None None None = inr o /\
    sum_finding_counts (recommendations (Run.returned o)) =
      Z.of_nat (List.length (findings_held (categories (Run.returned o)))).
Proof.
  eexists. split; [reflexivity|].
  refine (proj1 (proj2 (analyze_keeps_invariants
    (Run.BuildWorld
       (fun _ => Run.Returns
          [("S3 Storage",
            CategoryData.Build (Some 1) (Some 50%Q)
              (Some [ Finding.Build "logs-bucket" "S3 Bucket" None
                        "No lifecycle policy"
                        "Implement lifecycle policy to move old data to cheaper storage"
                        50%Q (7 # 10)%Q ]))])
       (fun _ => Run.Returns []) (fun _ => Run.Returns []) None)
    (Run.BuildConfig None None None
       (Some (InsightEngine.BuildConfig None None (Some true))))
    "2025-01-01T00:00:00" "aws" None None None _ _ eq_refl) eq_refl)).
  unfold world_counted. cbn [Run.aws_scan Run.azure_scan Run.gcp_scan].
  repeat split; intros ? d [= <-]; repeat constructor.
Defined.

(* ================================================================== *)
(** ** The summary table of the command line                           *)
(* ================================================================== *)

Lemma summary_fold (items : list (string * CategoryData.t)) :
  forall rows n s,
    fold_left Cli.summary_step items (rows, n, s) =
    ((rows ++ map (fun item =>
                     Cli.BuildRow (fst item)
                       (Py.get (CategoryData.count (snd item)) 0)
                       (Py.get (CategoryData.savings (snd item)) 0%Q)) items)%list,
     fold_left (fun acc item =>
                  acc + Py.get (CategoryData.count (snd item)) 0) items n,
     fold_left (fun acc item =>
                  (acc + Py.get (CategoryData.savings (snd item)) 0)%Q) items s).
Proof.
  induction items as [|[k d] rest IH]; intros rows n s; cbn [fold_left map].
  - now rewrite app_nil_r.
  - cbn [Cli.summary_step]. rewrite IH. cbn [fst snd].
    now rewrite <- app_assoc.
Qed.

Lemma sum_payloads_bucket_view (cats : Dict.t Bucket.t) :
  sum_payloads (bucket_view cats) = sum_buckets cats.
Proof.
  unfold sum_payloads, sum_buckets, Dict.items, Dict.values, bucket_view.
  assert (forall a,
            fold_left (fun acc item =>
                         (acc + Py.get (CategoryData.savings (snd item)) 0)%Q)
                      (map (fun kv => (fst kv, bucket_data (snd kv))) cats) a =
            fold_left (fun acc b => (acc + Bucket.savings b)%Q)
                      (map snd cats) a) as H; [|apply H].
  induction cats as [|[k b] rest IH]; intros a;
    cbn [map fold_left fst snd bucket_data CategoryData.savings Py.get];
    [reflexivity | apply IH].
Qed.

Lemma fold_counts_bucket_view (cats : Dict.t Bucket.t) :
  (forall k b, In (k, b) cats ->
     Bucket.count b = Z.of_nat (List.length (Bucket.items b))) ->
  forall n,
    fold_left (fun acc item => acc + Py.get (CategoryData.count (snd item)) 0)
              (bucket_view cats) n =
    n + Z.of_nat (List.length (findings_held cats)).
Proof.
  unfold findings_held.
  induction cats as [|[k b] rest IH]; intros Hok n.
  - cbn. lia.
  - cbn [bucket_view map fold_left fst snd Dict.values flat_map].
    fold (bucket_view rest). fold (Dict.values rest).
    rewrite IH by (intros k' b' Hin; apply (Hok k'); now right).
    cbn [bucket_data CategoryData.count Py.get].
    pose proof (Hok k b (or_introl eq_refl)) as Hc.
    rewrite length_app, Nat2Z.inj_add, Hc. lia.
Qed.

(** X17. After a run of scans whose payloads have [count = len(items)],
    the summary table has one row per category, in the order of the
    category map, showing the bucket's count and savings, followed by the
    TOTAL row; the TOTAL row shows the number of findings held in all
    buckets and the buckets' savings added up in the order of the
    category map. *)
Theorem summary_total_matches_run :
  forall (now : string) (scans : list (provider * Dict.t CategoryData.t)),
    Forall (fun scan => scan_counted (snd scan)) scans ->
    exists r rows total,
      analyze_providers (CloudAnalyzer.init now) scans = inr r /\
      Cli.display_analysis_summary (Some (bucket_view (categories r))) =
        (rows ++ [total])%list /\
      map (fun row => (Cli.label row, Cli.findings row, Cli.amount row)) rows =
        map (fun kb => (fst kb, Bucket.count (snd kb), Bucket.savings (snd kb)))
            (Dict.items (categories r)) /\
      Cli.label total = "[bold]TOTAL[/bold]" /\
      Cli.findings total =
        Z.of_nat (List.length (findings_held (categories r))) /\
      Cli.amount total = sum_buckets (categories r).
Proof.
  intros now scans Hok.
  destruct (analyze_providers_total scans (CloudAnalyzer.init now)) as [r Hrun].
  assert (forall k b, In (k, b) (categories r) ->
            Bucket.count b = Z.of_nat (List.length (Bucket.items b))) as Hb.
  { apply (analyze_providers_counted scans _ _) with (3 := Hrun);
      [intros k b [] | exact Hok]. }
  exists r. unfold Cli.display_analysis_summary.
  cbn [Py.get]. unfold Dict.items. rewrite summary_fold. cbn [app].
  eexists. eexists. split; [exact Hrun|]. split; [reflexivity|].
  cbn [Cli.label Cli.findings Cli.amount].
  split; [|split; [reflexivity | split]].
  - unfold bucket_view. rewrite !map_map. now apply map_ext.
  - now rewrite fold_counts_bucket_view.
  - rewrite <- sum_payloads_bucket_view. reflexivity.
Qed.

Lemma summary_total_matches_run_witness :
  exists r rows total,
    analyze_providers (CloudAnalyzer.init "2025-01-01T00:00:00")
      [ (aws,
         [ ("Elastic IPs",
            CategoryData.Build (Some 1) (Some (36 # 10)%Q)
              (Some [ Finding.Build "eipalloc-1" "Elastic IP" (Some "us-east-1")
                        "Unattached Elastic IP" "Release if not needed"
                        (36 # 10)%Q (1 # 1)%Q ])) ]) ] = inr r /\
    Cli.display_analysis_summary (Some (bucket_view (categories r))) =
      (rows ++ [total])%list /\
    Cli.findings total = Z.of_nat (List.length (findings_held (categories r))).
Proof.
  edestruct summary_total_matches_run
    as (r & rows & total & Hrun & Hrows & _ & _ & Hf & _).
  2: { exists r, rows, total. split; [exact Hrun|]. split; [exact Hrows | exact Hf]. }
  repeat constructor.
Defined.

(* ================================================================== *)
(** ** The providers' pricing heuristics and the Azure storage probe   *)
(* ================================================================== *)

Lemma table_bounds (table : Dict.t Q) (lo hi default : Q) (k : string) :
  Forall (fun kv => (lo <= snd kv)%Q /\ (snd kv <= hi)%Q) table ->
  (lo <= default)%Q -> (default <= hi)%Q ->
  (lo <= Py.get (Dict.lookup table k) default)%Q /\
  (Py.get (Dict.lookup table k) default <= hi)%Q.
Proof.
  intros Hall Hlo Hhi.
  induction table as [|[k' v] rest IH]; cbn [Dict.lookup].
  - now split.
  - inversion Hall as [|? ? Hv Hrest]; subst.
    destruct (String.eqb k' k); [exact Hv | now apply IH].
Qed.

(** X18. The EBS estimate is the size times a price per GB that is never
    below 0.025 nor above 0.125, whatever the volume type; an unlisted
    type is priced like gp2, at 0.10 per GB. *)
Theorem ebs_savings_bounds :
  forall (size_gb : Z) (volume_type : string),
    0 <= size_gb ->
    (inject_Z size_gb * (25 # 1000)
     <= AWSAnalyzer._estimate_ebs_savings size_gb volume_type)%Q /\
    (AWSAnalyzer._estimate_ebs_savings size_gb volume_type
     <= inject_Z size_gb * (125 # 1000))%Q /\
    (~ In volume_type (Dict.keys AWSAnalyzer.ebs_pricing) ->
     AWSAnalyzer._estimate_ebs_savings size_gb volume_type =
     AWSAnalyzer._estimate_ebs_savings size_gb "gp2").
Proof.
  intros size t Hsize. unfold AWSAnalyzer._estimate_ebs_savings.
  assert (0 <= inject_Z size)%Q as Hq.
  { change 0%Q with (inject_Z 0). now rewrite <- Zle_Qle. }
  destruct (table_bounds AWSAnalyzer.ebs_pricing (25 # 1000) (125 # 1000)
              (10 # 100) t) as [Hlo Hhi].
  { repeat constructor; cbn; discriminate. }
  { discriminate. }
  { discriminate. }
  split; [|split].
  - rewrite !(Qmult_comm (inject_Z size)). now apply Qmult_le_compat_r.
  - rewrite !(Qmult_comm (inject_Z size)). now apply Qmult_le_compat_r.
  - intros Hnot. apply lookup_None_keys in Hnot. now rewrite Hnot.
Qed.

Lemma ebs_savings_bounds_witness :
  (AWSAnalyzer._estimate_ebs_savings 100 "io2" <= inject_Z 100 * (125 # 1000))%Q.
Proof.
  apply (proj1 (proj2 (ebs_savings_bounds 100 "io2" ltac:(lia)))).
Defined.

(** X19. For a reduction factor that is not negative, the EC2 estimate
    lies between 7.5 and 280 times the factor and the RDS estimate between
    14 and 270 times the factor, whatever the instance type or database
    class; unlisted ones are priced at 100 and 150. *)
Theorem instance_savings_bounds :
  forall (type : string) (reduction : Q),
    (0 <= reduction)%Q ->
    ((75 # 10) * reduction
     <= AWSAnalyzer._estimate_instance_savings type reduction)%Q /\
    (AWSAnalyzer._estimate_instance_savings type reduction
     <= 280 * reduction)%Q /\
    (14 * reduction <= AWSAnalyzer._estimate_rds_savings type reduction)%Q /\
    (AWSAnalyzer._estimate_rds_savings type reduction <= 270 * reduction)%Q /\
    (~ In type (Dict.keys AWSAnalyzer.instance_pricing) ->
     AWSAnalyzer._estimate_instance_savings type reduction =
     (100 * reduction)%Q) /\
    (~ In type (Dict.keys AWSAnalyzer.rds_pricing) ->
     AWSAnalyzer._estimate_rds_savings type reduction = (150 * reduction)%Q).
Proof.
  intros t red Hred.
  unfold AWSAnalyzer._estimate_instance_savings,
    AWSAnalyzer._estimate_rds_savings.
  destruct (table_bounds AWSAnalyzer.instance_pricing (75 # 10) 280 100 t)
    as [Hlo Hhi];
    [repeat constructor; cbn; discriminate | discriminate | discriminate |].
  destruct (table_bounds AWSAnalyzer.rds_pricing 14 270 150 t)
    as [Hlo' Hhi'];
    [repeat constructor; cbn; discriminate | discriminate | discriminate |].
  repeat split; try (now apply Qmult_le_compat_r).
  - intros Hnot. apply lookup_None_keys in Hnot. now rewrite Hnot.
  - intros Hnot. apply lookup_None_keys in Hnot. now rewrite Hnot.
Qed.

Lemma instance_savings_bounds_witness :
  (AWSAnalyzer._estimate_instance_savings "m5.xlarge" (1 # 2) <= 280 * (1 # 2))%Q.
Proof.
  apply (proj1 (proj2 (instance_savings_bounds "m5.xlarge" (1 # 2)
                         ltac:(discriminate)))).
Defined.

Lemma storage_step_eq findings total (account : AzureAnalyzer.StorageAccount) :
  AzureAnalyzer.storage_step (findings, total) account =
  if premium account
  then ((findings ++
         [ Finding.Build (AzureAnalyzer.name account) "Storage Account" None
             "Using Premium tier" "Consider downgrading to Hot or Cool tier"
             30%Q (6 # 10)%Q ])%list,
        (total + 30)%Q)
  else (findings, total).
Proof.
  unfold AzureAnalyzer.storage_step, premium.
  destruct (AzureAnalyzer.access_tier account) as [tier|]; [|reflexivity].
  now destruct (String.eqb tier "Premium").
Qed.

Lemma storage_fold (accounts : list AzureAnalyzer.StorageAccount) :
  forall findings total,
    fst (fold_left AzureAnalyzer.storage_step accounts (findings, total)) =
      (findings ++
       map (fun account =>
              Finding.Build (AzureAnalyzer.name account) "Storage Account" None
                "Using Premium tier" "Consider downgrading to Hot or Cool tier"
                30%Q (6 # 10)%Q)
           (filter premium accounts))%list /\
    (snd (fold_left AzureAnalyzer.storage_step accounts (findings, total)) ==
     total + 30 * inject_Z (Z.of_nat (List.length (filter premium accounts))))%Q.
Proof.
  induction accounts as [|a rest IH]; intros findings total; cbn [fold_left].
  - cbn. rewrite app_nil_r. split; [reflexivity | ring].
  - rewrite storage_step_eq. cbn [filter].
    destruct (premium a).
    + destruct (IH (findings ++ [Finding.Build (AzureAnalyzer.name a)
                     "Storage Account" None "Using Premium tier"
                     "Consider downgrading to Hot or Cool tier"
                     30%Q (6 # 10)%Q])%list (total + 30)%Q) as [Hf Ht].
      rewrite Hf, Ht. cbn [map List.length].
      rewrite <- app_assoc, Nat2Z.inj_succ, <- Z.add_1_r, inject_Z_plus.
      split; [reflexivity | ring].
    + apply IH.
Qed.

Lemma sum_savings_constant (items : list Finding.t) (amount : Q) :
  Forall (fun f => Finding.estimated_monthly_savings f = amount) items ->
  (sum_savings items == amount * inject_Z (Z.of_nat (List.length items)))%Q.
Proof.
  induction 1 as [|f rest Hf _ IH].
  - unfold sum_savings. cbn. ring.
  - change (f :: rest) with ([f] ++ rest)%list.
    rewrite sum_savings_app, IH. unfold sum_savings at 1. cbn [fold_left app].
    rewrite Hf. cbn [List.length].
    rewrite Nat2Z.inj_succ, <- Z.add_1_r, inject_Z_plus. ring.
Qed.

(** X20. The Azure storage probe reports exactly the Premium-tier
    accounts it was shown, in listing order, each with 30 of monthly
    savings, also when the listing broke off with an error.  Its payload
    is well formed: [count] is the number of items and [savings] is the
    sum of the items' savings, namely 30 times the count. *)
Theorem azure_storage_payload_well_formed :
  forall listing : AzureAnalyzer.Listing,
    payload_ok (AzureAnalyzer._analyze_storage listing) /\
    map Finding.resource_id
        (Py.get (CategoryData.items (AzureAnalyzer._analyze_storage listing)) []) =
      map AzureAnalyzer.name (filter premium (AzureAnalyzer.yielded listing)) /\
    Forall (fun f => Finding.estimated_monthly_savings f = 30%Q /\
                     Finding.region f = None)
           (Py.get (CategoryData.items (AzureAnalyzer._analyze_storage listing)) []) /\
    (Py.get (CategoryData.savings (AzureAnalyzer._analyze_storage listing)) 0 ==
     30 * inject_Z
            (Py.get (CategoryData.count (AzureAnalyzer._analyze_storage listing))
                    0%Z))%Q.
Proof.
  intros [accounts raised]. unfold AzureAnalyzer._analyze_storage.
  cbn [AzureAnalyzer.yielded AzureAnalyzer.raised].
  destruct (storage_fold accounts [] 0%Q) as [Hf Ht].
  destruct (fold_left AzureAnalyzer.storage_step accounts ([], 0%Q))
    as [findings total].
  cbn [fst snd app] in Hf, Ht.
  cbn [CategoryData.items CategoryData.savings CategoryData.count Py.get].
  assert (Forall (fun f => Finding.estimated_monthly_savings f = 30%Q /\
                           Finding.region f = None) findings) as Hall.
  { rewrite Hf. apply Forall_forall. intros f Hin.
    apply in_map_iff in Hin. destruct Hin as (a & <- & _). now split. }
  assert (List.length findings = List.length (filter premium accounts)) as Hlen
    by (rewrite Hf; apply length_map).
  assert (total == 30 * inject_Z (Z.of_nat (List.length findings)))%Q as Htot
    by (rewrite Ht, Hlen; ring).
  split; [|split; [|split]].
  - split; [reflexivity|]. cbn [CategoryData.savings CategoryData.items Py.get].
    rewrite Htot. symmetry. apply sum_savings_constant.
    eapply Forall_impl; [|exact Hall]. now intros f [H _].
  - rewrite Hf, map_map. reflexivity.
  - exact Hall.
  - exact Htot.
Qed.

(* ================================================================== *)
(** ** The generated AWS cleanup script                                *)
(* ================================================================== *)

Lemma append_assoc (a b c : string) : ((a ++ b) ++ c = a ++ (b ++ c))%string.
Proof.
  induction a as [|ch a IH]; cbn; [reflexivity | now rewrite IH].
Qed.

Lemma append_empty_r (a : string) : (a ++ "" = a)%string.
Proof.
  induction a as [|ch a IH]; cbn; [reflexivity | now rewrite IH].
Qed.

Lemma one_line_append (a b : string) :
  one_line (a ++ b) = one_line a && one_line b.
Proof.
  induction a as [|ch a IH]; cbn [append one_line]; [reflexivity|].
  rewrite IH. now rewrite andb_assoc.
Qed.

Lemma lines_nonempty (s : string) : lines s <> [].
Proof.
  induction s as [|c r IH]; cbn [lines]; [discriminate|].
  destruct (Ascii.eqb c ScriptGenerator.line_feed); [discriminate|].
  destruct (lines r); [contradiction | discriminate].
Qed.

Lemma lines_line (a b : string) :
  one_line a = true ->
  lines (a ++ ScriptGenerator.nl ++ b) = a :: lines b.
Proof.
  induction a as [|c r IH]; intros Ha.
  - unfold ScriptGenerator.nl. cbn [append lines]. now rewrite Ascii.eqb_refl.
  - cbn [one_line] in Ha. apply andb_true_iff in Ha. destruct Ha as [Hc Hr].
    apply negb_true_iff in Hc.
    change (lines (String c (r ++ ScriptGenerator.nl ++ b)) = String c r :: lines b).
    cbn [lines]. rewrite Hc, (IH Hr). reflexivity.
Qed.

Lemma text_app (xs ys : list string) :
  ScriptGenerator.text (xs ++ ys) =
  (ScriptGenerator.text xs ++ ScriptGenerator.text ys)%string.
Proof.
  induction xs as [|x xs IH]; cbn [ScriptGenerator.text app]; [reflexivity|].
  now rewrite IH, !append_assoc.
Qed.

Lemma lines_text (ls : list string) (b : string) :
  Forall (fun l => one_line l = true) ls ->
  lines (ScriptGenerator.text ls ++ b) = (ls ++ lines b)%list.
Proof.
  induction 1 as [|l ls Hl _ IH]; cbn [ScriptGenerator.text app]; [reflexivity|].
  rewrite !append_assoc, lines_line by exact Hl. now rewrite IH.
Qed.

Lemma command_lines_eq (before after : string) (items : list Finding.t) :
  forall script,
    ScriptGenerator.command_lines before after script items =
    (script ++
     ScriptGenerator.text
       (map (fun item => before ++ Finding.resource_id item ++ after)
            (filter (fun item => negb (String.eqb (Finding.resource_id item) ""))
                    items)))%string.
Proof.
  induction items as [|item rest IH]; intros script;
    cbn [ScriptGenerator.command_lines filter map ScriptGenerator.text].
  - now rewrite append_empty_r.
  - rewrite IH.
    destruct (negb (String.eqb (Finding.resource_id item) ""));
      [|reflexivity].
    cbn [map ScriptGenerator.text]. now rewrite !append_assoc.
Qed.

Lemma cleanup_block_eq script (d : CategoryData.t) (title echo before after : string) :
  ScriptGenerator.cleanup_block script d title echo before after =
  (script ++ ScriptGenerator.text (block_lines d title echo before after))%string.
Proof.
  unfold ScriptGenerator.cleanup_block, block_lines.
  destruct (Py.get (CategoryData.items d) []) as [|item rest] eqn:E.
  - cbn [ScriptGenerator.text]. now rewrite append_empty_r.
  - rewrite command_lines_eq.
    change (title :: echo :: ?l ++ [EmptyString])%list
      with ([title; echo] ++ l ++ [EmptyString])%list.
    rewrite !text_app. cbn [ScriptGenerator.text].
    now rewrite !append_assoc, ?append_empty_r.
Qed.

Lemma two_blocks_eq (header footer : list string) (d1 d2 : CategoryData.t)
  (t1 e1 b1 a1 t2 e2 b2 a2 : string) :
  (ScriptGenerator.cleanup_block
     (ScriptGenerator.cleanup_block (ScriptGenerator.text header)
        d1 t1 e1 b1 a1)
     d2 t2 e2 b2 a2
   ++ ScriptGenerator.text footer)%string =
  ScriptGenerator.text
    (header ++ block_lines d1 t1 e1 b1 a1 ++ block_lines d2 t2 e2 b2 a2
     ++ footer).
Proof.
  rewrite !cleanup_block_eq, !text_app, !append_assoc. reflexivity.
Qed.

Lemma aws_script_eq (data : ScriptGenerator.Data) :
  exists header footer,
    Forall (fun l => one_line l = true) header /\
    Forall (fun l => one_line l = true) footer /\
    forall data',
      ScriptGenerator._generate_aws_cleanup_script data' =
      ScriptGenerator.text
        (header ++
         block_lines (ScriptGenerator.category data' "EBS Volumes")
           "# Cleanup unattached EBS volumes"
           "echo 'Cleaning up unattached EBS volumes...'"
           "# aws ec2 delete-volume --volume-id " " --region $AWS_REGION" ++
         block_lines (ScriptGenerator.category data' "Elastic IPs")
           "# Release unattached Elastic IPs"
           "echo 'Releasing unattached Elastic IPs...'"
           "# aws ec2 release-address --allocation-id " " --region $AWS_REGION" ++
         footer).
Proof.
  unfold ScriptGenerator._generate_aws_cleanup_script,
    ScriptGenerator.aws_header, ScriptGenerator.aws_footer.
  eexists. eexists. split; [|split].
  3: { intros data'. apply two_blocks_eq. }
  - repeat (constructor; [vm_compute; reflexivity|]). constructor.
  - repeat (constructor; [vm_compute; reflexivity|]). constructor.
Qed.

Lemma lines_of_text (ls : list string) :
  Forall (fun l => one_line l = true) ls ->
  lines (ScriptGenerator.text ls) = (ls ++ [EmptyString])%list.
Proof.
  intros H. rewrite <- (append_empty_r (ScriptGenerator.text ls)).
  now rewrite lines_text.
Qed.

Lemma block_lines_one_line (d : CategoryData.t) (title echo before after : string) :
  one_line title = true -> one_line echo = true ->
  one_line before = true -> one_line after = true ->
  (forall item,
     In item (firstn 10 (Py.get (CategoryData.items d) [])) ->
     one_line (Finding.resource_id item) = true) ->
  Forall (fun l => one_line l = true) (block_lines d title echo before after).
Proof.
  intros Ht He Hb Ha Hids. unfold block_lines.
  destruct (Py.get (CategoryData.items d) []) as [|item rest]; [constructor|].
  constructor; [exact Ht|]. constructor; [exact He|].
  apply Forall_app. split; [|repeat constructor].
  apply Forall_forall. intros l Hl. apply in_map_iff in Hl.
  destruct Hl as (it & <- & Hit). apply filter_In in Hit.
  rewrite !one_line_append, Hb, Ha, (Hids it) by tauto. reflexivity.
Qed.

Lemma block_lines_shape (d : CategoryData.t) (title echo before after l : string) :
  In l (block_lines d title echo before after) ->
  l = title \/ l = echo \/ l = EmptyString \/
  exists item,
    In item (firstn 10 (Py.get (CategoryData.items d) [])) /\
    Finding.resource_id item <> EmptyString /\
    l = (before ++ Finding.resource_id item ++ after)%string.
Proof.
  unfold block_lines.
  destruct (Py.get (CategoryData.items d) []) as [|item rest]; [intros []|].
  intros [<-|[<-|Hl]]; [now left | now right; left |].
  apply in_app_iff in Hl. destruct Hl as [Hl|[<-|[]]]; [|now right; right; left].
  right; right; right. apply in_map_iff in Hl.
  destruct Hl as (it & <- & Hit). apply filter_In in Hit.
  destruct Hit as [Hin Hid]. exists it. split; [exact Hin|]. split; [|reflexivity].
  apply negb_true_iff in Hid. now apply String.eqb_neq in Hid.
Qed.

(** X21. Whatever the findings, the AWS cleanup script differs from the
    script generated for an analysis without findings only by comment
    lines and by the two fixed echo lines: every delete or release command
    is written behind ["# "], never as a live command.  This needs the
    resource ids of the listed findings (the first ten of each category)
    to be free of line feeds. *)
Theorem aws_cleanup_commands_commented :
  forall data : ScriptGenerator.Data,
    (forall item,
       In item (listed data "EBS Volumes" ++ listed data "Elastic IPs") ->
       one_line (Finding.resource_id item) = true) ->
    forall l,
      In l (lines (ScriptGenerator._generate_aws_cleanup_script data)) ->
      In l (lines (ScriptGenerator._generate_aws_cleanup_script
                     (ScriptGenerator.BuildData None))) \/
      String.prefix "# " l = true \/
      l = "echo 'Cleaning up unattached EBS volumes...'" \/
      l = "echo 'Releasing unattached Elastic IPs...'".
Proof.
  intros data Hids l Hl.
  destruct (aws_script_eq data) as (header & footer & Hh & Hf & Heq).
  rewrite (Heq (ScriptGenerator.BuildData None)).
  rewrite Heq in Hl.
  assert (block_lines (ScriptGenerator.category (ScriptGenerator.BuildData None)
                         "EBS Volumes")
            "# Cleanup unattached EBS volumes"
            "echo 'Cleaning up unattached EBS volumes...'"
            "# aws ec2 delete-volume --volume-id " " --region $AWS_REGION" = [])
    as -> by reflexivity.
  assert (block_lines (ScriptGenerator.category (ScriptGenerator.BuildData None)
                         "Elastic IPs")
            "# Release unattached Elastic IPs"
            "echo 'Releasing unattached Elastic IPs...'"
            "# aws ec2 release-address --allocation-id " " --region $AWS_REGION" = [])
    as -> by reflexivity.
  cbn [app].
  rewrite lines_of_text by (apply Forall_app; now split).
  rewrite lines_of_text in Hl.
  2: { repeat (apply Forall_app; split); auto;
       apply block_lines_one_line; try reflexivity;
       intros item Hin; apply Hids; apply in_app_iff; [left | right]; exact Hin. }
  rewrite <- !app_assoc in Hl.
  apply in_app_iff in Hl. destruct Hl as [Hl|Hl];
    [left; apply in_app_iff; left; apply in_app_iff; now left|].
  apply in_app_iff in Hl. destruct Hl as [Hl|Hl].
  { apply block_lines_shape in Hl.
    destruct Hl as [->|[->|[->|(item & _ & _ & ->)]]].
    - right; left. reflexivity.
    - right; right; left. reflexivity.
    - left. apply in_app_iff. right. now left.
    - right; left. reflexivity. }
  apply in_app_iff in Hl. destruct Hl as [Hl|Hl].
  { apply block_lines_shape in Hl.
    destruct Hl as [->|[->|[->|(item & _ & _ & ->)]]].
    - right; left. reflexivity.
    - right; right; right. reflexivity.
    - left. apply in_app_iff. right. now left.
    - right; left. reflexivity. }
  left. rewrite <- app_assoc. apply in_app_iff. right. exact Hl.
Qed.

Lemma aws_cleanup_commands_commented_witness :
  In "# aws ec2 delete-volume --volume-id vol-0a1b --region $AWS_REGION"
     (lines (ScriptGenerator._generate_aws_cleanup_script
               (ScriptGenerator.BuildData None))) \/
  String.prefix "# "
    "# aws ec2 delete-volume --volume-id vol-0a1b --region $AWS_REGION" = true \/
  "# aws ec2 delete-volume --volume-id vol-0a1b --region $AWS_REGION" =
    "echo 'Cleaning up unattached EBS volumes...'" \/
  "# aws ec2 delete-volume --volume-id vol-0a1b --region $AWS_REGION" =
    "echo 'Releasing unattached Elastic IPs...'".
Proof.
  apply (aws_cleanup_commands_commented
           (ScriptGenerator.BuildData
              (Some [("EBS Volumes",
                      CategoryData.Build (Some 1) (Some 8%Q)
                        (Some [Finding.Build "vol-0a1b" "EBS Volume"
                                 (Some "us-east-1") "Unattached volume"
                                 "Delete if not needed or create snapshot"
                                 8%Q (99 # 100)%Q]))]))).
  - intros item [<-|[]]. reflexivity.
  - vm_compute. do 26 right. left. reflexivity.
Defined.

Lemma block_lines_command (d : CategoryData.t) (title echo before after : string)
  (item : Finding.t) :
  In item (firstn 10 (Py.get (CategoryData.items d) [])) ->
  Finding.resource_id item <> EmptyString ->
  In (before ++ Finding.resource_id item ++ after)%string
     (block_lines d title echo before after).
Proof.
  intros Hin Hid. unfold block_lines.
  destruct (Py.get (CategoryData.items d) []) as [|it rest] eqn:E;
    [destruct Hin|].
  right; right. apply in_app_iff. left.
  apply in_map_iff. exists item. split; [reflexivity|].
  apply filter_In. split; [exact Hin|].
  apply negb_true_iff. now apply String.eqb_neq.
Qed.

Lemma block_lines_length (d : CategoryData.t) (title echo before after : string) :
  (List.length (block_lines d title echo before after) <= 13)%nat.
Proof.
  unfold block_lines.
  destruct (Py.get (CategoryData.items d) []) as [|it rest]; [cbn; lia|].
  cbn [List.length]. rewrite length_app, length_map. cbn [List.length].
  pose proof (filter_length_le
                (fun item => negb (String.eqb (Finding.resource_id item) ""))
                (firstn 10 (it :: rest))) as H1.
  pose proof (firstn_le_length 10 (it :: rest)) as H2. lia.
Qed.

(** X22. The AWS cleanup script names every listed finding that has a
    resource id: the first ten EBS volumes appear as commented
    [delete-volume] commands and the first ten Elastic IPs as commented
    [release-address] commands.  Findings beyond the tenth add no line:
    the script is at most 26 lines longer than the one generated without
    findings.  The resource ids of the listed findings must be free of
    line feeds. *)
Theorem aws_cleanup_lists_first_ten :
  forall data : ScriptGenerator.Data,
    (forall item,
       In item (listed data "EBS Volumes" ++ listed data "Elastic IPs") ->
       one_line (Finding.resource_id item) = true) ->
    (forall item,
       In item (listed data "EBS Volumes") ->
       Finding.resource_id item <> "" ->
       In ("# aws ec2 delete-volume --volume-id " ++ Finding.resource_id item
           ++ " --region $AWS_REGION")
          (lines (ScriptGenerator._generate_aws_cleanup_script data))) /\
    (forall item,
       In item (listed data "Elastic IPs") ->
       Finding.resource_id item <> "" ->
       In ("# aws ec2 release-address --allocation-id "
           ++ Finding.resource_id item ++ " --region $AWS_REGION")
          (lines (ScriptGenerator._generate_aws_cleanup_script data))) /\
    (List.length (lines (ScriptGenerator._generate_aws_cleanup_script data)) <=
     List.length (lines (ScriptGenerator._generate_aws_cleanup_script
                           (ScriptGenerator.BuildData None))) + 26)%nat.
Proof.
  intros data Hids.
  destruct (aws_script_eq data) as (header & footer & Hh & Hf & Heq).
  rewrite (Heq (ScriptGenerator.BuildData None)), (Heq data).
  assert (block_lines (ScriptGenerator.category (ScriptGenerator.BuildData None)
                         "EBS Volumes")
            "# Cleanup unattached EBS volumes"
            "echo 'Cleaning up unattached EBS volumes...'"
            "# aws ec2 delete-volume --volume-id " " --region $AWS_REGION" = [])
    as -> by reflexivity.
  assert (block_lines (ScriptGenerator.category (ScriptGenerator.BuildData None)
                         "Elastic IPs")
            "# Release unattached Elastic IPs"
            "echo 'Releasing unattached Elastic IPs...'"
            "# aws ec2 release-address --allocation-id " " --region $AWS_REGION" = [])
    as -> by reflexivity.
  cbn [app].
  rewrite (lines_of_text (header ++ footer)) by (apply Forall_app; now split).
  rewrite lines_of_text.
  2: { repeat (apply Forall_app; split); auto;
       apply block_lines_one_line; try reflexivity;
       intros item Hin; apply Hids; apply in_app_iff; [left | right]; exact Hin. }
  split; [|split].
  - intros item Hin Hid. rewrite !in_app_iff. left. right. left.
    now apply block_lines_command.
  - intros item Hin Hid. rewrite !in_app_iff. left. right. right. left.
    now apply block_lines_command.
  - rewrite !length_app.
    pose proof (block_lines_length (ScriptGenerator.category data "EBS Volumes")
      "# Cleanup unattached EBS volumes"
      "echo 'Cleaning up unattached EBS volumes...'"
      "# aws ec2 delete-volume --volume-id " " --region $AWS_REGION").
    pose proof (block_lines_length (ScriptGenerator.category data "Elastic IPs")
      "# Release unattached Elastic IPs"
      "echo 'Releasing unattached Elastic IPs...'"
      "# aws ec2 release-address --allocation-id " " --region $AWS_REGION").
    lia.
Qed.

Lemma aws_cleanup_lists_first_ten_witness :
  In "# aws ec2 release-address --allocation-id eipalloc-7 --region $AWS_REGION"
     (lines (ScriptGenerator._generate_aws_cleanup_script
               (ScriptGenerator.BuildData
                  (Some [("Elastic IPs",
                          CategoryData.Build (Some 1) (Some (36 # 10)%Q)
                            (Some [Finding.Build "eipalloc-7" "Elastic IP"
                                     (Some "us-east-1") "Unattached Elastic IP"
                                     "Release if not needed"
                                     (36 # 10)%Q 1%Q]))])))).
Proof.
  refine (proj1 (proj2 (aws_cleanup_lists_first_ten
           (ScriptGenerator.BuildData
              (Some [("Elastic IPs",
                      CategoryData.Build (Some 1) (Some (36 # 10)%Q)
                        (Some [Finding.Build "eipalloc-7" "Elastic IP"
                                 (Some "us-east-1") "Unattached Elastic IP"
                                 "Release if not needed"
                                 (36 # 10)%Q 1%Q]))])) _))
           (Finding.Build "eipalloc-7" "Elastic IP"
              (Some "us-east-1") "Unattached Elastic IP"
              "Release if not needed" (36 # 10)%Q 1%Q) _ _).
  - intros item [<-|[]]. reflexivity.
  - left. reflexivity.
  - discriminate.
Defined.
